(** * MAVLink mission manager (src/modules/mavlink/mavlink_mission.cpp)

    A shallow embedding of [MavlinkMissionManager]: the transfer state
    machine (IDLE / SENDLIST / GETLIST), the dispatch of the inbound
    mission messages, the persistence adapter on top of dataman, the item
    codec and the progress publisher, followed by the properties of the
    mission protocol that are established on it.

    Conventions.
    - C integers are [Z]; conversions to a fixed-width unsigned type are
      written out with [u8], [u16], [u32], [u64].
    - The class has static members (shared by all instances) and instance
      members; they are the records [Globals] and [Endpoint].  Everything
      outside the class (dataman, the clock, uORB, the MAVLink channel) is
      the record [World].
    - Every call that leaves the class (a message sent, a dataman write,
      lock or unlock, a uORB publication) is appended to [log], together
      with the values that the members of the class have at the moment of
      the call.  [log] is kept newest first.
    - Console logging ([PX4_INFO], [PX4_ERR], [PX4_WARN], [warnx]) has no
      effect on the protocol and is left out, and so is [_verbose], which
      only guards console logging. *)

From Stdlib Require Import ZArith QArith Qround Bool List String Lia.
From stdpp Require Import base option countable gmap list.
Import ListNotations.

Local Open Scope Z_scope.

(** ** Fixed-width integers *)

Definition u8  (x : Z) : Z := x mod 2^8.
Definition u16 (x : Z) : Z := x mod 2^16.
Definition u32 (x : Z) : Z := x mod 2^32.
Definition u64 (x : Z) : Z := x mod 2^64.
(** Two's complement reading of a 32-bit word. *)
Definition s32 (x : Z) : Z := let y := u32 x in if y <? 2^31 then y else y - 2^32.

(** ** Constants of the MAVLink dialect and of PX4 *)

Definition PX4_OK : Z := 0.
Definition PX4_ERROR : Z := -1.

Definition MAV_COMP_ID_ALL : Z := 0.
Definition MAV_COMP_ID_MISSIONPLANNER : Z := 190.

Definition MAV_MISSION_TYPE_MISSION : Z := 0.
Definition MAV_MISSION_TYPE_FENCE : Z := 1.
Definition MAV_MISSION_TYPE_RALLY : Z := 2.
Definition MAV_MISSION_TYPE_ALL : Z := 255.

Definition MAV_MISSION_ACCEPTED : Z := 0.
Definition MAV_MISSION_ERROR : Z := 1.
Definition MAV_MISSION_UNSUPPORTED_FRAME : Z := 2.
Definition MAV_MISSION_UNSUPPORTED : Z := 3.
Definition MAV_MISSION_NO_SPACE : Z := 4.

Definition MAV_FRAME_GLOBAL : Z := 0.
Definition MAV_FRAME_MISSION : Z := 2.
Definition MAV_FRAME_GLOBAL_RELATIVE_ALT : Z := 3.
Definition MAV_FRAME_GLOBAL_INT : Z := 5.
Definition MAV_FRAME_GLOBAL_RELATIVE_ALT_INT : Z := 6.

Definition MAV_CMD_NAV_WAYPOINT : Z := 16.
Definition MAV_CMD_NAV_LOITER_UNLIM : Z := 17.
Definition MAV_CMD_NAV_LOITER_TIME : Z := 19.
Definition MAV_CMD_NAV_RETURN_TO_LAUNCH : Z := 20.
Definition MAV_CMD_NAV_LAND : Z := 21.
Definition MAV_CMD_NAV_TAKEOFF : Z := 22.
Definition MAV_CMD_NAV_LOITER_TO_ALT : Z := 31.
Definition MAV_CMD_NAV_ROI : Z := 80.
Definition MAV_CMD_NAV_VTOL_TAKEOFF : Z := 84.
Definition MAV_CMD_NAV_VTOL_LAND : Z := 85.
Definition MAV_CMD_NAV_DELAY : Z := 93.
Definition MAV_CMD_DO_JUMP : Z := 177.
Definition MAV_CMD_DO_CHANGE_SPEED : Z := 178.
Definition MAV_CMD_DO_SET_SERVO : Z := 183.
Definition MAV_CMD_DO_LAND_START : Z := 189.
Definition MAV_CMD_DO_SET_ROI : Z := 201.
Definition MAV_CMD_DO_DIGICAM_CONTROL : Z := 203.
Definition MAV_CMD_DO_MOUNT_CONFIGURE : Z := 204.
Definition MAV_CMD_DO_MOUNT_CONTROL : Z := 205.
Definition MAV_CMD_DO_SET_CAM_TRIGG_DIST : Z := 206.
Definition MAV_CMD_DO_SET_CAM_TRIGG_INTERVAL : Z := 214.
Definition MAV_CMD_SET_CAMERA_MODE : Z := 530.
Definition MAV_CMD_IMAGE_START_CAPTURE : Z := 2000.
Definition MAV_CMD_IMAGE_STOP_CAPTURE : Z := 2001.
Definition MAV_CMD_DO_TRIGGER_CONTROL : Z := 2003.
Definition MAV_CMD_VIDEO_START_CAPTURE : Z := 2500.
Definition MAV_CMD_VIDEO_STOP_CAPTURE : Z := 2501.
Definition MAV_CMD_DO_VTOL_TRANSITION : Z := 3000.
Definition MAV_CMD_NAV_FENCE_RETURN_POINT : Z := 5000.
Definition MAV_CMD_NAV_FENCE_POLYGON_VERTEX_INCLUSION : Z := 5001.
Definition MAV_CMD_NAV_FENCE_POLYGON_VERTEX_EXCLUSION : Z := 5002.
Definition MAV_CMD_NAV_FENCE_CIRCLE_INCLUSION : Z := 5003.
Definition MAV_CMD_NAV_FENCE_CIRCLE_EXCLUSION : Z := 5004.
Definition MAV_CMD_NAV_RALLY_POINT : Z := 5100.

(** [enum NAV_CMD] of navigator/navigation.h repeats the MAVLink numbers. *)
Definition NAV_CMD_WAYPOINT : Z := MAV_CMD_NAV_WAYPOINT.
Definition NAV_CMD_LOITER_UNLIMITED : Z := MAV_CMD_NAV_LOITER_UNLIM.
Definition NAV_CMD_LOITER_TIME_LIMIT : Z := MAV_CMD_NAV_LOITER_TIME.
Definition NAV_CMD_LAND : Z := MAV_CMD_NAV_LAND.
Definition NAV_CMD_TAKEOFF : Z := MAV_CMD_NAV_TAKEOFF.
Definition NAV_CMD_LOITER_TO_ALT : Z := MAV_CMD_NAV_LOITER_TO_ALT.
Definition NAV_CMD_ROI : Z := MAV_CMD_NAV_ROI.
Definition NAV_CMD_DO_JUMP : Z := MAV_CMD_DO_JUMP.
Definition NAV_CMD_DO_CHANGE_SPEED : Z := MAV_CMD_DO_CHANGE_SPEED.
Definition NAV_CMD_DO_SET_SERVO : Z := MAV_CMD_DO_SET_SERVO.
Definition NAV_CMD_DO_LAND_START : Z := MAV_CMD_DO_LAND_START.
Definition NAV_CMD_DO_SET_ROI : Z := MAV_CMD_DO_SET_ROI.
Definition NAV_CMD_DO_DIGICAM_CONTROL : Z := MAV_CMD_DO_DIGICAM_CONTROL.
Definition NAV_CMD_DO_MOUNT_CONFIGURE : Z := MAV_CMD_DO_MOUNT_CONFIGURE.
Definition NAV_CMD_DO_MOUNT_CONTROL : Z := MAV_CMD_DO_MOUNT_CONTROL.
Definition NAV_CMD_DO_SET_CAM_TRIGG_DIST : Z := MAV_CMD_DO_SET_CAM_TRIGG_DIST.
Definition NAV_CMD_DO_SET_CAM_TRIGG_INTERVAL : Z := MAV_CMD_DO_SET_CAM_TRIGG_INTERVAL.
Definition NAV_CMD_SET_CAMERA_MODE : Z := MAV_CMD_SET_CAMERA_MODE.
Definition NAV_CMD_IMAGE_START_CAPTURE : Z := MAV_CMD_IMAGE_START_CAPTURE.
Definition NAV_CMD_IMAGE_STOP_CAPTURE : Z := MAV_CMD_IMAGE_STOP_CAPTURE.
Definition NAV_CMD_DO_TRIGGER_CONTROL : Z := MAV_CMD_DO_TRIGGER_CONTROL.
Definition NAV_CMD_VIDEO_START_CAPTURE : Z := MAV_CMD_VIDEO_START_CAPTURE.
Definition NAV_CMD_VIDEO_STOP_CAPTURE : Z := MAV_CMD_VIDEO_STOP_CAPTURE.
Definition NAV_CMD_DO_VTOL_TRANSITION : Z := MAV_CMD_DO_VTOL_TRANSITION.
Definition NAV_CMD_INVALID : Z := 65535.

Definition ORIGIN_MAVLINK : Z := 0.

(** Modelled from the spec: mavlink_mission.h is not part of the sources;
    section 6 of the specification gives
    [filesystem_errcount_notify_limit (2)]. *)
Definition FILESYSTEM_ERRCOUNT_NOTIFY_LIMIT : Z := 2.

(** A [case A: case B: ...] group of a [switch]. *)
Definition one_of (c : Z) (labels : list Z) : bool := existsb (Z.eqb c) labels.

(** ** Dataman keys (dataman.h), the ones this file uses *)

Inductive dm_item_t :=
| DM_KEY_SAFE_POINTS
| DM_KEY_FENCE_POINTS
| DM_KEY_WAYPOINTS_OFFBOARD_0
| DM_KEY_WAYPOINTS_OFFBOARD_1
| DM_KEY_MISSION_STATE.

#[global] Instance dm_item_t_eq_dec : EqDecision dm_item_t.
Proof. solve_decision. Defined.

Definition dm_item_t_code (k : dm_item_t) : nat :=
  match k with
  | DM_KEY_SAFE_POINTS => 0
  | DM_KEY_FENCE_POINTS => 1
  | DM_KEY_WAYPOINTS_OFFBOARD_0 => 2
  | DM_KEY_WAYPOINTS_OFFBOARD_1 => 3
  | DM_KEY_MISSION_STATE => 4
  end%nat.

Definition dm_item_t_of_code (n : nat) : dm_item_t :=
  match n with
  | 0 => DM_KEY_SAFE_POINTS
  | 1 => DM_KEY_FENCE_POINTS
  | 2 => DM_KEY_WAYPOINTS_OFFBOARD_0
  | 3 => DM_KEY_WAYPOINTS_OFFBOARD_1
  | _ => DM_KEY_MISSION_STATE
  end%nat.

#[global] Instance dm_item_t_countable : Countable dm_item_t.
Proof.
  refine (inj_countable' dm_item_t_code dm_item_t_of_code _).
  intros []; reflexivity.
Defined.

(** ** What the platform provides

    Single and double precision arithmetic, and the capacities of the
    dataman namespaces (dataman.h), are not defined by this file: the
    model takes them as an interface.  [F] is C [float], [D] is C
    [double]. *)
Class Platform := {
  F : Type;
  D : Type;
  f_zero : F;                      (* 0.0f *)
  f_half : F;                      (* 0.5f *)
  f_add : F -> F -> F;
  f_mul : F -> F -> F;
  f_gt0 : F -> bool;               (* x > 0 *)
  M_DEG_TO_RAD_F : F;
  M_RAD_TO_DEG_F : F;
  _wrap_pi : F -> F;
  f_of_int : Z -> F;               (* integer or bool to float *)
  f_to_uint16 : F -> Z;            (* (uint16_t) x *)
  f_to_int16 : F -> Z;             (* (int16_t) x *)
  f_of_bits : Z -> F;              (* the float stored in a 32-bit word *)
  f_to_bits : F -> Z;              (* the 32-bit word storing a float *)
  d_of_float : F -> D;             (* (double) x *)
  d_to_float : D -> F;             (* (float) x *)
  d_of_int32 : Z -> D;             (* (double) n *)
  d_to_int32 : D -> Z;             (* (int32_t) x *)
  d_mul : D -> D -> D;
  d_1e7 : D;                       (* 1e7 *)
  d_1e_7 : D;                      (* 1e-7 *)
  d_zero : D;
  (* MAX_COUNT[] = { mission, fence, rally } *)
  MAX_COUNT : list Z
}.

Section Model.
Context {P : Platform}.

(** ** Persisted records (uORB mission.msg, navigator/navigation.h) *)

Record mission_s := {
  dataman_id : Z;
  count : Z;
  current_seq : Z
}.

Record mission_stats_entry_s := {
  num_items : Z;
  update_counter : Z
}.

(** Modelled from the spec: navigator/navigation.h is not part of the
    sources.  The fields are those of section 3 of the specification.  The
    comment in [parse_mavlink_mission_item] says that [time_inside] shares
    its storage with [pitch_min] and [circle_radius], so the three are one
    field here.  [autocontinue] is a flag like [loiter_exit_xtrack],
    [force_heading] and [altitude_is_relative]; a flag is taken to hold one
    bit, so that the assignment of the [uint8_t] field of a message keeps
    the lowest bit, and the flag is 0 or 1 when it is read. *)
Record mission_item_s := {
  lat : D;
  lon : D;
  time_inside : F;
  acceptance_radius : F;
  loiter_radius : F;
  yaw : F;
  altitude : F;
  params : list F;
  nav_cmd : Z;
  do_jump_mission_index : Z;
  do_jump_repeat_count : Z;
  do_jump_current_count : Z;
  vertex_count : Z;
  frame : Z;
  origin : Z;
  loiter_exit_xtrack : bool;
  force_heading : bool;
  altitude_is_relative : bool;
  autocontinue : bool
}.

Definition pitch_min := time_inside.
Definition circle_radius := time_inside.

(** [struct mission_item_s mission_item = {}] *)
Definition mission_item_zero : mission_item_s :=
  {| lat := d_zero; lon := d_zero; time_inside := f_zero;
     acceptance_radius := f_zero; loiter_radius := f_zero; yaw := f_zero;
     altitude := f_zero; params := repeat f_zero 7; nav_cmd := 0;
     do_jump_mission_index := 0; do_jump_repeat_count := 0;
     do_jump_current_count := 0; vertex_count := 0; frame := 0; origin := 0;
     loiter_exit_xtrack := false; force_heading := false;
     altitude_is_relative := false; autocontinue := false |}.

Record mission_fence_point_s := {
  fp_lat : D;
  fp_lon : D;
  fp_alt : F;
  fp_nav_cmd : Z;
  fp_vertex_count : Z;
  fp_circle_radius : F;
  fp_frame : Z
}.

Record mission_save_point_s := {
  sp_lat : D;
  sp_lon : D;
  sp_alt : F;
  sp_frame : Z
}.

(** uORB mission_result.msg, the fields read by [send]. *)
Record mission_result_s := {
  seq_current : Z;
  seq_reached : Z;
  reached : bool;
  item_do_jump_changed : bool;
  item_changed_index : Z
}.

(** ** MAVLink messages *)

Record mavlink_mission_ack_t := {
  wpa_target_system : Z;
  wpa_target_component : Z;
  wpa_type : Z;
  wpa_mission_type : Z
}.

Record mavlink_mission_set_current_t := {
  wsc_target_system : Z;
  wsc_target_component : Z;
  wsc_seq : Z
}.

Record mavlink_mission_request_list_t := {
  wprl_target_system : Z;
  wprl_target_component : Z;
  wprl_mission_type : Z
}.

(** [mavlink_mission_request_t] and [mavlink_mission_request_int_t] have the
    same fields; the source decodes both with the float variant. *)
Record mavlink_mission_request_t := {
  wpr_target_system : Z;
  wpr_target_component : Z;
  wpr_seq : Z;
  wpr_mission_type : Z
}.

Record mavlink_mission_count_t := {
  wpc_target_system : Z;
  wpc_target_component : Z;
  wpc_count : Z;
  wpc_mission_type : Z
}.

(** [mavlink_mission_item_t] and [mavlink_mission_item_int_t] differ in the
    type of [x] and [y] only (float against int32); the source casts between
    the two.  [x] and [y] are kept as the 32-bit words on the wire and read
    with [f_of_bits] or [s32]. *)
Record mavlink_mission_item_t := {
  wp_param1 : F;
  wp_param2 : F;
  wp_param3 : F;
  wp_param4 : F;
  wp_x : Z;
  wp_y : Z;
  wp_z : F;
  wp_seq : Z;
  wp_command : Z;
  wp_target_system : Z;
  wp_target_component : Z;
  wp_frame : Z;
  wp_current : Z;
  wp_autocontinue : Z;
  wp_mission_type : Z
}.

Record mavlink_mission_clear_all_t := {
  wpca_target_system : Z;
  wpca_target_component : Z;
  wpca_mission_type : Z
}.

(** An inbound [mavlink_message_t]: the sender and the decoded payload. *)
Inductive mavlink_payload :=
| MAVLINK_MSG_ID_MISSION_ACK (wpa : mavlink_mission_ack_t)
| MAVLINK_MSG_ID_MISSION_SET_CURRENT (wpc : mavlink_mission_set_current_t)
| MAVLINK_MSG_ID_MISSION_REQUEST_LIST (wprl : mavlink_mission_request_list_t)
| MAVLINK_MSG_ID_MISSION_REQUEST (wpr : mavlink_mission_request_t)
| MAVLINK_MSG_ID_MISSION_REQUEST_INT (wpr : mavlink_mission_request_t)
| MAVLINK_MSG_ID_MISSION_COUNT (wpc : mavlink_mission_count_t)
| MAVLINK_MSG_ID_MISSION_ITEM (wp : mavlink_mission_item_t)
| MAVLINK_MSG_ID_MISSION_ITEM_INT (wp : mavlink_mission_item_t)
| MAVLINK_MSG_ID_MISSION_CLEAR_ALL (wpca : mavlink_mission_clear_all_t)
| MAVLINK_MSG_ID_OTHER.

Record mavlink_message_t := {
  sysid : Z;
  compid : Z;
  payload : mavlink_payload
}.

(** ** Dataman *)

(** Modelled from the spec: the macro of dataman.h is not part of the
    sources; section 4.4 has the mission namespace double-buffered across
    the two ids [WAYPOINTS_OFFBOARD(0|1)]. *)
Definition DM_KEY_WAYPOINTS_OFFBOARD (id : Z) : dm_item_t :=
  if id =? 0 then DM_KEY_WAYPOINTS_OFFBOARD_0 else DM_KEY_WAYPOINTS_OFFBOARD_1.

(** What a slot holds.  A read or write moves [sizeof] bytes of one of these
    structures; reading a slot as another structure is a size mismatch. *)
Inductive dm_value :=
| DmMissionState (m : mission_s)
| DmStats (s : mission_stats_entry_s)
| DmMissionItem (i : mission_item_s)
| DmFencePoint (p : mission_fence_point_s)
| DmSafePoint (p : mission_save_point_s).

(** ** Calls that leave the class *)

Inductive Event :=
| mavlink_msg_mission_ack_send (wpa : mavlink_mission_ack_t)
| mavlink_msg_mission_current_send (seq : Z)
| mavlink_msg_mission_count_send (wpc : mavlink_mission_count_t)
| mavlink_msg_mission_item_send (wp : mavlink_mission_item_t)
| mavlink_msg_mission_item_int_send (wp : mavlink_mission_item_t)
| mavlink_msg_mission_request_send (wpr : mavlink_mission_request_t)
| mavlink_msg_mission_request_int_send (wpr : mavlink_mission_request_t)
| mavlink_msg_mission_item_reached_send (seq : Z)
| statustext_critical (text : string)
| dm_write_call (item : dm_item_t) (index : Z) (v : dm_value) (ok : bool)
| dm_lock_call (item : dm_item_t) (ok : bool)
| dm_unlock_call (item : dm_item_t)
| orb_advertise_call (m : mission_s)
| orb_publish_call (m : mission_s).

(** ** The members of the class *)

Inductive MAVLINK_WPM_STATES :=
| MAVLINK_WPM_STATE_IDLE
| MAVLINK_WPM_STATE_SENDLIST
| MAVLINK_WPM_STATE_GETLIST.

(** Modelled from the spec: [MavlinkRateLimiter] is not part of the sources;
    section 4.5 has "a rate limiter (one token per 100 ms)". *)
Record MavlinkRateLimiter := {
  rl_last_sent : Z;
  rl_interval : Z
}.

(** Static members: one copy for all the instances. *)
Record Globals := {
  _dataman_id : Z;
  _dataman_init : bool;
  _count : list Z;
  _current_seq : Z;
  _last_reached : Z;
  _transfer_in_progress : bool;
  _geofence_update_counter : Z
}.

(** Instance members.  mavlink_mission.h is not part of the sources;
    [_transfer_seq], [_transfer_count] and [_filesystem_errcount] are taken
    to be [unsigned], as their uses ([%u], comparison with the [unsigned]
    counts) indicate.  [_offboard_mission_pub] records whether the topic was
    advertised (the pointer is not [nullptr]). *)
Record Endpoint := {
  _state : MAVLINK_WPM_STATES;
  _mission_type : Z;
  _time_last_recv : Z;
  _time_last_sent : Z;
  _time_last_reached : Z;
  _action_timeout : Z;
  _retry_timeout : Z;
  _int_mode : bool;
  _filesystem_errcount : Z;
  _my_dataman_id : Z;
  _transfer_dataman_id : Z;
  _transfer_count : Z;
  _transfer_seq : Z;
  _transfer_current_seq : Z;
  _transfer_partner_sysid : Z;
  _transfer_partner_compid : Z;
  _offboard_mission_pub : bool;
  _geofence_locked : bool;
  _slow_rate_limiter : MavlinkRateLimiter
}.

(** One entry of the log: the call, and the members when it was made. *)
Record Entry := {
  call : Event;
  at_g : Globals;
  at_e : Endpoint
}.

(** Everything outside the class.  [dm_faults] scripts the outcome of the
    coming dataman calls, one flag per call ([true]: the call fails); when
    it is used up, calls succeed.  [hrt_now] is the monotonic clock,
    [mission_result] the pending update of the uORB topic, if any, and
    [wp_uninit] what the local [wp] of [send_mission_item], which the source
    does not initialise, holds before it is filled in. *)
Record World := {
  dm_store : gmap (dm_item_t * Z) dm_value;
  dm_faults : list bool;
  fence_lock : bool;
  hrt_now : Z;
  mission_result : option mission_result_s;
  mavlink_system_sysid : Z;
  mavlink_system_compid : Z;
  wp_uninit : mavlink_mission_item_t;
  log : list Entry
}.

Record MM := {
  g : Globals;
  e : Endpoint;
  w : World
}.

(** ** Field updates *)

Definition set_dataman_id (x : Z) (g0 : Globals) : Globals :=
  Build_Globals x (_dataman_init g0) (_count g0) (_current_seq g0)
    (_last_reached g0) (_transfer_in_progress g0) (_geofence_update_counter
    g0).
Definition set_dataman_init (x : bool) (g0 : Globals) : Globals :=
  Build_Globals (_dataman_id g0) x (_count g0) (_current_seq g0)
    (_last_reached g0) (_transfer_in_progress g0) (_geofence_update_counter
    g0).
Definition set_count (x : list Z) (g0 : Globals) : Globals :=
  Build_Globals (_dataman_id g0) (_dataman_init g0) x (_current_seq g0)
    (_last_reached g0) (_transfer_in_progress g0) (_geofence_update_counter
    g0).
Definition set_current_seq (x : Z) (g0 : Globals) : Globals :=
  Build_Globals (_dataman_id g0) (_dataman_init g0) (_count g0) x
    (_last_reached g0) (_transfer_in_progress g0) (_geofence_update_counter
    g0).
Definition set_last_reached (x : Z) (g0 : Globals) : Globals :=
  Build_Globals (_dataman_id g0) (_dataman_init g0) (_count g0)
    (_current_seq g0) x (_transfer_in_progress g0) (_geofence_update_counter
    g0).
Definition set_transfer_in_progress (x : bool) (g0 : Globals) : Globals :=
  Build_Globals (_dataman_id g0) (_dataman_init g0) (_count g0)
    (_current_seq g0) (_last_reached g0) x (_geofence_update_counter g0).
Definition set_geofence_update_counter (x : Z) (g0 : Globals) : Globals :=
  Build_Globals (_dataman_id g0) (_dataman_init g0) (_count g0)
    (_current_seq g0) (_last_reached g0) (_transfer_in_progress g0) x.
Definition set_state (x : MAVLINK_WPM_STATES) (e0 : Endpoint) : Endpoint :=
  Build_Endpoint x (_mission_type e0) (_time_last_recv e0) (_time_last_sent
    e0) (_time_last_reached e0) (_action_timeout e0) (_retry_timeout e0)
    (_int_mode e0) (_filesystem_errcount e0) (_my_dataman_id e0)
    (_transfer_dataman_id e0) (_transfer_count e0) (_transfer_seq e0)
    (_transfer_current_seq e0) (_transfer_partner_sysid e0)
    (_transfer_partner_compid e0) (_offboard_mission_pub e0)
    (_geofence_locked e0) (_slow_rate_limiter e0).
Definition set_mission_type (x : Z) (e0 : Endpoint) : Endpoint :=
  Build_Endpoint (_state e0) x (_time_last_recv e0) (_time_last_sent e0)
    (_time_last_reached e0) (_action_timeout e0) (_retry_timeout e0)
    (_int_mode e0) (_filesystem_errcount e0) (_my_dataman_id e0)
    (_transfer_dataman_id e0) (_transfer_count e0) (_transfer_seq e0)
    (_transfer_current_seq e0) (_transfer_partner_sysid e0)
    (_transfer_partner_compid e0) (_offboard_mission_pub e0)
    (_geofence_locked e0) (_slow_rate_limiter e0).
Definition set_time_last_recv (x : Z) (e0 : Endpoint) : Endpoint :=
  Build_Endpoint (_state e0) (_mission_type e0) x (_time_last_sent e0)
    (_time_last_reached e0) (_action_timeout e0) (_retry_timeout e0)
    (_int_mode e0) (_filesystem_errcount e0) (_my_dataman_id e0)
    (_transfer_dataman_id e0) (_transfer_count e0) (_transfer_seq e0)
    (_transfer_current_seq e0) (_transfer_partner_sysid e0)
    (_transfer_partner_compid e0) (_offboard_mission_pub e0)
    (_geofence_locked e0) (_slow_rate_limiter e0).
Definition set_time_last_sent (x : Z) (e0 : Endpoint) : Endpoint :=
  Build_Endpoint (_state e0) (_mission_type e0) (_time_last_recv e0) x
    (_time_last_reached e0) (_action_timeout e0) (_retry_timeout e0)
    (_int_mode e0) (_filesystem_errcount e0) (_my_dataman_id e0)
    (_transfer_dataman_id e0) (_transfer_count e0) (_transfer_seq e0)
    (_transfer_current_seq e0) (_transfer_partner_sysid e0)
    (_transfer_partner_compid e0) (_offboard_mission_pub e0)
    (_geofence_locked e0) (_slow_rate_limiter e0).
Definition set_time_last_reached (x : Z) (e0 : Endpoint) : Endpoint :=
  Build_Endpoint (_state e0) (_mission_type e0) (_time_last_recv e0)
    (_time_last_sent e0) x (_action_timeout e0) (_retry_timeout e0)
    (_int_mode e0) (_filesystem_errcount e0) (_my_dataman_id e0)
    (_transfer_dataman_id e0) (_transfer_count e0) (_transfer_seq e0)
    (_transfer_current_seq e0) (_transfer_partner_sysid e0)
    (_transfer_partner_compid e0) (_offboard_mission_pub e0)
    (_geofence_locked e0) (_slow_rate_limiter e0).
Definition set_int_mode (x : bool) (e0 : Endpoint) : Endpoint :=
  Build_Endpoint (_state e0) (_mission_type e0) (_time_last_recv e0)
    (_time_last_sent e0) (_time_last_reached e0) (_action_timeout e0)
    (_retry_timeout e0) x (_filesystem_errcount e0) (_my_dataman_id e0)
    (_transfer_dataman_id e0) (_transfer_count e0) (_transfer_seq e0)
    (_transfer_current_seq e0) (_transfer_partner_sysid e0)
    (_transfer_partner_compid e0) (_offboard_mission_pub e0)
    (_geofence_locked e0) (_slow_rate_limiter e0).
Definition set_filesystem_errcount (x : Z) (e0 : Endpoint) : Endpoint :=
  Build_Endpoint (_state e0) (_mission_type e0) (_time_last_recv e0)
    (_time_last_sent e0) (_time_last_reached e0) (_action_timeout e0)
    (_retry_timeout e0) (_int_mode e0) x (_my_dataman_id e0)
    (_transfer_dataman_id e0) (_transfer_count e0) (_transfer_seq e0)
    (_transfer_current_seq e0) (_transfer_partner_sysid e0)
    (_transfer_partner_compid e0) (_offboard_mission_pub e0)
    (_geofence_locked e0) (_slow_rate_limiter e0).
Definition set_my_dataman_id (x : Z) (e0 : Endpoint) : Endpoint :=
  Build_Endpoint (_state e0) (_mission_type e0) (_time_last_recv e0)
    (_time_last_sent e0) (_time_last_reached e0) (_action_timeout e0)
    (_retry_timeout e0) (_int_mode e0) (_filesystem_errcount e0) x
    (_transfer_dataman_id e0) (_transfer_count e0) (_transfer_seq e0)
    (_transfer_current_seq e0) (_transfer_partner_sysid e0)
    (_transfer_partner_compid e0) (_offboard_mission_pub e0)
    (_geofence_locked e0) (_slow_rate_limiter e0).
Definition set_transfer_dataman_id (x : Z) (e0 : Endpoint) : Endpoint :=
  Build_Endpoint (_state e0) (_mission_type e0) (_time_last_recv e0)
    (_time_last_sent e0) (_time_last_reached e0) (_action_timeout e0)
    (_retry_timeout e0) (_int_mode e0) (_filesystem_errcount e0)
    (_my_dataman_id e0) x (_transfer_count e0) (_transfer_seq e0)
    (_transfer_current_seq e0) (_transfer_partner_sysid e0)
    (_transfer_partner_compid e0) (_offboard_mission_pub e0)
    (_geofence_locked e0) (_slow_rate_limiter e0).
Definition set_transfer_count (x : Z) (e0 : Endpoint) : Endpoint :=
  Build_Endpoint (_state e0) (_mission_type e0) (_time_last_recv e0)
    (_time_last_sent e0) (_time_last_reached e0) (_action_timeout e0)
    (_retry_timeout e0) (_int_mode e0) (_filesystem_errcount e0)
    (_my_dataman_id e0) (_transfer_dataman_id e0) x (_transfer_seq e0)
    (_transfer_current_seq e0) (_transfer_partner_sysid e0)
    (_transfer_partner_compid e0) (_offboard_mission_pub e0)
    (_geofence_locked e0) (_slow_rate_limiter e0).
Definition set_transfer_seq (x : Z) (e0 : Endpoint) : Endpoint :=
  Build_Endpoint (_state e0) (_mission_type e0) (_time_last_recv e0)
    (_time_last_sent e0) (_time_last_reached e0) (_action_timeout e0)
    (_retry_timeout e0) (_int_mode e0) (_filesystem_errcount e0)
    (_my_dataman_id e0) (_transfer_dataman_id e0) (_transfer_count e0) x
    (_transfer_current_seq e0) (_transfer_partner_sysid e0)
    (_transfer_partner_compid e0) (_offboard_mission_pub e0)
    (_geofence_locked e0) (_slow_rate_limiter e0).
Definition set_transfer_current_seq (x : Z) (e0 : Endpoint) : Endpoint :=
  Build_Endpoint (_state e0) (_mission_type e0) (_time_last_recv e0)
    (_time_last_sent e0) (_time_last_reached e0) (_action_timeout e0)
    (_retry_timeout e0) (_int_mode e0) (_filesystem_errcount e0)
    (_my_dataman_id e0) (_transfer_dataman_id e0) (_transfer_count e0)
    (_transfer_seq e0) x (_transfer_partner_sysid e0)
    (_transfer_partner_compid e0) (_offboard_mission_pub e0)
    (_geofence_locked e0) (_slow_rate_limiter e0).
Definition set_transfer_partner_sysid (x : Z) (e0 : Endpoint) : Endpoint :=
  Build_Endpoint (_state e0) (_mission_type e0) (_time_last_recv e0)
    (_time_last_sent e0) (_time_last_reached e0) (_action_timeout e0)
    (_retry_timeout e0) (_int_mode e0) (_filesystem_errcount e0)
    (_my_dataman_id e0) (_transfer_dataman_id e0) (_transfer_count e0)
    (_transfer_seq e0) (_transfer_current_seq e0) x
    (_transfer_partner_compid e0) (_offboard_mission_pub e0)
    (_geofence_locked e0) (_slow_rate_limiter e0).
Definition set_transfer_partner_compid (x : Z) (e0 : Endpoint) : Endpoint :=
  Build_Endpoint (_state e0) (_mission_type e0) (_time_last_recv e0)
    (_time_last_sent e0) (_time_last_reached e0) (_action_timeout e0)
    (_retry_timeout e0) (_int_mode e0) (_filesystem_errcount e0)
    (_my_dataman_id e0) (_transfer_dataman_id e0) (_transfer_count e0)
    (_transfer_seq e0) (_transfer_current_seq e0) (_transfer_partner_sysid
    e0) x (_offboard_mission_pub e0) (_geofence_locked e0)
    (_slow_rate_limiter e0).
Definition set_offboard_mission_pub (x : bool) (e0 : Endpoint) : Endpoint :=
  Build_Endpoint (_state e0) (_mission_type e0) (_time_last_recv e0)
    (_time_last_sent e0) (_time_last_reached e0) (_action_timeout e0)
    (_retry_timeout e0) (_int_mode e0) (_filesystem_errcount e0)
    (_my_dataman_id e0) (_transfer_dataman_id e0) (_transfer_count e0)
    (_transfer_seq e0) (_transfer_current_seq e0) (_transfer_partner_sysid
    e0) (_transfer_partner_compid e0) x (_geofence_locked e0)
    (_slow_rate_limiter e0).
Definition set_geofence_locked (x : bool) (e0 : Endpoint) : Endpoint :=
  Build_Endpoint (_state e0) (_mission_type e0) (_time_last_recv e0)
    (_time_last_sent e0) (_time_last_reached e0) (_action_timeout e0)
    (_retry_timeout e0) (_int_mode e0) (_filesystem_errcount e0)
    (_my_dataman_id e0) (_transfer_dataman_id e0) (_transfer_count e0)
    (_transfer_seq e0) (_transfer_current_seq e0) (_transfer_partner_sysid
    e0) (_transfer_partner_compid e0) (_offboard_mission_pub e0) x
    (_slow_rate_limiter e0).
Definition set_slow_rate_limiter (x : MavlinkRateLimiter) (e0 : Endpoint) : Endpoint :=
  Build_Endpoint (_state e0) (_mission_type e0) (_time_last_recv e0)
    (_time_last_sent e0) (_time_last_reached e0) (_action_timeout e0)
    (_retry_timeout e0) (_int_mode e0) (_filesystem_errcount e0)
    (_my_dataman_id e0) (_transfer_dataman_id e0) (_transfer_count e0)
    (_transfer_seq e0) (_transfer_current_seq e0) (_transfer_partner_sysid
    e0) (_transfer_partner_compid e0) (_offboard_mission_pub e0)
    (_geofence_locked e0) x.
Definition set_dm_store (x : gmap (dm_item_t * Z) dm_value) (w0 : World) : World :=
  Build_World x (dm_faults w0) (fence_lock w0) (hrt_now w0) (mission_result
    w0) (mavlink_system_sysid w0) (mavlink_system_compid w0) (wp_uninit w0)
    (log w0).
Definition set_dm_faults (x : list bool) (w0 : World) : World :=
  Build_World (dm_store w0) x (fence_lock w0) (hrt_now w0) (mission_result
    w0) (mavlink_system_sysid w0) (mavlink_system_compid w0) (wp_uninit w0)
    (log w0).
Definition set_fence_lock (x : bool) (w0 : World) : World :=
  Build_World (dm_store w0) (dm_faults w0) x (hrt_now w0) (mission_result
    w0) (mavlink_system_sysid w0) (mavlink_system_compid w0) (wp_uninit w0)
    (log w0).
Definition set_mission_result (x : option mission_result_s) (w0 : World) : World :=
  Build_World (dm_store w0) (dm_faults w0) (fence_lock w0) (hrt_now w0) x
    (mavlink_system_sysid w0) (mavlink_system_compid w0) (wp_uninit w0) (log
    w0).
Definition set_log (x : list Entry) (w0 : World) : World :=
  Build_World (dm_store w0) (dm_faults w0) (fence_lock w0) (hrt_now w0)
    (mission_result w0) (mavlink_system_sysid w0) (mavlink_system_compid w0)
    (wp_uninit w0) x.
Definition set_lat (x : D) (i0 : mission_item_s) : mission_item_s :=
  Build_mission_item_s x (lon i0) (time_inside i0) (acceptance_radius i0)
    (loiter_radius i0) (yaw i0) (altitude i0) (params i0) (nav_cmd i0)
    (do_jump_mission_index i0) (do_jump_repeat_count i0)
    (do_jump_current_count i0) (vertex_count i0) (frame i0) (origin i0)
    (loiter_exit_xtrack i0) (force_heading i0) (altitude_is_relative i0)
    (autocontinue i0).
Definition set_lon (x : D) (i0 : mission_item_s) : mission_item_s :=
  Build_mission_item_s (lat i0) x (time_inside i0) (acceptance_radius i0)
    (loiter_radius i0) (yaw i0) (altitude i0) (params i0) (nav_cmd i0)
    (do_jump_mission_index i0) (do_jump_repeat_count i0)
    (do_jump_current_count i0) (vertex_count i0) (frame i0) (origin i0)
    (loiter_exit_xtrack i0) (force_heading i0) (altitude_is_relative i0)
    (autocontinue i0).
Definition set_time_inside (x : F) (i0 : mission_item_s) : mission_item_s :=
  Build_mission_item_s (lat i0) (lon i0) x (acceptance_radius i0)
    (loiter_radius i0) (yaw i0) (altitude i0) (params i0) (nav_cmd i0)
    (do_jump_mission_index i0) (do_jump_repeat_count i0)
    (do_jump_current_count i0) (vertex_count i0) (frame i0) (origin i0)
    (loiter_exit_xtrack i0) (force_heading i0) (altitude_is_relative i0)
    (autocontinue i0).
Definition set_acceptance_radius (x : F) (i0 : mission_item_s) : mission_item_s :=
  Build_mission_item_s (lat i0) (lon i0) (time_inside i0) x (loiter_radius
    i0) (yaw i0) (altitude i0) (params i0) (nav_cmd i0)
    (do_jump_mission_index i0) (do_jump_repeat_count i0)
    (do_jump_current_count i0) (vertex_count i0) (frame i0) (origin i0)
    (loiter_exit_xtrack i0) (force_heading i0) (altitude_is_relative i0)
    (autocontinue i0).
Definition set_loiter_radius (x : F) (i0 : mission_item_s) : mission_item_s :=
  Build_mission_item_s (lat i0) (lon i0) (time_inside i0) (acceptance_radius
    i0) x (yaw i0) (altitude i0) (params i0) (nav_cmd i0)
    (do_jump_mission_index i0) (do_jump_repeat_count i0)
    (do_jump_current_count i0) (vertex_count i0) (frame i0) (origin i0)
    (loiter_exit_xtrack i0) (force_heading i0) (altitude_is_relative i0)
    (autocontinue i0).
Definition set_yaw (x : F) (i0 : mission_item_s) : mission_item_s :=
  Build_mission_item_s (lat i0) (lon i0) (time_inside i0) (acceptance_radius
    i0) (loiter_radius i0) x (altitude i0) (params i0) (nav_cmd i0)
    (do_jump_mission_index i0) (do_jump_repeat_count i0)
    (do_jump_current_count i0) (vertex_count i0) (frame i0) (origin i0)
    (loiter_exit_xtrack i0) (force_heading i0) (altitude_is_relative i0)
    (autocontinue i0).
Definition set_altitude (x : F) (i0 : mission_item_s) : mission_item_s :=
  Build_mission_item_s (lat i0) (lon i0) (time_inside i0) (acceptance_radius
    i0) (loiter_radius i0) (yaw i0) x (params i0) (nav_cmd i0)
    (do_jump_mission_index i0) (do_jump_repeat_count i0)
    (do_jump_current_count i0) (vertex_count i0) (frame i0) (origin i0)
    (loiter_exit_xtrack i0) (force_heading i0) (altitude_is_relative i0)
    (autocontinue i0).
Definition set_params (x : list F) (i0 : mission_item_s) : mission_item_s :=
  Build_mission_item_s (lat i0) (lon i0) (time_inside i0) (acceptance_radius
    i0) (loiter_radius i0) (yaw i0) (altitude i0) x (nav_cmd i0)
    (do_jump_mission_index i0) (do_jump_repeat_count i0)
    (do_jump_current_count i0) (vertex_count i0) (frame i0) (origin i0)
    (loiter_exit_xtrack i0) (force_heading i0) (altitude_is_relative i0)
    (autocontinue i0).
Definition set_nav_cmd (x : Z) (i0 : mission_item_s) : mission_item_s :=
  Build_mission_item_s (lat i0) (lon i0) (time_inside i0) (acceptance_radius
    i0) (loiter_radius i0) (yaw i0) (altitude i0) (params i0) x
    (do_jump_mission_index i0) (do_jump_repeat_count i0)
    (do_jump_current_count i0) (vertex_count i0) (frame i0) (origin i0)
    (loiter_exit_xtrack i0) (force_heading i0) (altitude_is_relative i0)
    (autocontinue i0).
Definition set_do_jump_mission_index (x : Z) (i0 : mission_item_s) : mission_item_s :=
  Build_mission_item_s (lat i0) (lon i0) (time_inside i0) (acceptance_radius
    i0) (loiter_radius i0) (yaw i0) (altitude i0) (params i0) (nav_cmd i0) x
    (do_jump_repeat_count i0) (do_jump_current_count i0) (vertex_count i0)
    (frame i0) (origin i0) (loiter_exit_xtrack i0) (force_heading i0)
    (altitude_is_relative i0) (autocontinue i0).
Definition set_do_jump_repeat_count (x : Z) (i0 : mission_item_s) : mission_item_s :=
  Build_mission_item_s (lat i0) (lon i0) (time_inside i0) (acceptance_radius
    i0) (loiter_radius i0) (yaw i0) (altitude i0) (params i0) (nav_cmd i0)
    (do_jump_mission_index i0) x (do_jump_current_count i0) (vertex_count
    i0) (frame i0) (origin i0) (loiter_exit_xtrack i0) (force_heading i0)
    (altitude_is_relative i0) (autocontinue i0).
Definition set_do_jump_current_count (x : Z) (i0 : mission_item_s) : mission_item_s :=
  Build_mission_item_s (lat i0) (lon i0) (time_inside i0) (acceptance_radius
    i0) (loiter_radius i0) (yaw i0) (altitude i0) (params i0) (nav_cmd i0)
    (do_jump_mission_index i0) (do_jump_repeat_count i0) x (vertex_count i0)
    (frame i0) (origin i0) (loiter_exit_xtrack i0) (force_heading i0)
    (altitude_is_relative i0) (autocontinue i0).
Definition set_vertex_count (x : Z) (i0 : mission_item_s) : mission_item_s :=
  Build_mission_item_s (lat i0) (lon i0) (time_inside i0) (acceptance_radius
    i0) (loiter_radius i0) (yaw i0) (altitude i0) (params i0) (nav_cmd i0)
    (do_jump_mission_index i0) (do_jump_repeat_count i0)
    (do_jump_current_count i0) x (frame i0) (origin i0) (loiter_exit_xtrack
    i0) (force_heading i0) (altitude_is_relative i0) (autocontinue i0).
Definition set_frame (x : Z) (i0 : mission_item_s) : mission_item_s :=
  Build_mission_item_s (lat i0) (lon i0) (time_inside i0) (acceptance_radius
    i0) (loiter_radius i0) (yaw i0) (altitude i0) (params i0) (nav_cmd i0)
    (do_jump_mission_index i0) (do_jump_repeat_count i0)
    (do_jump_current_count i0) (vertex_count i0) x (origin i0)
    (loiter_exit_xtrack i0) (force_heading i0) (altitude_is_relative i0)
    (autocontinue i0).
Definition set_origin (x : Z) (i0 : mission_item_s) : mission_item_s :=
  Build_mission_item_s (lat i0) (lon i0) (time_inside i0) (acceptance_radius
    i0) (loiter_radius i0) (yaw i0) (altitude i0) (params i0) (nav_cmd i0)
    (do_jump_mission_index i0) (do_jump_repeat_count i0)
    (do_jump_current_count i0) (vertex_count i0) (frame i0) x
    (loiter_exit_xtrack i0) (force_heading i0) (altitude_is_relative i0)
    (autocontinue i0).
Definition set_loiter_exit_xtrack (x : bool) (i0 : mission_item_s) : mission_item_s :=
  Build_mission_item_s (lat i0) (lon i0) (time_inside i0) (acceptance_radius
    i0) (loiter_radius i0) (yaw i0) (altitude i0) (params i0) (nav_cmd i0)
    (do_jump_mission_index i0) (do_jump_repeat_count i0)
    (do_jump_current_count i0) (vertex_count i0) (frame i0) (origin i0) x
    (force_heading i0) (altitude_is_relative i0) (autocontinue i0).
Definition set_force_heading (x : bool) (i0 : mission_item_s) : mission_item_s :=
  Build_mission_item_s (lat i0) (lon i0) (time_inside i0) (acceptance_radius
    i0) (loiter_radius i0) (yaw i0) (altitude i0) (params i0) (nav_cmd i0)
    (do_jump_mission_index i0) (do_jump_repeat_count i0)
    (do_jump_current_count i0) (vertex_count i0) (frame i0) (origin i0)
    (loiter_exit_xtrack i0) x (altitude_is_relative i0) (autocontinue i0).
Definition set_altitude_is_relative (x : bool) (i0 : mission_item_s) : mission_item_s :=
  Build_mission_item_s (lat i0) (lon i0) (time_inside i0) (acceptance_radius
    i0) (loiter_radius i0) (yaw i0) (altitude i0) (params i0) (nav_cmd i0)
    (do_jump_mission_index i0) (do_jump_repeat_count i0)
    (do_jump_current_count i0) (vertex_count i0) (frame i0) (origin i0)
    (loiter_exit_xtrack i0) (force_heading i0) x (autocontinue i0).
Definition set_autocontinue (x : bool) (i0 : mission_item_s) : mission_item_s :=
  Build_mission_item_s (lat i0) (lon i0) (time_inside i0) (acceptance_radius
    i0) (loiter_radius i0) (yaw i0) (altitude i0) (params i0) (nav_cmd i0)
    (do_jump_mission_index i0) (do_jump_repeat_count i0)
    (do_jump_current_count i0) (vertex_count i0) (frame i0) (origin i0)
    (loiter_exit_xtrack i0) (force_heading i0) (altitude_is_relative i0) x.
Definition set_wp_param1 (x : F) (wp : mavlink_mission_item_t) : mavlink_mission_item_t :=
  Build_mavlink_mission_item_t x (wp_param2 wp) (wp_param3 wp) (wp_param4
    wp) (wp_x wp) (wp_y wp) (wp_z wp) (wp_seq wp) (wp_command wp)
    (wp_target_system wp) (wp_target_component wp) (wp_frame wp) (wp_current
    wp) (wp_autocontinue wp) (wp_mission_type wp).
Definition set_wp_param2 (x : F) (wp : mavlink_mission_item_t) : mavlink_mission_item_t :=
  Build_mavlink_mission_item_t (wp_param1 wp) x (wp_param3 wp) (wp_param4
    wp) (wp_x wp) (wp_y wp) (wp_z wp) (wp_seq wp) (wp_command wp)
    (wp_target_system wp) (wp_target_component wp) (wp_frame wp) (wp_current
    wp) (wp_autocontinue wp) (wp_mission_type wp).
Definition set_wp_param3 (x : F) (wp : mavlink_mission_item_t) : mavlink_mission_item_t :=
  Build_mavlink_mission_item_t (wp_param1 wp) (wp_param2 wp) x (wp_param4
    wp) (wp_x wp) (wp_y wp) (wp_z wp) (wp_seq wp) (wp_command wp)
    (wp_target_system wp) (wp_target_component wp) (wp_frame wp) (wp_current
    wp) (wp_autocontinue wp) (wp_mission_type wp).
Definition set_wp_param4 (x : F) (wp : mavlink_mission_item_t) : mavlink_mission_item_t :=
  Build_mavlink_mission_item_t (wp_param1 wp) (wp_param2 wp) (wp_param3 wp)
    x (wp_x wp) (wp_y wp) (wp_z wp) (wp_seq wp) (wp_command wp)
    (wp_target_system wp) (wp_target_component wp) (wp_frame wp) (wp_current
    wp) (wp_autocontinue wp) (wp_mission_type wp).
Definition set_wp_x (x : Z) (wp : mavlink_mission_item_t) : mavlink_mission_item_t :=
  Build_mavlink_mission_item_t (wp_param1 wp) (wp_param2 wp) (wp_param3 wp)
    (wp_param4 wp) x (wp_y wp) (wp_z wp) (wp_seq wp) (wp_command wp)
    (wp_target_system wp) (wp_target_component wp) (wp_frame wp) (wp_current
    wp) (wp_autocontinue wp) (wp_mission_type wp).
Definition set_wp_y (x : Z) (wp : mavlink_mission_item_t) : mavlink_mission_item_t :=
  Build_mavlink_mission_item_t (wp_param1 wp) (wp_param2 wp) (wp_param3 wp)
    (wp_param4 wp) (wp_x wp) x (wp_z wp) (wp_seq wp) (wp_command wp)
    (wp_target_system wp) (wp_target_component wp) (wp_frame wp) (wp_current
    wp) (wp_autocontinue wp) (wp_mission_type wp).
Definition set_wp_z (x : F) (wp : mavlink_mission_item_t) : mavlink_mission_item_t :=
  Build_mavlink_mission_item_t (wp_param1 wp) (wp_param2 wp) (wp_param3 wp)
    (wp_param4 wp) (wp_x wp) (wp_y wp) x (wp_seq wp) (wp_command wp)
    (wp_target_system wp) (wp_target_component wp) (wp_frame wp) (wp_current
    wp) (wp_autocontinue wp) (wp_mission_type wp).
Definition set_wp_seq (x : Z) (wp : mavlink_mission_item_t) : mavlink_mission_item_t :=
  Build_mavlink_mission_item_t (wp_param1 wp) (wp_param2 wp) (wp_param3 wp)
    (wp_param4 wp) (wp_x wp) (wp_y wp) (wp_z wp) x (wp_command wp)
    (wp_target_system wp) (wp_target_component wp) (wp_frame wp) (wp_current
    wp) (wp_autocontinue wp) (wp_mission_type wp).
Definition set_wp_command (x : Z) (wp : mavlink_mission_item_t) : mavlink_mission_item_t :=
  Build_mavlink_mission_item_t (wp_param1 wp) (wp_param2 wp) (wp_param3 wp)
    (wp_param4 wp) (wp_x wp) (wp_y wp) (wp_z wp) (wp_seq wp) x
    (wp_target_system wp) (wp_target_component wp) (wp_frame wp) (wp_current
    wp) (wp_autocontinue wp) (wp_mission_type wp).
Definition set_wp_target_system (x : Z) (wp : mavlink_mission_item_t) : mavlink_mission_item_t :=
  Build_mavlink_mission_item_t (wp_param1 wp) (wp_param2 wp) (wp_param3 wp)
    (wp_param4 wp) (wp_x wp) (wp_y wp) (wp_z wp) (wp_seq wp) (wp_command wp)
    x (wp_target_component wp) (wp_frame wp) (wp_current wp)
    (wp_autocontinue wp) (wp_mission_type wp).
Definition set_wp_target_component (x : Z) (wp : mavlink_mission_item_t) : mavlink_mission_item_t :=
  Build_mavlink_mission_item_t (wp_param1 wp) (wp_param2 wp) (wp_param3 wp)
    (wp_param4 wp) (wp_x wp) (wp_y wp) (wp_z wp) (wp_seq wp) (wp_command wp)
    (wp_target_system wp) x (wp_frame wp) (wp_current wp) (wp_autocontinue
    wp) (wp_mission_type wp).
Definition set_wp_frame (x : Z) (wp : mavlink_mission_item_t) : mavlink_mission_item_t :=
  Build_mavlink_mission_item_t (wp_param1 wp) (wp_param2 wp) (wp_param3 wp)
    (wp_param4 wp) (wp_x wp) (wp_y wp) (wp_z wp) (wp_seq wp) (wp_command wp)
    (wp_target_system wp) (wp_target_component wp) x (wp_current wp)
    (wp_autocontinue wp) (wp_mission_type wp).
Definition set_wp_current (x : Z) (wp : mavlink_mission_item_t) : mavlink_mission_item_t :=
  Build_mavlink_mission_item_t (wp_param1 wp) (wp_param2 wp) (wp_param3 wp)
    (wp_param4 wp) (wp_x wp) (wp_y wp) (wp_z wp) (wp_seq wp) (wp_command wp)
    (wp_target_system wp) (wp_target_component wp) (wp_frame wp) x
    (wp_autocontinue wp) (wp_mission_type wp).
Definition set_wp_autocontinue (x : Z) (wp : mavlink_mission_item_t) : mavlink_mission_item_t :=
  Build_mavlink_mission_item_t (wp_param1 wp) (wp_param2 wp) (wp_param3 wp)
    (wp_param4 wp) (wp_x wp) (wp_y wp) (wp_z wp) (wp_seq wp) (wp_command wp)
    (wp_target_system wp) (wp_target_component wp) (wp_frame wp) (wp_current
    wp) x (wp_mission_type wp).

Definition G (f : Globals -> Globals) (st : MM) : MM :=
  {| g := f (g st); e := e st; w := w st |}.
Definition E (f : Endpoint -> Endpoint) (st : MM) : MM :=
  {| g := g st; e := f (e st); w := w st |}.
Definition W (f : World -> World) (st : MM) : MM :=
  {| g := g st; e := e st; w := f (w st) |}.

(** [_count[i]] and [_count[i] = v]. *)
Definition count_at (i : Z) (st : MM) : Z := _count (g st) !!! Z.to_nat i.
Definition set_count_at (i v : Z) (g0 : Globals) : Globals :=
  set_count (<[Z.to_nat i := v]> (_count g0)) g0.

(** A call that leaves the class is logged with the members as they are. *)
Definition emit (c : Event) (st : MM) : MM :=
  W (set_log ({| call := c; at_g := g st; at_e := e st |} :: log (w st))) st.

(** ** The clock (drv_hrt.h) *)

Definition hrt_absolute_time (st : MM) : Z := hrt_now (w st).
Definition hrt_elapsed_time (t : Z) (st : MM) : Z := u64 (hrt_absolute_time st - t).

(** Modelled from the spec: [MavlinkRateLimiter::check] is not part of the
    sources; section 4.5 has one token per interval (100 ms). *)
Definition rate_limiter_check (now : Z) (st : MM) : bool * MM :=
  let rl := _slow_rate_limiter (e st) in
  let dt := u64 (now - rl_last_sent rl) in
  if (0 <? dt) && (rl_interval rl <=? dt)
  then (true, E (set_slow_rate_limiter
                   {| rl_last_sent := now; rl_interval := rl_interval rl |}) st)
  else (false, st).

(** ** Dataman (dataman.h)

    Every call takes the next flag of the fault script. *)
Definition dm_fault (st : MM) : bool := hd false (dm_faults (w st)).
Definition dm_called (st : MM) : MM := W (set_dm_faults (tl (dm_faults (w st)))) st.

(** [dm_read(item, index, buf, sizeof T)]: the content of the slot, or
    [None] when the call fails or the slot is empty.  The callers compare
    the result with [sizeof T]. *)
Definition dm_read (item : dm_item_t) (index : Z) (st : MM) : option dm_value * MM :=
  (if dm_fault st then None else dm_store (w st) !! (item, index), dm_called st).

(** [dm_write(item, index, DM_PERSIST_POWER_ON_RESET, buf, sizeof T) == sizeof T] *)
Definition dm_write (item : dm_item_t) (index : Z) (v : dm_value) (st : MM) : bool * MM :=
  if dm_fault st
  then (false, emit (dm_write_call item index v false) (dm_called st))
  else (true, emit (dm_write_call item index v true)
                (W (set_dm_store (<[(item, index) := v]> (dm_store (w st))))
                   (dm_called st))).

(** [dm_lock(item) == 0] *)
Definition dm_lock (item : dm_item_t) (st : MM) : bool * MM :=
  if dm_fault st
  then (false, emit (dm_lock_call item false) (dm_called st))
  else (true, emit (dm_lock_call item true) (W (set_fence_lock true) (dm_called st))).

Definition dm_unlock (item : dm_item_t) (st : MM) : MM :=
  emit (dm_unlock_call item) (W (set_fence_lock false) st).

(** ** The methods of [MavlinkMissionManager] *)

Definition CHECK_SYSID_COMPID_MISSION (target_system target_component : Z) (st : MM) : bool :=
  (target_system =? mavlink_system_sysid (w st)) &&
  ((target_component =? mavlink_system_compid (w st)) ||
   (target_component =? MAV_COMP_ID_MISSIONPLANNER) ||
   (target_component =? MAV_COMP_ID_ALL)).

Definition send_statustext_critical (text : string) (st : MM) : MM :=
  emit (statustext_critical text) st.

(** [if (_filesystem_errcount++ < FILESYSTEM_ERRCOUNT_NOTIFY_LIMIT)
       send_statustext_critical(text)] *)
Definition filesystem_error (text : string) (st : MM) : MM :=
  let old := _filesystem_errcount (e st) in
  let st := E (set_filesystem_errcount (u32 (old + 1))) st in
  if old <? FILESYSTEM_ERRCOUNT_NOTIFY_LIMIT
  then send_statustext_critical text st
  else st.

Definition load_geofence_stats (st : MM) : MM :=
  let rd := dm_read DM_KEY_FENCE_POINTS 0 st in
  let st := snd rd in
  match fst rd with
  | Some (DmStats stats) =>
      let st := G (set_count_at MAV_MISSION_TYPE_FENCE (num_items stats)) st in
      G (set_geofence_update_counter (update_counter stats)) st
  | _ => st
  end.

Definition load_safepoint_stats (st : MM) : MM :=
  let rd := dm_read DM_KEY_SAFE_POINTS 0 st in
  let st := snd rd in
  match fst rd with
  | Some (DmStats stats) => G (set_count_at MAV_MISSION_TYPE_RALLY (num_items stats)) st
  | _ => st
  end.

Definition update_active_mission (dataman_id0 count0 seq : Z) (st : MM) : Z * MM :=
  let mission := {| dataman_id := dataman_id0; count := count0; current_seq := seq |} in
  (* update mission state in dataman *)
  let wr := dm_write DM_KEY_MISSION_STATE 0 (DmMissionState mission) st in
  let st := snd wr in
  if fst wr then
    (* update active mission state *)
    let st := G (set_dataman_id dataman_id0) st in
    let st := G (set_count_at MAV_MISSION_TYPE_MISSION count0) st in
    let st := G (set_current_seq seq) st in
    let st := E (set_my_dataman_id (_dataman_id (g st))) st in
    (* mission state saved successfully, publish offboard_mission topic *)
    let st := if _offboard_mission_pub (e st)
              then emit (orb_publish_call mission) st
              else E (set_offboard_mission_pub true) (emit (orb_advertise_call mission) st) in
    (PX4_OK, st)
  else
    (PX4_ERROR, filesystem_error "Mission storage: Unable to write to microSD" st).

Definition update_geofence_count (count0 : Z) (st : MM) : Z * MM :=
  (* this makes sure navigator will reload the fence data *)
  let st := G (set_geofence_update_counter (u16 (_geofence_update_counter (g st) + 1))) st in
  let stats := {| num_items := count0; update_counter := _geofence_update_counter (g st) |} in
  let wr := dm_write DM_KEY_FENCE_POINTS 0 (DmStats stats) st in
  let st := snd wr in
  if fst wr then
    (PX4_OK, G (set_count_at MAV_MISSION_TYPE_FENCE count0) st)
  else
    (PX4_ERROR, filesystem_error "Mission storage: Unable to write to microSD" st).

(** [stats.update_counter] is not set by the source; the model writes 0. *)
Definition update_safepoint_count (count0 : Z) (st : MM) : Z * MM :=
  let stats := {| num_items := count0; update_counter := 0 |} in
  let wr := dm_write DM_KEY_SAFE_POINTS 0 (DmStats stats) st in
  let st := snd wr in
  if fst wr then
    (PX4_OK, G (set_count_at MAV_MISSION_TYPE_RALLY count0) st)
  else
    (PX4_ERROR, filesystem_error "Mission storage: Unable to write to microSD" st).

Definition send_mission_ack (sysid0 compid0 type : Z) (st : MM) : MM :=
  emit (mavlink_msg_mission_ack_send
          {| wpa_target_system := u8 sysid0;
             wpa_target_component := u8 compid0;
             wpa_type := u8 type;
             wpa_mission_type := u8 (_mission_type (e st)) |}) st.

Definition send_mission_current (seq : Z) (st : MM) : MM :=
  let seq := u16 seq in
  let item_count := count_at MAV_MISSION_TYPE_MISSION st in
  if seq <? item_count then
    emit (mavlink_msg_mission_current_send seq) st
  else if (seq =? 0) && (item_count =? 0) then
    (* don't broadcast if no WPs *)
    st
  else
    send_statustext_critical "ERROR: wp index out of bounds" st.

Definition send_mission_count (sysid0 compid0 count0 mission_type : Z) (st : MM) : MM :=
  let st := E (set_time_last_sent (hrt_absolute_time st)) st in
  emit (mavlink_msg_mission_count_send
          {| wpc_target_system := u8 sysid0;
             wpc_target_component := u8 compid0;
             wpc_count := u16 count0;
             wpc_mission_type := u8 mission_type |}) st.

Definition current_max_item_count (st : MM) : Z :=
  if Z.of_nat (length MAX_COUNT) <=? _mission_type (e st)
  then 0
  else MAX_COUNT !!! Z.to_nat (_mission_type (e st)).

Definition current_item_count (st : MM) : Z :=
  if Z.of_nat (length (_count (g st))) <=? _mission_type (e st)
  then 0
  else count_at (_mission_type (e st)) st.

Definition send_mission_request (sysid0 compid0 seq : Z) (st : MM) : MM :=
  let seq := u16 seq in
  if seq <? current_max_item_count st then
    let st := E (set_time_last_sent (hrt_absolute_time st)) st in
    let wpr := {| wpr_target_system := u8 sysid0;
                  wpr_target_component := u8 compid0;
                  wpr_seq := seq;
                  wpr_mission_type := u8 (_mission_type (e st)) |} in
    if _int_mode (e st)
    then emit (mavlink_msg_mission_request_int_send wpr) st
    else emit (mavlink_msg_mission_request_send wpr) st
  else
    send_statustext_critical "ERROR: Waypoint index exceeds list capacity" st.

Definition send_mission_item_reached (seq : Z) (st : MM) : MM :=
  emit (mavlink_msg_mission_item_reached_send (u16 seq)) st.

Definition switch_to_idle_state (st : MM) : MM :=
  (* when switching to idle, we *always* check if the lock was held and
     release it. *)
  let st := if _geofence_locked (e st)
            then E (set_geofence_locked false) (dm_unlock DM_KEY_FENCE_POINTS st)
            else st in
  E (set_state MAVLINK_WPM_STATE_IDLE) st.

(** ** Item codec *)

(** The [switch] of the geographic branch of [parse_mavlink_mission_item];
    [None] is the [default:] label. *)
Definition parse_global_command (wp : mavlink_mission_item_t)
    (mission_item : mission_item_s) : option mission_item_s :=
  let cmd := wp_command wp in
  let yaw_of_param4 := _wrap_pi (f_mul (wp_param4 wp) M_DEG_TO_RAD_F) in
  if cmd =? MAV_CMD_NAV_WAYPOINT then
    Some (set_yaw yaw_of_param4
         (set_acceptance_radius (wp_param2 wp)
         (set_time_inside (wp_param1 wp)
         (set_nav_cmd NAV_CMD_WAYPOINT mission_item))))
  else if cmd =? MAV_CMD_NAV_LOITER_UNLIM then
    Some (set_yaw yaw_of_param4
         (set_loiter_radius (wp_param3 wp)
         (set_nav_cmd NAV_CMD_LOITER_UNLIMITED mission_item)))
  else if cmd =? MAV_CMD_NAV_LOITER_TIME then
    Some (set_loiter_exit_xtrack (f_gt0 (wp_param4 wp))
         (set_loiter_radius (wp_param3 wp)
         (set_time_inside (wp_param1 wp)
         (set_nav_cmd NAV_CMD_LOITER_TIME_LIMIT mission_item))))
  else if cmd =? MAV_CMD_NAV_LAND then
    Some (set_yaw yaw_of_param4 (set_nav_cmd NAV_CMD_LAND mission_item))
  else if cmd =? MAV_CMD_NAV_TAKEOFF then
    (* pitch_min *)
    Some (set_yaw yaw_of_param4
         (set_time_inside (wp_param1 wp)
         (set_nav_cmd NAV_CMD_TAKEOFF mission_item)))
  else if cmd =? MAV_CMD_NAV_LOITER_TO_ALT then
    Some (set_loiter_exit_xtrack (f_gt0 (wp_param4 wp))
         (set_loiter_radius (wp_param2 wp)
         (set_force_heading (f_gt0 (wp_param1 wp))
         (set_nav_cmd NAV_CMD_LOITER_TO_ALT mission_item))))
  else if one_of cmd [MAV_CMD_NAV_VTOL_TAKEOFF; MAV_CMD_NAV_VTOL_LAND] then
    Some (set_yaw yaw_of_param4 (set_nav_cmd cmd mission_item))
  else if cmd =? MAV_CMD_NAV_FENCE_RETURN_POINT then
    Some (set_nav_cmd cmd mission_item)
  else if one_of cmd [MAV_CMD_NAV_FENCE_POLYGON_VERTEX_INCLUSION;
                      MAV_CMD_NAV_FENCE_POLYGON_VERTEX_EXCLUSION] then
    Some (set_vertex_count (f_to_uint16 (f_add (wp_param1 wp) f_half))
         (set_nav_cmd cmd mission_item))
  else if one_of cmd [MAV_CMD_NAV_FENCE_CIRCLE_INCLUSION;
                      MAV_CMD_NAV_FENCE_CIRCLE_EXCLUSION] then
    (* circle_radius *)
    Some (set_time_inside (wp_param1 wp) (set_nav_cmd cmd mission_item))
  else if cmd =? MAV_CMD_NAV_RALLY_POINT then
    Some (set_nav_cmd cmd mission_item)
  else
    None.

(** The [switch] of the [MAV_FRAME_MISSION] branch. *)
Definition parse_mission_command (wp : mavlink_mission_item_t)
    (mission_item : mission_item_s) : option mission_item_s :=
  let cmd := wp_command wp in
  if cmd =? MAV_CMD_DO_JUMP then
    Some (set_do_jump_repeat_count (f_to_uint16 (wp_param2 wp))
         (set_do_jump_current_count 0
         (set_do_jump_mission_index (f_to_int16 (wp_param1 wp))
         (set_nav_cmd NAV_CMD_DO_JUMP mission_item))))
  else if one_of cmd
       [MAV_CMD_DO_CHANGE_SPEED; MAV_CMD_DO_SET_SERVO; MAV_CMD_DO_LAND_START;
        MAV_CMD_DO_TRIGGER_CONTROL; MAV_CMD_DO_DIGICAM_CONTROL;
        MAV_CMD_DO_MOUNT_CONFIGURE; MAV_CMD_DO_MOUNT_CONTROL;
        MAV_CMD_IMAGE_START_CAPTURE; MAV_CMD_IMAGE_STOP_CAPTURE;
        MAV_CMD_VIDEO_START_CAPTURE; MAV_CMD_VIDEO_STOP_CAPTURE;
        NAV_CMD_DO_SET_ROI; NAV_CMD_ROI; MAV_CMD_DO_SET_CAM_TRIGG_DIST;
        MAV_CMD_DO_SET_CAM_TRIGG_INTERVAL; MAV_CMD_SET_CAMERA_MODE;
        MAV_CMD_DO_VTOL_TRANSITION; MAV_CMD_NAV_DELAY;
        MAV_CMD_NAV_RETURN_TO_LAUNCH] then
    Some (set_nav_cmd cmd mission_item)
  else
    None.

Definition is_int_frame (fr : Z) : bool :=
  (fr =? MAV_FRAME_GLOBAL_INT) || (fr =? MAV_FRAME_GLOBAL_RELATIVE_ALT_INT).

(** Returns the [MAV_MISSION_RESULT], the item as far as it was filled in,
    and the members ([_int_mode] is the only one assigned). *)
Definition parse_mavlink_mission_item (wp : mavlink_mission_item_t)
    (mission_item : mission_item_s) (st : MM) : Z * mission_item_s * MM :=
  let fr := wp_frame wp in
  if (fr =? MAV_FRAME_GLOBAL) || (fr =? MAV_FRAME_GLOBAL_RELATIVE_ALT) ||
     (_int_mode (e st) && is_int_frame fr) then
    (* Switch to int mode if that is what we are receiving *)
    let st := if is_int_frame fr then E (set_int_mode true) st else st in
    let mission_item :=
      if _int_mode (e st) then
        set_lon (d_mul (d_of_int32 (s32 (wp_y wp))) d_1e_7)
       (set_lat (d_mul (d_of_int32 (s32 (wp_x wp))) d_1e_7) mission_item)
      else
        set_lon (d_of_float (f_of_bits (wp_y wp)))
       (set_lat (d_of_float (f_of_bits (wp_x wp))) mission_item) in
    let mission_item := set_altitude (wp_z wp) mission_item in
    let mission_item :=
      if (fr =? MAV_FRAME_GLOBAL) || (fr =? MAV_FRAME_GLOBAL_INT) then
        set_altitude_is_relative false mission_item
      else if (fr =? MAV_FRAME_GLOBAL_RELATIVE_ALT) ||
              (fr =? MAV_FRAME_GLOBAL_RELATIVE_ALT_INT) then
        set_altitude_is_relative true mission_item
      else mission_item in
    let mission_item := set_time_inside f_zero mission_item in
    match parse_global_command wp mission_item with
    | None =>
        (MAV_MISSION_UNSUPPORTED, set_nav_cmd NAV_CMD_INVALID mission_item, st)
    | Some mission_item =>
        let mission_item := set_frame fr mission_item in
        let mission_item := set_autocontinue (Z.odd (wp_autocontinue wp)) mission_item in
        (MAV_MISSION_ACCEPTED, set_origin ORIGIN_MAVLINK mission_item, st)
    end
  else if fr =? MAV_FRAME_MISSION then
    (* this is a mission item with no coordinates *)
    let mission_item :=
      set_params [wp_param1 wp; wp_param2 wp; wp_param3 wp; wp_param4 wp;
                  f_of_bits (wp_x wp); f_of_bits (wp_y wp); wp_z wp]
                 mission_item in
    match parse_mission_command wp mission_item with
    | None =>
        (MAV_MISSION_UNSUPPORTED, set_nav_cmd NAV_CMD_INVALID mission_item, st)
    | Some mission_item =>
        let mission_item := set_frame MAV_FRAME_MISSION mission_item in
        let mission_item := set_autocontinue (Z.odd (wp_autocontinue wp)) mission_item in
        (MAV_MISSION_ACCEPTED, set_origin ORIGIN_MAVLINK mission_item, st)
    end
  else
    (MAV_MISSION_UNSUPPORTED_FRAME, mission_item, st).

Definition param_at (i : nat) (mission_item : mission_item_s) : F :=
  nth i (params mission_item) f_zero.

(** The [switch] of the geographic branch of [format_mavlink_mission_item]. *)
Definition format_global_command (mission_item : mission_item_s)
    (wp : mavlink_mission_item_t) : Z * mavlink_mission_item_t :=
  let cmd := nav_cmd mission_item in
  let yaw_deg := f_mul (yaw mission_item) M_RAD_TO_DEG_F in
  if cmd =? NAV_CMD_WAYPOINT then
    (PX4_OK, set_wp_param4 yaw_deg
            (set_wp_param2 (acceptance_radius mission_item)
            (set_wp_param1 (time_inside mission_item) wp)))
  else if cmd =? NAV_CMD_LOITER_UNLIMITED then
    (PX4_OK, set_wp_param4 yaw_deg
            (set_wp_param3 (loiter_radius mission_item) wp))
  else if cmd =? NAV_CMD_LOITER_TIME_LIMIT then
    (PX4_OK, set_wp_param4 (f_of_int (Z.b2z (loiter_exit_xtrack mission_item)))
            (set_wp_param3 (loiter_radius mission_item)
            (set_wp_param1 (time_inside mission_item) wp)))
  else if cmd =? NAV_CMD_LAND then
    (PX4_OK, set_wp_param4 yaw_deg wp)
  else if cmd =? NAV_CMD_TAKEOFF then
    (PX4_OK, set_wp_param4 yaw_deg (set_wp_param1 (pitch_min mission_item) wp))
  else if cmd =? NAV_CMD_LOITER_TO_ALT then
    (PX4_OK, set_wp_param4 (f_of_int (Z.b2z (loiter_exit_xtrack mission_item)))
            (set_wp_param2 (loiter_radius mission_item)
            (set_wp_param1 (f_of_int (Z.b2z (force_heading mission_item))) wp)))
  else if one_of cmd [MAV_CMD_NAV_VTOL_TAKEOFF; MAV_CMD_NAV_VTOL_LAND] then
    (PX4_OK, set_wp_param4 yaw_deg wp)
  else if cmd =? MAV_CMD_NAV_FENCE_RETURN_POINT then
    (PX4_OK, wp)
  else if one_of cmd [MAV_CMD_NAV_FENCE_POLYGON_VERTEX_INCLUSION;
                      MAV_CMD_NAV_FENCE_POLYGON_VERTEX_EXCLUSION] then
    (PX4_OK, set_wp_param1 (f_of_int (vertex_count mission_item)) wp)
  else if one_of cmd [MAV_CMD_NAV_FENCE_CIRCLE_INCLUSION;
                      MAV_CMD_NAV_FENCE_CIRCLE_EXCLUSION] then
    (PX4_OK, set_wp_param1 (circle_radius mission_item) wp)
  else if cmd =? MAV_CMD_NAV_RALLY_POINT then
    (PX4_OK, wp)
  else
    (PX4_ERROR, wp).

Definition format_mavlink_mission_item (int_mode : bool)
    (mission_item : mission_item_s) (wp : mavlink_mission_item_t)
    : Z * mavlink_mission_item_t :=
  let wp := set_wp_frame (frame mission_item) wp in
  let wp := set_wp_command (nav_cmd mission_item) wp in
  let wp := set_wp_autocontinue (if autocontinue mission_item then 1 else 0) wp in
  (* default mappings for generic commands *)
  if frame mission_item =? MAV_FRAME_MISSION then
    let wp := set_wp_param1 (param_at 0 mission_item) wp in
    let wp := set_wp_param2 (param_at 1 mission_item) wp in
    let wp := set_wp_param3 (param_at 2 mission_item) wp in
    let wp := set_wp_param4 (param_at 3 mission_item) wp in
    let wp := set_wp_x (f_to_bits (param_at 4 mission_item)) wp in
    let wp := set_wp_y (f_to_bits (param_at 5 mission_item)) wp in
    let wp := set_wp_z (param_at 6 mission_item) wp in
    let cmd := wp_command wp in
    if cmd =? NAV_CMD_DO_JUMP then
      (PX4_OK, set_wp_param2 (f_of_int (do_jump_repeat_count mission_item))
              (set_wp_param1 (f_of_int (do_jump_mission_index mission_item)) wp))
    else if one_of cmd
         [NAV_CMD_DO_CHANGE_SPEED; NAV_CMD_DO_SET_SERVO; NAV_CMD_DO_LAND_START;
          NAV_CMD_DO_TRIGGER_CONTROL; NAV_CMD_DO_DIGICAM_CONTROL;
          NAV_CMD_IMAGE_START_CAPTURE; NAV_CMD_IMAGE_STOP_CAPTURE;
          NAV_CMD_VIDEO_START_CAPTURE; NAV_CMD_VIDEO_STOP_CAPTURE;
          NAV_CMD_DO_MOUNT_CONFIGURE; NAV_CMD_DO_MOUNT_CONTROL;
          NAV_CMD_DO_SET_ROI; NAV_CMD_ROI; NAV_CMD_DO_SET_CAM_TRIGG_DIST;
          NAV_CMD_DO_SET_CAM_TRIGG_INTERVAL; NAV_CMD_SET_CAMERA_MODE;
          NAV_CMD_DO_VTOL_TRANSITION] then
      (PX4_OK, wp)
    else
      (PX4_ERROR, wp)
  else
    let wp := set_wp_param1 f_zero wp in
    let wp := set_wp_param2 f_zero wp in
    let wp := set_wp_param3 f_zero wp in
    let wp := set_wp_param4 f_zero wp in
    let wp :=
      if int_mode then
        set_wp_y (u32 (d_to_int32 (d_mul (lon mission_item) d_1e7)))
       (set_wp_x (u32 (d_to_int32 (d_mul (lat mission_item) d_1e7))) wp)
      else
        set_wp_y (f_to_bits (d_to_float (lon mission_item)))
       (set_wp_x (f_to_bits (d_to_float (lat mission_item))) wp) in
    let wp := set_wp_z (altitude mission_item) wp in
    let wp :=
      if altitude_is_relative mission_item then
        if int_mode
        then set_wp_frame MAV_FRAME_GLOBAL_RELATIVE_ALT_INT wp
        else set_wp_frame MAV_FRAME_GLOBAL_RELATIVE_ALT wp
      else
        if int_mode
        then set_wp_frame MAV_FRAME_GLOBAL_INT wp
        else set_wp_frame MAV_FRAME_GLOBAL wp in
    format_global_command mission_item wp.

Definition state_is (s : MAVLINK_WPM_STATES) (st : MM) : bool :=
  match _state (e st), s with
  | MAVLINK_WPM_STATE_IDLE, MAVLINK_WPM_STATE_IDLE
  | MAVLINK_WPM_STATE_SENDLIST, MAVLINK_WPM_STATE_SENDLIST
  | MAVLINK_WPM_STATE_GETLIST, MAVLINK_WPM_STATE_GETLIST => true
  | _, _ => false
  end.

Definition is_polygon_vertex (cmd : Z) : bool :=
  (cmd =? MAV_CMD_NAV_FENCE_POLYGON_VERTEX_INCLUSION) ||
  (cmd =? MAV_CMD_NAV_FENCE_POLYGON_VERTEX_EXCLUSION).

(** The item that [send_mission_item] builds from a stored fence point. *)
Definition item_of_fence_point (p : mission_fence_point_s) : mission_item_s :=
  let mission_item := set_nav_cmd (fp_nav_cmd p) mission_item_zero in
  let mission_item := set_frame (fp_frame p) mission_item in
  let mission_item := set_lat (fp_lat p) mission_item in
  let mission_item := set_lon (fp_lon p) mission_item in
  let mission_item := set_altitude (fp_alt p) mission_item in
  if is_polygon_vertex (fp_nav_cmd p)
  then set_vertex_count (fp_vertex_count p) mission_item
  else set_time_inside (fp_circle_radius p) mission_item.

(** The item that [send_mission_item] builds from a stored rally point. *)
Definition item_of_save_point (p : mission_save_point_s) : mission_item_s :=
  let mission_item := set_nav_cmd MAV_CMD_NAV_RALLY_POINT mission_item_zero in
  let mission_item := set_frame (sp_frame p) mission_item in
  let mission_item := set_lat (sp_lat p) mission_item in
  let mission_item := set_lon (sp_lon p) mission_item in
  set_altitude (sp_alt p) mission_item.

(** The [switch (_mission_type)] of [send_mission_item]: whether the read
    succeeded, the item, and the state after the read. *)
Definition read_mission_item (seq : Z) (st : MM) : bool * mission_item_s * MM :=
  let mt := _mission_type (e st) in
  if mt =? MAV_MISSION_TYPE_MISSION then
    let rd := dm_read (DM_KEY_WAYPOINTS_OFFBOARD (_dataman_id (g st))) seq st in
    match fst rd with
    | Some (DmMissionItem i) => (true, i, snd rd)
    | _ => (false, mission_item_zero, snd rd)
    end
  else if mt =? MAV_MISSION_TYPE_FENCE then
    (* Read a geofence point *)
    let rd := dm_read DM_KEY_FENCE_POINTS (seq + 1) st in
    match fst rd with
    | Some (DmFencePoint p) => (true, item_of_fence_point p, snd rd)
    | _ => (false, mission_item_zero, snd rd)
    end
  else if mt =? MAV_MISSION_TYPE_RALLY then
    (* Read a safe point / rally point *)
    let rd := dm_read DM_KEY_SAFE_POINTS (seq + 1) st in
    match fst rd with
    | Some (DmSafePoint p) => (true, item_of_save_point p, snd rd)
    | _ => (false, mission_item_zero, snd rd)
    end
  else
    (false, mission_item_zero,
     send_statustext_critical "Received unknown mission type, abort." st).

Definition send_mission_item (sysid0 compid0 seq : Z) (st : MM) : MM :=
  let seq := u16 seq in
  let rd := read_mission_item seq st in
  let read_success := fst (fst rd) in
  let mission_item := snd (fst rd) in
  let st := snd rd in
  if read_success then
    let st := E (set_time_last_sent (hrt_absolute_time st)) st in
    let wp := snd (format_mavlink_mission_item (_int_mode (e st)) mission_item
                     (wp_uninit (w st))) in
    let wp := set_wp_target_system (u8 sysid0) wp in
    let wp := set_wp_target_component (u8 compid0) wp in
    let wp := set_wp_seq seq wp in
    let wp := set_wp_current (if _current_seq (g st) =? seq then 1 else 0) wp in
    if _int_mode (e st)
    then emit (mavlink_msg_mission_item_int_send wp) st
    else emit (mavlink_msg_mission_item_send wp) st
  else
    let st := send_mission_ack (_transfer_partner_sysid (e st))
                (_transfer_partner_compid (e st)) MAV_MISSION_ERROR st in
    filesystem_error "Mission storage: Unable to read from microSD" st.

Definition from_partner (msg : mavlink_message_t) (st : MM) : bool :=
  (sysid msg =? _transfer_partner_sysid (e st)) &&
  (compid msg =? _transfer_partner_compid (e st)).

Definition handle_mission_ack (msg : mavlink_message_t)
    (wpa : mavlink_mission_ack_t) (st : MM) : MM :=
  if CHECK_SYSID_COMPID_MISSION (wpa_target_system wpa) (wpa_target_component wpa) st then
    if from_partner msg st then
      if state_is MAVLINK_WPM_STATE_SENDLIST st &&
         (_mission_type (e st) =? wpa_mission_type wpa) then
        let st := E (set_time_last_recv (hrt_absolute_time st)) st in
        let st := if _transfer_seq (e st) =? current_item_count st
                  then st
                  else send_statustext_critical "WPM: ERR: not all items sent -> IDLE" st in
        switch_to_idle_state st
      else if state_is MAVLINK_WPM_STATE_GETLIST st then
        (* INT mode is not supported *)
        if _int_mode (e st) && negb (wpa_type wpa =? MAV_MISSION_ACCEPTED) then
          E (set_int_mode false) st
        else if negb (wpa_type wpa =? MAV_MISSION_ACCEPTED) then
          E (set_int_mode true) st
        else st
      else st
    else
      send_statustext_critical "REJ. WP CMD: partner id mismatch" st
  else st.

Definition handle_mission_set_current (msg : mavlink_message_t)
    (wpc : mavlink_mission_set_current_t) (st : MM) : MM :=
  if CHECK_SYSID_COMPID_MISSION (wsc_target_system wpc) (wsc_target_component wpc) st then
    if state_is MAVLINK_WPM_STATE_IDLE st then
      let st := E (set_time_last_recv (hrt_absolute_time st)) st in
      if wsc_seq wpc <? count_at MAV_MISSION_TYPE_MISSION st then
        let r := update_active_mission (_dataman_id (g st))
                   (count_at MAV_MISSION_TYPE_MISSION st) (wsc_seq wpc) st in
        if fst r =? PX4_OK
        then snd r
        else send_statustext_critical "WPM: WP CURR CMD: Error setting ID" (snd r)
      else
        send_statustext_critical "WPM: WP CURR CMD: Not in list" st
    else
      send_statustext_critical "WPM: IGN WP CURR CMD: Busy" st
  else st.

Definition handle_mission_request_list (msg : mavlink_message_t)
    (wprl : mavlink_mission_request_list_t) (st : MM) : MM :=
  if CHECK_SYSID_COMPID_MISSION (wprl_target_system wprl) (wprl_target_component wprl) st then
    if state_is MAVLINK_WPM_STATE_IDLE st ||
       (state_is MAVLINK_WPM_STATE_SENDLIST st &&
        (u8 (_mission_type (e st)) =? wprl_mission_type wprl)) then
      let st := E (set_time_last_recv (hrt_absolute_time st)) st in
      let st := E (set_state MAVLINK_WPM_STATE_SENDLIST) st in
      let st := E (set_mission_type (wprl_mission_type wprl)) st in
      (* make sure our item counts are up-to-date *)
      let st := if _mission_type (e st) =? MAV_MISSION_TYPE_FENCE then load_geofence_stats st
                else if _mission_type (e st) =? MAV_MISSION_TYPE_RALLY then load_safepoint_stats st
                else st in
      let st := E (set_transfer_seq 0) st in
      let st := E (set_transfer_count (current_item_count st)) st in
      let st := E (set_transfer_partner_sysid (sysid msg)) st in
      let st := E (set_transfer_partner_compid (compid msg)) st in
      send_mission_count (sysid msg) (compid msg) (_transfer_count (e st))
        (_mission_type (e st)) st
    else
      send_statustext_critical "IGN REQUEST LIST: Busy" st
  else st.

(** The tail shared by the two error exits of [handle_mission_request_both]. *)
Definition reject_request (st : MM) : MM :=
  let st := switch_to_idle_state st in
  let st := send_mission_ack (_transfer_partner_sysid (e st))
              (_transfer_partner_compid (e st)) MAV_MISSION_ERROR st in
  send_statustext_critical "WPM: REJ. CMD: Req. WP was unexpected" st.

Definition handle_mission_request_both (msg : mavlink_message_t)
    (wpr : mavlink_mission_request_t) (st : MM) : MM :=
  if CHECK_SYSID_COMPID_MISSION (wpr_target_system wpr) (wpr_target_component wpr) st then
    if from_partner msg st then
      if state_is MAVLINK_WPM_STATE_SENDLIST st then
        if negb (u8 (_mission_type (e st)) =? wpr_mission_type wpr) then st
        else
          let st := E (set_time_last_recv (hrt_absolute_time st)) st in
          (* double check bounds in case of items count changed *)
          let double_check (st : MM) : MM :=
            if wpr_seq wpr <? current_item_count st then
              send_mission_item (_transfer_partner_sysid (e st))
                (_transfer_partner_compid (e st)) (wpr_seq wpr) st
            else reject_request st in
          (* _transfer_seq contains sequence of expected request *)
          if (wpr_seq wpr =? _transfer_seq (e st)) &&
             (_transfer_seq (e st) <? _transfer_count (e st)) then
            double_check (E (set_transfer_seq (u32 (_transfer_seq (e st) + 1))) st)
          else if wpr_seq wpr =? u32 (_transfer_seq (e st) - 1) then
            double_check st
          else
            reject_request st
      else if state_is MAVLINK_WPM_STATE_IDLE st then
        (* Silently ignore this as some OSDs have buggy mission protocol
           implementations *)
        st
      else
        send_statustext_critical "WPM: REJ. CMD: Busy" st
    else
      send_statustext_critical "WPM: REJ. CMD: partner id mismatch" st
  else st.

Definition handle_mission_request (msg : mavlink_message_t)
    (wpr : mavlink_mission_request_t) (st : MM) : MM :=
  (* The request comes in the old float mode, so we switch to it. *)
  let st := if _int_mode (e st) then E (set_int_mode false) st else st in
  handle_mission_request_both msg wpr st.

Definition handle_mission_request_int (msg : mavlink_message_t)
    (wpr : mavlink_mission_request_t) (st : MM) : MM :=
  (* The request comes in the new int mode, so we switch to it. *)
  let st := if negb (_int_mode (e st)) then E (set_int_mode true) st else st in
  handle_mission_request_both msg wpr st.

Definition handle_mission_count (msg : mavlink_message_t)
    (wpc : mavlink_mission_count_t) (st : MM) : MM :=
  if CHECK_SYSID_COMPID_MISSION (wpc_target_system wpc) (wpc_target_component wpc) st then
    let request (st : MM) : MM :=
      send_mission_request (_transfer_partner_sysid (e st))
        (_transfer_partner_compid (e st)) (_transfer_seq (e st)) st in
    if state_is MAVLINK_WPM_STATE_IDLE st then
      let st := E (set_time_last_recv (hrt_absolute_time st)) st in
      if _transfer_in_progress (g st) then
        send_mission_ack (_transfer_partner_sysid (e st))
          (_transfer_partner_compid (e st)) MAV_MISSION_ERROR st
      else
        let st := G (set_transfer_in_progress true) st in
        let st := E (set_mission_type (wpc_mission_type wpc)) st in
        if current_max_item_count st <? wpc_count wpc then
          let st := send_mission_ack (_transfer_partner_sysid (e st))
                      (_transfer_partner_compid (e st)) MAV_MISSION_NO_SPACE st in
          G (set_transfer_in_progress false) st
        else if wpc_count wpc =? 0 then
          let st :=
            if _mission_type (e st) =? MAV_MISSION_TYPE_MISSION then
              (* alternate dataman ID anyway to let navigator know about changes *)
              snd (update_active_mission (if _dataman_id (g st) =? 0 then 1 else 0) 0 0 st)
            else if _mission_type (e st) =? MAV_MISSION_TYPE_FENCE then
              snd (update_geofence_count 0 st)
            else if _mission_type (e st) =? MAV_MISSION_TYPE_RALLY then
              snd (update_safepoint_count 0 st)
            else st in
          let st := send_mission_ack (_transfer_partner_sysid (e st))
                      (_transfer_partner_compid (e st)) MAV_MISSION_ACCEPTED st in
          G (set_transfer_in_progress false) st
        else
          let st := E (set_state MAVLINK_WPM_STATE_GETLIST) st in
          let st := E (set_transfer_seq 0) st in
          let st := E (set_transfer_partner_sysid (sysid msg)) st in
          let st := E (set_transfer_partner_compid (compid msg)) st in
          let st := E (set_transfer_count (wpc_count wpc)) st in
          (* use inactive storage for transmission *)
          let st := E (set_transfer_dataman_id (if _dataman_id (g st) =? 0 then 1 else 0)) st in
          let st := E (set_transfer_current_seq (-1)) st in
          let st :=
            if _mission_type (e st) =? MAV_MISSION_TYPE_FENCE then
              (* We're about to write new geofence items, so take the lock.
                 It will be released when switching back to idle *)
              let lk := dm_lock DM_KEY_FENCE_POINTS st in
              if fst lk then E (set_geofence_locked true) (snd lk) else snd lk
            else st in
          request st
    else if state_is MAVLINK_WPM_STATE_GETLIST st then
      let st := E (set_time_last_recv (hrt_absolute_time st)) st in
      if _transfer_seq (e st) =? 0 then
        (* looks like our MISSION_REQUEST was lost, try again *)
        request st
      else
        send_statustext_critical "WPM: REJ. CMD: Busy" st
    else
      send_statustext_critical "WPM: IGN MISSION_COUNT: Busy" st
  else st.

(** The commands that a MISSION-type item must not carry. *)
Definition is_fence_or_rally_cmd (cmd : Z) : bool :=
  (cmd =? MAV_CMD_NAV_FENCE_POLYGON_VERTEX_INCLUSION) ||
  (cmd =? MAV_CMD_NAV_FENCE_POLYGON_VERTEX_EXCLUSION) ||
  (cmd =? MAV_CMD_NAV_FENCE_CIRCLE_INCLUSION) ||
  (cmd =? MAV_CMD_NAV_FENCE_CIRCLE_EXCLUSION) ||
  (cmd =? MAV_CMD_NAV_RALLY_POINT).

(** The fence point that [handle_mission_item_both] stores.  Of
    [vertex_count] and [circle_radius] the source assigns one; the other is
    zero here. *)
Definition fence_point_of_item (mission_item : mission_item_s) : mission_fence_point_s :=
  {| fp_nav_cmd := nav_cmd mission_item;
     fp_lat := lat mission_item;
     fp_lon := lon mission_item;
     fp_alt := altitude mission_item;
     fp_vertex_count :=
       if is_polygon_vertex (nav_cmd mission_item) then vertex_count mission_item else 0;
     fp_circle_radius :=
       if is_polygon_vertex (nav_cmd mission_item) then f_zero else circle_radius mission_item;
     fp_frame := frame mission_item |}.

Definition save_point_of_item (mission_item : mission_item_s) : mission_save_point_s :=
  {| sp_lat := lat mission_item;
     sp_lon := lon mission_item;
     sp_alt := altitude mission_item;
     sp_frame := frame mission_item |}.

(** The first [switch (_mission_type)] of [handle_mission_item_both]:
    [write_failed], [check_failed] and the state after the write. *)
Definition store_mission_item (wp : mavlink_mission_item_t)
    (mission_item : mission_item_s) (st : MM) : bool * bool * MM :=
  let mt := _mission_type (e st) in
  if mt =? MAV_MISSION_TYPE_MISSION then
    (* check that we don't get a wrong item (hardening against wrong client
       implementations, the list here does not need to be complete) *)
    if is_fence_or_rally_cmd (nav_cmd mission_item) then
      (false, true, st)
    else
      let dm_item := DM_KEY_WAYPOINTS_OFFBOARD (_transfer_dataman_id (e st)) in
      let wr := dm_write dm_item (wp_seq wp) (DmMissionItem mission_item) st in
      let write_failed := negb (fst wr) in
      let st := snd wr in
      let st := if negb write_failed && negb (wp_current wp =? 0)
                then E (set_transfer_current_seq (wp_seq wp)) st   (* waypoint marked as current *)
                else st in
      (write_failed, false, st)
  else if mt =? MAV_MISSION_TYPE_FENCE then
    (* Write a geofence point *)
    let mission_fence_point := fence_point_of_item mission_item in
    let chk :=
      if is_polygon_vertex (nav_cmd mission_item) && (vertex_count mission_item <? 3)
      then (true, snd (update_geofence_count 0 st))   (* feasibility check *)
      else (false, st) in
    let check_failed := fst chk in
    let st := snd chk in
    if negb check_failed then
      let wr := dm_write DM_KEY_FENCE_POINTS (wp_seq wp + 1)
                  (DmFencePoint mission_fence_point) st in
      (negb (fst wr), check_failed, snd wr)
    else
      (false, check_failed, st)
  else if mt =? MAV_MISSION_TYPE_RALLY then
    (* Write a safe point / rally point *)
    let wr := dm_write DM_KEY_SAFE_POINTS (wp_seq wp + 1)
                (DmSafePoint (save_point_of_item mission_item)) st in
    (negb (fst wr), false, snd wr)
  else
    (false, false, send_statustext_critical "Received unknown mission type, abort." st).

(** The second [switch (_mission_type)]: the header or the stats written
    when the last item has been received. *)
Definition commit_transfer (st : MM) : Z * MM :=
  let mt := _mission_type (e st) in
  if mt =? MAV_MISSION_TYPE_MISSION then
    update_active_mission (_transfer_dataman_id (e st)) (_transfer_count (e st))
      (_transfer_current_seq (e st)) st
  else if mt =? MAV_MISSION_TYPE_FENCE then
    update_geofence_count (_transfer_count (e st)) st
  else if mt =? MAV_MISSION_TYPE_RALLY then
    update_safepoint_count (_transfer_count (e st)) st
  else (0, st).

Definition handle_mission_item_both (msg : mavlink_message_t)
    (wp : mavlink_mission_item_t) (st : MM) : MM :=
  if CHECK_SYSID_COMPID_MISSION (wp_target_system wp) (wp_target_component wp) st then
    if negb (wp_mission_type wp =? _mission_type (e st)) then st
    else if state_is MAVLINK_WPM_STATE_GETLIST st then
      let st := E (set_time_last_recv (hrt_absolute_time st)) st in
      if negb (wp_seq wp =? _transfer_seq (e st)) then
        (* don't send request here, it will be performed in eventloop after
           timeout *)
        st
      else
        let pr := parse_mavlink_mission_item wp mission_item_zero st in
        let ret := fst (fst pr) in
        let mission_item := snd (fst pr) in
        let st := snd pr in
        if negb (ret =? PX4_OK) then
          let st := send_statustext_critical "IGN MISSION_ITEM: Busy" st in
          let st := send_mission_ack (_transfer_partner_sysid (e st))
                      (_transfer_partner_compid (e st)) ret st in
          let st := switch_to_idle_state st in
          G (set_transfer_in_progress false) st
        else
          let sr := store_mission_item wp mission_item st in
          let write_failed := fst (fst sr) in
          let check_failed := snd (fst sr) in
          let st := snd sr in
          if write_failed || check_failed then
            let st := send_mission_ack (_transfer_partner_sysid (e st))
                        (_transfer_partner_compid (e st)) MAV_MISSION_ERROR st in
            let st := if write_failed
                      then send_statustext_critical "Unable to write on micro SD" st
                      else st in
            let st := switch_to_idle_state st in
            G (set_transfer_in_progress false) st
          else
            (* waypoint marked as current *)
            let st := if negb (wp_current wp =? 0)
                      then E (set_transfer_current_seq (wp_seq wp)) st
                      else st in
            let st := E (set_transfer_seq (wp_seq wp + 1)) st in
            if _transfer_seq (e st) =? _transfer_count (e st) then
              (* got all new mission items successfully *)
              let cr := commit_transfer st in
              let ret := fst cr in
              let st := snd cr in
              (* Note: the switch to idle needs to happen after
                 update_geofence_count is called, for proper unlocking order *)
              let st := switch_to_idle_state st in
              let st := if ret =? PX4_OK
                        then send_mission_ack (_transfer_partner_sysid (e st))
                               (_transfer_partner_compid (e st)) MAV_MISSION_ACCEPTED st
                        else send_mission_ack (_transfer_partner_sysid (e st))
                               (_transfer_partner_compid (e st)) MAV_MISSION_ERROR st in
              G (set_transfer_in_progress false) st
            else
              (* request next item *)
              send_mission_request (_transfer_partner_sysid (e st))
                (_transfer_partner_compid (e st)) (_transfer_seq (e st)) st
    else if state_is MAVLINK_WPM_STATE_IDLE st then
      send_statustext_critical "IGN MISSION_ITEM: No transfer" st
    else
      send_statustext_critical "IGN MISSION_ITEM: Busy" st
  else st.

Definition handle_mission_item (msg : mavlink_message_t)
    (wp : mavlink_mission_item_t) (st : MM) : MM :=
  (* It seems that we should be using the float mode, let's switch out of
     int mode. *)
  let st := if _int_mode (e st) then E (set_int_mode false) st else st in
  handle_mission_item_both msg wp st.

Definition handle_mission_item_int (msg : mavlink_message_t)
    (wp : mavlink_mission_item_t) (st : MM) : MM :=
  (* It seems that we should be using the int mode, let's switch to it. *)
  let st := if negb (_int_mode (e st)) then E (set_int_mode true) st else st in
  handle_mission_item_both msg wp st.

(** [a || b] on two [int]s. *)
Definition c_or (a b : Z) : Z := if negb (a =? 0) || negb (b =? 0) then 1 else 0.

Definition handle_mission_clear_all (msg : mavlink_message_t)
    (wpca : mavlink_mission_clear_all_t) (st : MM) : MM :=
  if CHECK_SYSID_COMPID_MISSION (wpca_target_system wpca) (wpca_target_component wpca) st then
    if state_is MAVLINK_WPM_STATE_IDLE st then
      (* don't touch mission items storage itself, but only items count in
         mission state *)
      let st := E (set_time_last_recv (hrt_absolute_time st)) st in
      (* this is needed for the returned ack *)
      let st := E (set_mission_type (wpca_mission_type wpca)) st in
      let toggled (st : MM) : Z := if _dataman_id (g st) =? 0 then 1 else 0 in
      let r :=
        if wpca_mission_type wpca =? MAV_MISSION_TYPE_MISSION then
          update_active_mission (toggled st) 0 0 st
        else if wpca_mission_type wpca =? MAV_MISSION_TYPE_FENCE then
          update_geofence_count 0 st
        else if wpca_mission_type wpca =? MAV_MISSION_TYPE_RALLY then
          update_safepoint_count 0 st
        else if wpca_mission_type wpca =? MAV_MISSION_TYPE_ALL then
          let r1 := update_active_mission (toggled st) 0 0 st in
          let r2 := update_geofence_count 0 (snd r1) in
          let ret := c_or (fst r2) (fst r1) in
          let r3 := update_safepoint_count 0 (snd r2) in
          (c_or (fst r3) ret, snd r3)
        else (0, st) in
      let ret := fst r in
      let st := snd r in
      if ret =? PX4_OK then
        send_mission_ack (_transfer_partner_sysid (e st))
          (_transfer_partner_compid (e st)) MAV_MISSION_ACCEPTED st
      else
        send_mission_ack (_transfer_partner_sysid (e st))
          (_transfer_partner_compid (e st)) MAV_MISSION_ERROR st
    else
      send_statustext_critical "WPM: IGN CLEAR CMD: Busy" st
  else st.

Definition handle_message (msg : mavlink_message_t) (st : MM) : MM :=
  match payload msg with
  | MAVLINK_MSG_ID_MISSION_ACK wpa => handle_mission_ack msg wpa st
  | MAVLINK_MSG_ID_MISSION_SET_CURRENT wpc => handle_mission_set_current msg wpc st
  | MAVLINK_MSG_ID_MISSION_REQUEST_LIST wprl => handle_mission_request_list msg wprl st
  | MAVLINK_MSG_ID_MISSION_REQUEST wpr => handle_mission_request msg wpr st
  | MAVLINK_MSG_ID_MISSION_REQUEST_INT wpr => handle_mission_request_int msg wpr st
  | MAVLINK_MSG_ID_MISSION_COUNT wpc => handle_mission_count msg wpc st
  | MAVLINK_MSG_ID_MISSION_ITEM wp => handle_mission_item msg wp st
  | MAVLINK_MSG_ID_MISSION_ITEM_INT wp => handle_mission_item_int msg wp st
  | MAVLINK_MSG_ID_MISSION_CLEAR_ALL wpca => handle_mission_clear_all msg wpca st
  | MAVLINK_MSG_ID_OTHER => st
  end.

(** The progress part of [send]: a new [mission_result], or the periodic
    repetition. *)
Definition send_progress (now : Z) (st : MM) : MM :=
  match mission_result (w st) with
  | Some mission_result0 =>
      let st := W (set_mission_result None) st in
      let st := G (set_current_seq (seq_current mission_result0)) st in
      let st :=
        if reached mission_result0 then
          let st := E (set_time_last_reached now) st in
          let st := G (set_last_reached (seq_reached mission_result0)) st in
          send_mission_item_reached (seq_reached mission_result0) st
        else
          G (set_last_reached (-1)) st in
      let st := send_mission_current (_current_seq (g st)) st in
      if item_do_jump_changed mission_result0 then
        (* send a mission item again if the remaining DO_JUMPs has changed *)
        send_mission_item (_transfer_partner_sysid (e st))
          (_transfer_partner_compid (e st)) (item_changed_index mission_result0) st
      else st
  | None =>
      let rl := rate_limiter_check now st in
      let st := snd rl in
      if fst rl then
        let st := send_mission_current (_current_seq (g st)) st in
        (* send the reached message a couple of times after reaching the
           waypoint *)
        if (0 <=? _last_reached (g st)) &&
           (u64 (now - _time_last_reached (e st)) <? 300 * 1000)
        then send_mission_item_reached (_last_reached (g st)) st
        else st
      else st
  end.

Definition send (now : Z) (st : MM) : MM :=
  let st := send_progress now st in
  (* check for timed-out operations *)
  if state_is MAVLINK_WPM_STATE_GETLIST st && (0 <? _time_last_sent (e st)) &&
     (_retry_timeout (e st) <? hrt_elapsed_time (_time_last_sent (e st)) st) then
    (* try to request item again after timeout *)
    send_mission_request (_transfer_partner_sysid (e st))
      (_transfer_partner_compid (e st)) (_transfer_seq (e st)) st
  else if state_is MAVLINK_WPM_STATE_SENDLIST st && (0 <? _time_last_sent (e st)) &&
          (_retry_timeout (e st) <? hrt_elapsed_time (_time_last_sent (e st)) st) then
    if _transfer_seq (e st) =? 0 then
      (* try to send items count again after timeout *)
      send_mission_count (_transfer_partner_sysid (e st))
        (_transfer_partner_compid (e st)) (_transfer_count (e st))
        (_mission_type (e st)) st
    else
      (* try to send item again after timeout *)
      send_mission_item (_transfer_partner_sysid (e st))
        (_transfer_partner_compid (e st)) (_transfer_seq (e st) - 1) st
  else if negb (state_is MAVLINK_WPM_STATE_IDLE st) && (0 <? _time_last_recv (e st)) &&
          (_action_timeout (e st) <? hrt_elapsed_time (_time_last_recv (e st)) st) then
    let st := send_statustext_critical "Operation timeout" st in
    let st := switch_to_idle_state st in
    (* since we are giving up, reset this state also, so another request can
       be started. *)
    G (set_transfer_in_progress false) st
  else if state_is MAVLINK_WPM_STATE_IDLE st then
    (* reset flags *)
    E (set_time_last_recv 0) (E (set_time_last_sent 0) st)
  else st.

(** ** Start-up and notification *)

(** Called by the constructor.  The first instance reads the persisted
    header and the two stats records; [dm_read(...) > 0] is a slot that
    holds a header. *)
Definition init_offboard_mission (st : MM) : MM :=
  let st :=
    if negb (_dataman_init (g st)) then
      let st := G (set_dataman_init true) st in
      let rd := dm_read DM_KEY_MISSION_STATE 0 st in
      let st := snd rd in
      let st :=
        match fst rd with
        | Some (DmMissionState mission_state) =>
            let st := G (set_dataman_id (dataman_id mission_state)) st in
            let st := G (set_count_at MAV_MISSION_TYPE_MISSION (count mission_state)) st in
            G (set_current_seq (current_seq mission_state)) st
        | _ => st
        end in
      let st := load_geofence_stats st in
      load_safepoint_stats st
    else st in
  E (set_my_dataman_id (_dataman_id (g st))) st.

Definition check_active_mission (st : MM) : MM :=
  if negb (_my_dataman_id (e st) =? _dataman_id (g st)) then
    let st := E (set_my_dataman_id (_dataman_id (g st))) st in
    send_mission_count (_transfer_partner_sysid (e st)) (_transfer_partner_compid (e st))
      (count_at MAV_MISSION_TYPE_MISSION st) MAV_MISSION_TYPE_MISSION st
  else st.

(** Modelled from the spec: the task loop of the MAVLink instance is not
    part of the sources; by section 5 of the specification it calls
    [send(now)] and delivers the inbound messages one after the other. *)
Inductive Input :=
| Message (msg : mavlink_message_t)
| Tick (now : Z).

Definition step (i : Input) (st : MM) : MM :=
  match i with
  | Message msg => handle_message msg st
  | Tick now => send now st
  end.

Definition run (inputs : list Input) (st : MM) : MM :=
  fold_left (fun s i => step i s) inputs st.

(** ** Vocabulary of the statements *)

(** The log entry of a call made in state [st]. *)
Definition logged (c : Event) (st : MM) : Entry :=
  {| call := c; at_g := g st; at_e := e st |}.

(** The inactive buffer: [_dataman_id == 0 ? 1 : 0]. *)
Definition inactive_dataman_id (st : MM) : Z :=
  if _dataman_id (g st) =? 0 then 1 else 0.

Definition is_mission_ack (type : Z) (c : Event) : Prop :=
  exists wpa, c = mavlink_msg_mission_ack_send wpa /\ wpa_type wpa = type.

Definition is_statustext (c : Event) : Prop :=
  exists text, c = statustext_critical text.

Definition is_mission_item_send (seq : Z) (c : Event) : Prop :=
  exists wp, (c = mavlink_msg_mission_item_send wp \/
              c = mavlink_msg_mission_item_int_send wp) /\ wp_seq wp = seq.

(** The fence lock is released between [st] and [st']: the flag is cleared
    and, when it was set, [dm_unlock] was called while the endpoint was
    still in the state it had in [st]. *)
Definition lock_released (st st' : MM) : Prop :=
  _geofence_locked (e st') = false /\
  (_geofence_locked (e st) = true ->
     fence_lock (w st') = false /\
     exists (new : list Entry) (en : Entry),
       log (w st') = (new ++ log (w st))%list /\ In en new /\
       call en = dm_unlock_call DM_KEY_FENCE_POINTS /\
       _state (at_e en) = _state (e st)).

(** An event that is neither a write to dataman, nor a publication, nor a
    MISSION_ACK(ACCEPTED). *)
Definition plain (c : Event) : Prop :=
  match c with
  | mavlink_msg_mission_ack_send wpa => wpa_type wpa <> MAV_MISSION_ACCEPTED
  | dm_write_call _ _ _ _ | orb_advertise_call _ | orb_publish_call _ => False
  | _ => True
  end.

(** What a statement watches: a part of the instance members, a part of
    the static members, whether it watches the fence lock, and the calls it
    lets through. *)
Record View := {
  watched_e : Type;
  watched_g : Type;
  on_e : Endpoint -> watched_e;
  on_g : Globals -> watched_g;
  on_lock : bool;
  allows : Event -> Prop
}.

(** [keeps V st st']: between [st] and [st'] what the view watches is
    untouched and the log has grown by allowed calls only. *)
Definition keeps (V : View) (st st' : MM) : Prop :=
  on_e V (e st') = on_e V (e st) /\
  on_g V (g st') = on_g V (g st) /\
  (on_lock V = true -> fence_lock (w st') = fence_lock (w st)) /\
  exists new : list Entry,
    log (w st') = (new ++ log (w st))%list /\ Forall (fun en => allows V (call en)) new.

(** The view does not watch the members that the senders and the
    persistence adapter use for their own bookkeeping, and lets the plain
    calls through. *)
Class Lenient (V : View) : Prop := {
  lenient_time_last_sent : forall v x, on_e V (set_time_last_sent v x) = on_e V x;
  lenient_filesystem_errcount : forall v x, on_e V (set_filesystem_errcount v x) = on_e V x;
  lenient_slow_rate_limiter : forall v x, on_e V (set_slow_rate_limiter v x) = on_e V x;
  lenient_time_last_reached : forall v x, on_e V (set_time_last_reached v x) = on_e V x;
  lenient_current_seq : forall v x, on_g V (set_current_seq v x) = on_g V x;
  lenient_last_reached : forall v x, on_g V (set_last_reached v x) = on_g V x;
  lenient_plain : forall c, plain c -> allows V c
}.

(** The view lets every call through and does not watch what a commit
    assigns. *)
Class Permissive (V : View) : Prop := {
  permissive_allows : forall c, allows V c;
  permissive_my_dataman_id : forall v x, on_e V (set_my_dataman_id v x) = on_e V x;
  permissive_offboard_mission_pub : forall v x, on_e V (set_offboard_mission_pub v x) = on_e V x;
  permissive_transfer_current_seq : forall v x, on_e V (set_transfer_current_seq v x) = on_e V x;
  permissive_dataman_id : forall v x, on_g V (set_dataman_id v x) = on_g V x;
  permissive_count : forall v x, on_g V (set_count v x) = on_g V x;
  permissive_geofence_update_counter : forall v x, on_g V (set_geofence_update_counter v x) = on_g V x
}.

(** The view of the fence lock: the protocol state and the lock flag. *)
Definition lock_view : View :=
  {| on_e := fun x => (_state x, _geofence_locked x);
     on_g := fun _ => tt;
     on_lock := true;
     allows := fun _ => True |}.

(** The view of a mission upload in progress: the type and the buffer of
    the transfer, the active buffer; it lets through the plain calls, the
    writes of items to the buffer [k] and the failed writes of the
    header. *)
Definition upload_view (k : dm_item_t) : View :=
  {| on_e := fun x => (_mission_type x, _transfer_dataman_id x);
     on_g := fun x => _dataman_id x;
     on_lock := false;
     allows := fun c =>
       plain c \/
       (exists i it ok, c = dm_write_call k i (DmMissionItem it) ok) \/
       (exists m, c = dm_write_call DM_KEY_MISSION_STATE 0 (DmMissionState m) false) |}.

(** The view of the cursor of a transfer. *)
Definition cursor_view : View :=
  {| on_e := fun x => (_transfer_seq x, _transfer_count x);
     on_g := fun _ => tt;
     on_lock := false;
     allows := fun _ => True |}.

(** What one input does to a mission upload in progress.  [new] are the
    log entries of the step, newest first. *)
Definition swapped (st st' : MM) (new : list Entry) : Prop :=
  _dataman_id (g st') = inactive_dataman_id st /\
  _state (e st') = MAVLINK_WPM_STATE_IDLE /\
  exists (hdr : mission_s) (en_w en_p : Entry) (later earlier : list Entry),
    new = (later ++ en_p :: en_w :: earlier)%list /\
    dataman_id hdr = inactive_dataman_id st /\
    count hdr = _transfer_count (e st) /\
    (* the header is written while the old buffer is still the active one *)
    call en_w = dm_write_call DM_KEY_MISSION_STATE 0 (DmMissionState hdr) true /\
    _dataman_id (at_g en_w) = _dataman_id (g st) /\
    (* it is published after the swap *)
    (call en_p = orb_publish_call hdr \/ call en_p = orb_advertise_call hdr) /\
    _dataman_id (at_g en_p) = inactive_dataman_id st /\
    dm_store (w st') !! (DM_KEY_MISSION_STATE, 0) = Some (DmMissionState hdr).

Definition upload_step (st st' : MM) : Prop :=
  exists new : list Entry,
    log (w st') = (new ++ log (w st))%list /\
    (* items are written to the inactive buffer *)
    Forall (fun en => forall k i it ok,
              call en = dm_write_call k i (DmMissionItem it) ok ->
              k = DM_KEY_WAYPOINTS_OFFBOARD (inactive_dataman_id st)) new /\
    (* the active buffer changes iff MISSION_ACK(ACCEPTED) is sent *)
    (_dataman_id (g st') <> _dataman_id (g st) <->
     Exists (fun en => is_mission_ack MAV_MISSION_ACCEPTED (call en)) new) /\
    (_dataman_id (g st') <> _dataman_id (g st) -> swapped st st' new) /\
    (* while the upload goes on, it keeps writing to the inactive buffer *)
    (_state (e st') = MAVLINK_WPM_STATE_GETLIST ->
     _mission_type (e st') = MAV_MISSION_TYPE_MISSION /\
     _transfer_dataman_id (e st') = inactive_dataman_id st').

(** The call [c] was made between [st] and [st']. *)
Definition sent (c : Event) (st st' : MM) : Prop :=
  exists (new : list Entry) (en : Entry),
    log (w st') = (new ++ log (w st))%list /\ In en new /\ call en = c.

(** The item that the input [i] delivers to an upload in state [st]: a
    MISSION_ITEM(_INT) that is addressed to the endpoint, has the mission
    type of the transfer and the expected sequence number, that the parser
    accepts in the encoding of its variant, and that is not a fence or
    rally command.  The result is the message and the parsed item. *)
Definition expected_item (i : Input) (st : MM)
    : option (mavlink_mission_item_t * mission_item_s) :=
  let deliver (b : bool) (wp : mavlink_mission_item_t) :=
    let st0 := E (set_int_mode b) st in
    let st1 := E (set_time_last_recv (hrt_absolute_time st0)) st0 in
    let pr := parse_mavlink_mission_item wp mission_item_zero st1 in
    if CHECK_SYSID_COMPID_MISSION (wp_target_system wp) (wp_target_component wp) st &&
       (wp_mission_type wp =? _mission_type (e st)) &&
       (wp_seq wp =? _transfer_seq (e st)) &&
       (fst (fst pr) =? PX4_OK) &&
       negb (is_fence_or_rally_cmd (nav_cmd (snd (fst pr))))
    then Some (wp, snd (fst pr))
    else None in
  match i with
  | Message msg =>
      match payload msg with
      | MAVLINK_MSG_ID_MISSION_ITEM wp => deliver false wp
      | MAVLINK_MSG_ID_MISSION_ITEM_INT wp => deliver true wp
      | _ => None
      end
  | Tick _ => None
  end.

(** What becomes of the item [o] that an input delivers to a mission
    upload.  Without an expected item the active buffer stays.  An expected
    item is written to its slot of the inactive buffer when dataman takes
    the write; if it is the last one, the header is written next, and the
    active buffer is swapped and MISSION_ACK(ACCEPTED) sent when dataman
    takes that write too; otherwise the endpoint waits for the next item.
    A write that dataman refuses ends the upload with MISSION_ACK(ERROR),
    the active buffer as it was. *)
Definition item_outcome (o : option (mavlink_mission_item_t * mission_item_s))
    (st st' : MM) : Prop :=
  match o with
  | None => _dataman_id (g st') = _dataman_id (g st)
  | Some (wp, mission_item) =>
      let k := DM_KEY_WAYPOINTS_OFFBOARD (inactive_dataman_id st) in
      let failed :=
        _state (e st') = MAVLINK_WPM_STATE_IDLE /\
        _dataman_id (g st') = _dataman_id (g st) /\
        exists c, is_mission_ack MAV_MISSION_ERROR c /\ sent c st st' in
      if dm_fault st then
        failed /\
        dm_store (w st') = dm_store (w st) /\
        sent (dm_write_call k (wp_seq wp) (DmMissionItem mission_item) false) st st'
      else
        dm_store (w st') !! (k, wp_seq wp) = Some (DmMissionItem mission_item) /\
        sent (dm_write_call k (wp_seq wp) (DmMissionItem mission_item) true) st st' /\
        if wp_seq wp + 1 =? _transfer_count (e st) then
          if hd false (tl (dm_faults (w st))) then failed
          else
            _state (e st') = MAVLINK_WPM_STATE_IDLE /\
            _dataman_id (g st') = inactive_dataman_id st /\
            exists c, is_mission_ack MAV_MISSION_ACCEPTED c /\ sent c st st'
        else
          _state (e st') = MAVLINK_WPM_STATE_GETLIST /\
          _transfer_seq (e st') = wp_seq wp + 1 /\
          _dataman_id (g st') = _dataman_id (g st)
  end.

(** The same for the input [i]. *)
Definition item_step (i : Input) (st st' : MM) : Prop :=
  item_outcome (expected_item i st) st st'.

(** A mission upload that writes to buffer [id0], followed input by input
    for as long as the endpoint stays in GETLIST: what each input may do
    ([upload_step]) and what it does with the item it delivers
    ([item_step]). *)
Fixpoint upload_run (id0 : Z) (st : MM) (inputs : list Input) : Prop :=
  match inputs with
  | [] => True
  | i :: rest =>
      inactive_dataman_id st = id0 /\
      _transfer_dataman_id (e st) = id0 /\
      upload_step st (step i st) /\
      item_step i st (step i st) /\
      (_state (e (step i st)) = MAVLINK_WPM_STATE_GETLIST ->
       upload_run id0 (step i st) rest)
  end.

(** The item that [send_mission_item] is asked for can be read. *)
Definition readable (seq : Z) (st : MM) : bool := fst (fst (read_mission_item seq st)).

(** [released st st']: the endpoint is back in IDLE and the lock was given
    back on the way. *)
Definition released (st st' : MM) : Prop :=
  _state (e st') = MAVLINK_WPM_STATE_IDLE /\ lock_released st st'.

(** Each path of a handler either keeps the state and the lock, or goes
    through [switch_to_idle_state]. *)
Definition settled (st st' : MM) : Prop := keeps lock_view st st' \/ released st st'.

(** ** Vocabulary of the further statements *)

(** The addressee of a mission message: [target_system] and
    [target_component] of the decoded struct. *)
Definition target_of (p : mavlink_payload) : option (Z * Z) :=
  match p with
  | MAVLINK_MSG_ID_MISSION_ACK wpa => Some (wpa_target_system wpa, wpa_target_component wpa)
  | MAVLINK_MSG_ID_MISSION_SET_CURRENT wpc =>
      Some (wsc_target_system wpc, wsc_target_component wpc)
  | MAVLINK_MSG_ID_MISSION_REQUEST_LIST wprl =>
      Some (wprl_target_system wprl, wprl_target_component wprl)
  | MAVLINK_MSG_ID_MISSION_REQUEST wpr | MAVLINK_MSG_ID_MISSION_REQUEST_INT wpr =>
      Some (wpr_target_system wpr, wpr_target_component wpr)
  | MAVLINK_MSG_ID_MISSION_COUNT wpc => Some (wpc_target_system wpc, wpc_target_component wpc)
  | MAVLINK_MSG_ID_MISSION_ITEM wp | MAVLINK_MSG_ID_MISSION_ITEM_INT wp =>
      Some (wp_target_system wp, wp_target_component wp)
  | MAVLINK_MSG_ID_MISSION_CLEAR_ALL wpca =>
      Some (wpca_target_system wpca, wpca_target_component wpca)
  | MAVLINK_MSG_ID_OTHER => None
  end.

(** The message is for this endpoint. *)
Definition addressed (msg : mavlink_message_t) (st : MM) : bool :=
  match target_of (payload msg) with
  | Some (target_system, target_component) =>
      CHECK_SYSID_COMPID_MISSION target_system target_component st
  | None => false
  end.

(** The encoding that the variant of a request or of an item stands for. *)
Definition variant_int_mode (p : mavlink_payload) (int_mode : bool) : bool :=
  match p with
  | MAVLINK_MSG_ID_MISSION_REQUEST _ | MAVLINK_MSG_ID_MISSION_ITEM _ => false
  | MAVLINK_MSG_ID_MISSION_REQUEST_INT _ | MAVLINK_MSG_ID_MISSION_ITEM_INT _ => true
  | _ => int_mode
  end.

(** [writes_only K st st']: between [st] and [st'] no slot of dataman
    outside [K] has changed. *)
Definition writes_only (K : dm_item_t * Z -> Prop) (st st' : MM) : Prop :=
  forall k, ~ K k -> dm_store (w st') !! k = dm_store (w st) !! k.

(** The slots of the mission header and of the fence and rally stats. *)
Definition bookkeeping_slot (k : dm_item_t * Z) : Prop :=
  k = (DM_KEY_MISSION_STATE, 0) \/ k = (DM_KEY_FENCE_POINTS, 0) \/ k = (DM_KEY_SAFE_POINTS, 0).

(** The slot that an item with sequence number [seq] goes to during a
    transfer of the endpoint's mission type. *)
Definition item_slot (seq : Z) (st : MM) : dm_item_t * Z :=
  if _mission_type (e st) =? MAV_MISSION_TYPE_MISSION
  then (DM_KEY_WAYPOINTS_OFFBOARD (_transfer_dataman_id (e st)), seq)
  else if _mission_type (e st) =? MAV_MISSION_TYPE_FENCE
       then (DM_KEY_FENCE_POINTS, seq + 1)
       else (DM_KEY_SAFE_POINTS, seq + 1).

(** The slots that an input may write: a tick writes nothing; a message
    may write the bookkeeping slots; an item that is expected (GETLIST,
    [seq = _transfer_seq]) may write its own slot besides. *)
Definition slots_of_input (i : Input) (st : MM) (k : dm_item_t * Z) : Prop :=
  match i with
  | Tick _ => False
  | Message msg =>
      bookkeeping_slot k \/
      exists wp,
        (payload msg = MAVLINK_MSG_ID_MISSION_ITEM wp \/
         payload msg = MAVLINK_MSG_ID_MISSION_ITEM_INT wp) /\
        _state (e st) = MAVLINK_WPM_STATE_GETLIST /\
        wp_seq wp = _transfer_seq (e st) /\
        k = item_slot (wp_seq wp) st
  end.

(** The view of a transfer as its partner sees it: the protocol state, the
    mission type, the cursor, the partner and the flag shared by the
    instances. *)
Definition transfer_view : View :=
  {| on_e := fun x => (_state x, _mission_type x, _transfer_count x, _transfer_seq x,
                       _transfer_partner_sysid x, _transfer_partner_compid x);
     on_g := fun x => _transfer_in_progress x;
     on_lock := false;
     allows := fun _ => True |}.

(** What comes back of an item that went through dataman: a mission item
    as it is, a fence vertex through [mission_fence_point_s], a rally point
    through [mission_save_point_s]. *)
Definition as_stored (mission_type : Z) (mission_item : mission_item_s) : mission_item_s :=
  if mission_type =? MAV_MISSION_TYPE_MISSION then mission_item
  else if mission_type =? MAV_MISSION_TYPE_FENCE
       then item_of_fence_point (fence_point_of_item mission_item)
       else item_of_save_point (save_point_of_item mission_item).

(** The senders leave the statics, the clock and the uORB input alone. *)
Definition sends_only (st st' : MM) : Prop :=
  g st' = g st /\ mission_result (w st') = mission_result (w st) /\
  hrt_now (w st') = hrt_now (w st) /\
  _time_last_recv (e st') = _time_last_recv (e st) /\
  _action_timeout (e st') = _action_timeout (e st).

(** The view of a session: the protocol state, the list in transfer, the
    lock flag, the upload flag of the process and the lock itself. *)
Definition session_view : View :=
  {| on_e := fun x => (_state x, _mission_type x, _geofence_locked x);
     on_g := fun x => _transfer_in_progress x;
     on_lock := true;
     allows := fun _ => True |}.

(** The view of the upload flag alone. *)
Definition flag_view : View :=
  {| on_e := fun _ => tt;
     on_g := fun x => _transfer_in_progress x;
     on_lock := false;
     allows := fun _ => True |}.

(** The endpoint is in IDLE and holds nothing. *)
Definition idle_clean (st : MM) : Prop :=
  _state (e st) = MAVLINK_WPM_STATE_IDLE /\
  _geofence_locked (e st) = false /\
  fence_lock (w st) = false.

(** The bookkeeping of a session agrees with the protocol state:
    [_transfer_in_progress] is set exactly while the endpoint receives a
    list, the lock flag is set only while it receives a fence, and the flag
    tells whether the fence namespace is locked. *)
Definition consistent (st : MM) : Prop :=
  (_transfer_in_progress (g st) = true <-> _state (e st) = MAVLINK_WPM_STATE_GETLIST) /\
  (_geofence_locked (e st) = true ->
     _state (e st) = MAVLINK_WPM_STATE_GETLIST /\
     _mission_type (e st) = MAV_MISSION_TYPE_FENCE) /\
  fence_lock (w st) = _geofence_locked (e st).

End Model.

(** ** A platform to run the model on

    Exact rational arithmetic in place of the floating-point interface:
    nothing is rounded, casts to integers take the floor, a float is stored
    in a word as its integer part and [_wrap_pi] leaves its argument as it
    is.  The capacities are those of the default dataman layout.  The
    platform is used to evaluate the model on concrete inputs only; the
    theorems below hold for every platform. *)

Definition rational_platform : Platform :=
  {| F := Q;
     D := Q;
     f_zero := 0%Q;
     f_half := (1 # 2)%Q;
     f_add := Qplus;
     f_mul := Qmult;
     f_gt0 := fun a => 0 <? Qnum a;
     M_DEG_TO_RAD_F := (174533 # 10000000)%Q;
     M_RAD_TO_DEG_F := (572957795 # 10000000)%Q;
     _wrap_pi := fun a => a;
     f_of_int := inject_Z;
     f_to_uint16 := Qfloor;
     f_to_int16 := Qfloor;
     f_of_bits := inject_Z;
     f_to_bits := Qfloor;
     d_of_float := fun a => a;
     d_to_float := fun a => a;
     d_of_int32 := inject_Z;
     d_to_int32 := Qfloor;
     d_mul := Qmult;
     d_1e7 := inject_Z 10000000;
     d_1e_7 := (1 # 10000000)%Q;
     d_zero := 0%Q;
     MAX_COUNT := [2000; 63; 7] |}.

Section Run.
#[local] Existing Instance rational_platform.

(** The static members as the source initialises them (lines 57-64). *)
Definition statics_init : Globals :=
  {| _dataman_id := 0;
     _dataman_init := false;
     _count := [0; 0; 0];
     _current_seq := 0;
     _last_reached := -1;
     _transfer_in_progress := false;
     _geofence_update_counter := 0 |}.

(** The instance members after the initialiser list of the constructor; the
    two timeouts and the interval are the defaults of section 6 of the
    specification, in microseconds. *)
Definition endpoint_init : Endpoint :=
  {| _state := MAVLINK_WPM_STATE_IDLE;
     _mission_type := MAV_MISSION_TYPE_MISSION;
     _time_last_recv := 0;
     _time_last_sent := 0;
     _time_last_reached := 0;
     _action_timeout := 5000000;
     _retry_timeout := 500000;
     _int_mode := false;
     _filesystem_errcount := 0;
     _my_dataman_id := 0;
     _transfer_dataman_id := 0;
     _transfer_count := 0;
     _transfer_seq := 0;
     _transfer_current_seq := -1;
     _transfer_partner_sysid := 0;
     _transfer_partner_compid := 0;
     _offboard_mission_pub := false;
     _geofence_locked := false;
     _slow_rate_limiter := {| rl_last_sent := 0; rl_interval := 100 * 1000 |} |}.

Definition wp_zero : mavlink_mission_item_t :=
  {| wp_param1 := 0%Q; wp_param2 := 0%Q; wp_param3 := 0%Q; wp_param4 := 0%Q;
     wp_x := 0; wp_y := 0; wp_z := 0%Q; wp_seq := 0; wp_command := 0;
     wp_target_system := 0; wp_target_component := 0; wp_frame := 0;
     wp_current := 0; wp_autocontinue := 0; wp_mission_type := 0 |}.

(** An empty dataman, no fault scripted, vehicle 1/1, one second after
    boot. *)
Definition world_init : World :=
  {| dm_store := ∅;
     dm_faults := [];
     fence_lock := false;
     hrt_now := 1000000;
     mission_result := None;
     mavlink_system_sysid := 1;
     mavlink_system_compid := 1;
     wp_uninit := wp_zero;
     log := [] |}.

Definition mm_init : MM := {| g := statics_init; e := endpoint_init; w := world_init |}.

(** The ground station 255/0 and the messages it sends to vehicle 1/1. *)
Definition from_gcs (p : mavlink_payload) : mavlink_message_t :=
  {| sysid := 255; compid := 0; payload := p |}.

Definition gcs_wpc (mission_type n : Z) : mavlink_mission_count_t :=
  {| wpc_target_system := 1; wpc_target_component := 1;
     wpc_count := n; wpc_mission_type := mission_type |}.

Definition gcs_count (mission_type n : Z) : mavlink_message_t :=
  from_gcs (MAVLINK_MSG_ID_MISSION_COUNT (gcs_wpc mission_type n)).

Definition gcs_wp (mission_type seq fr cmd : Z) (param1 : Q) : mavlink_mission_item_t :=
  {| wp_param1 := param1; wp_param2 := 0%Q; wp_param3 := 0%Q; wp_param4 := 0%Q;
     wp_x := 0; wp_y := 0; wp_z := 0%Q; wp_seq := seq; wp_command := cmd;
     wp_target_system := 1; wp_target_component := 1; wp_frame := fr;
     wp_current := 0; wp_autocontinue := 1; wp_mission_type := mission_type |}.

Definition gcs_item (mission_type seq fr cmd : Z) (param1 : Q) : mavlink_message_t :=
  from_gcs (MAVLINK_MSG_ID_MISSION_ITEM (gcs_wp mission_type seq fr cmd param1)).

Definition gcs_request_list (mission_type : Z) : mavlink_message_t :=
  from_gcs (MAVLINK_MSG_ID_MISSION_REQUEST_LIST
    {| wprl_target_system := 1; wprl_target_component := 1;
       wprl_mission_type := mission_type |}).

Definition gcs_wpr (mission_type seq : Z) : mavlink_mission_request_t :=
  {| wpr_target_system := 1; wpr_target_component := 1;
     wpr_seq := seq; wpr_mission_type := mission_type |}.

Definition gcs_request (mission_type seq : Z) : mavlink_message_t :=
  from_gcs (MAVLINK_MSG_ID_MISSION_REQUEST (gcs_wpr mission_type seq)).

Definition gcs_request_int (mission_type seq : Z) : mavlink_message_t :=
  from_gcs (MAVLINK_MSG_ID_MISSION_REQUEST_INT (gcs_wpr mission_type seq)).

Definition gcs_wpa (mission_type type : Z) : mavlink_mission_ack_t :=
  {| wpa_target_system := 1; wpa_target_component := 1;
     wpa_type := type; wpa_mission_type := mission_type |}.

Definition gcs_ack (mission_type type : Z) : mavlink_message_t :=
  from_gcs (MAVLINK_MSG_ID_MISSION_ACK (gcs_wpa mission_type type)).

Definition gcs_wsc (seq : Z) : mavlink_mission_set_current_t :=
  {| wsc_target_system := 1; wsc_target_component := 1; wsc_seq := seq |}.

Definition gcs_set_current (seq : Z) : mavlink_message_t :=
  from_gcs (MAVLINK_MSG_ID_MISSION_SET_CURRENT (gcs_wsc seq)).

(** A waypoint in frame GLOBAL. *)
Definition gcs_waypoint (seq : Z) : mavlink_message_t :=
  gcs_item MAV_MISSION_TYPE_MISSION seq MAV_FRAME_GLOBAL MAV_CMD_NAV_WAYPOINT 0%Q.

(** A mission upload of two waypoints has been announced. *)
Definition mm_upload_started : MM :=
  run [Message (gcs_count MAV_MISSION_TYPE_MISSION 2)] mm_init.

(** A mission of one waypoint has been uploaded. *)
Definition mm_one_waypoint : MM :=
  run [Message (gcs_count MAV_MISSION_TYPE_MISSION 1); Message (gcs_waypoint 0)] mm_init.

(** The ground station has asked for that mission; the vehicle has sent the
    count and waits for the request of item 0. *)
Definition mm_download_started : MM :=
  run [Message (gcs_request_list MAV_MISSION_TYPE_MISSION)] mm_one_waypoint.

(** The same, and the next call to dataman is going to fail. *)
Definition mm_download_read_fault : MM :=
  W (set_dm_faults [true]) mm_download_started.

(** The ground station has asked for item 0 with MISSION_REQUEST_INT, which
    put the endpoint in int mode, and has received it. *)
Definition mm_download_int : MM :=
  run [Message (gcs_request_int MAV_MISSION_TYPE_MISSION 0)] mm_download_started.

(** A fence upload of three vertices has been announced: the fence
    namespace is locked. *)
Definition mm_fence_upload_started : MM :=
  run [Message (gcs_count MAV_MISSION_TYPE_FENCE 3)] mm_init.

(** A polygon vertex that announces two vertices only (scenario 5 of the
    specification). *)
Definition gcs_short_polygon : mavlink_message_t :=
  gcs_item MAV_MISSION_TYPE_FENCE 0 MAV_FRAME_GLOBAL
    MAV_CMD_NAV_FENCE_POLYGON_VERTEX_INCLUSION (inject_Z 2).

(** A MISSION_ITEM_INT for vehicle 2. *)
Definition gcs_item_for_vehicle_2 : mavlink_message_t :=
  from_gcs (MAVLINK_MSG_ID_MISSION_ITEM_INT
    {| wp_param1 := 0%Q; wp_param2 := 0%Q; wp_param3 := 0%Q; wp_param4 := 0%Q;
       wp_x := 0; wp_y := 0; wp_z := 0%Q; wp_seq := 0; wp_command := MAV_CMD_NAV_WAYPOINT;
       wp_target_system := 2; wp_target_component := 1; wp_frame := MAV_FRAME_GLOBAL_INT;
       wp_current := 0; wp_autocontinue := 1; wp_mission_type := MAV_MISSION_TYPE_MISSION |}).

Definition gcs_wprl (mission_type : Z) : mavlink_mission_request_list_t :=
  {| wprl_target_system := 1; wprl_target_component := 1;
     wprl_mission_type := mission_type |}.

Definition gcs_wpca (mission_type : Z) : mavlink_mission_clear_all_t :=
  {| wpca_target_system := 1; wpca_target_component := 1;
     wpca_mission_type := mission_type |}.

Definition gcs_clear_all (mission_type : Z) : mavlink_message_t :=
  from_gcs (MAVLINK_MSG_ID_MISSION_CLEAR_ALL (gcs_wpca mission_type)).

(** A second ground station, 42/0, asks for item 0. *)
Definition stranger_request : mavlink_message_t :=
  {| sysid := 42; compid := 0;
     payload := MAVLINK_MSG_ID_MISSION_REQUEST (gcs_wpr MAV_MISSION_TYPE_MISSION 0) |}.

(** A mission upload of one waypoint has been announced. *)
Definition mm_one_announced : MM :=
  run [Message (gcs_count MAV_MISSION_TYPE_MISSION 1)] mm_init.

(** The vehicle restarts on the dataman that the upload of one waypoint
    has left. *)
Definition mm_rebooted : MM :=
  W (set_dm_store (dm_store (w mm_one_waypoint))) mm_init.

(** The vehicle restarts on a dataman that holds the stats of a fence of
    four vertices. *)
Definition mm_rebooted_fence : MM :=
  W (set_dm_store (dm_store (w (snd (update_geofence_count 4 mm_init))))) mm_init.

(** With one waypoint stored, the navigator reports that item 0 has been
    reached. *)
Definition mm_item_reached : MM :=
  W (set_mission_result
       (Some {| seq_current := 0; seq_reached := 0; reached := true;
                item_do_jump_changed := false; item_changed_index := 0 |}))
    mm_one_waypoint.

(** With one waypoint stored, the next call to dataman is going to fail,
    the two after it are not. *)
Definition mm_first_write_fails : MM :=
  W (set_dm_faults [true; false; false]) mm_one_waypoint.

(** A fence of four vertices is in use while the upload of a new fence has
    been announced. *)
Definition mm_fence_replaced : MM :=
  G (set_count_at MAV_MISSION_TYPE_FENCE 4) mm_fence_upload_started.

End Run.

(** * Properties *)

Section Properties.
Context {P : Platform}.

(** ** Basic facts *)

Lemma u16_id (x : Z) : 0 <= x < 2 ^ 16 -> u16 x = x.
Proof. intros H. unfold u16. apply Z.mod_small. exact H. Qed.

Lemma state_is_true (s : MAVLINK_WPM_STATES) (st : MM) :
  state_is s st = true <-> _state (e st) = s.
Proof. unfold state_is. destruct (_state (e st)), s; split; congruence. Qed.

Lemma state_is_false (s : MAVLINK_WPM_STATES) (st : MM) :
  state_is s st = false <-> _state (e st) <> s.
Proof. unfold state_is. destruct (_state (e st)), s; split; congruence. Qed.

(** The parser assigns [_int_mode] only when it is already set: it returns
    the members as it found them. *)
Lemma parse_keeps_members (wp : mavlink_mission_item_t) (mi : mission_item_s) (st : MM) :
  snd (parse_mavlink_mission_item wp mi st) = st.
Proof.
  unfold parse_mavlink_mission_item.
  destruct ((wp_frame wp =? MAV_FRAME_GLOBAL) ||
            (wp_frame wp =? MAV_FRAME_GLOBAL_RELATIVE_ALT) ||
            _int_mode (e st) && is_int_frame (wp_frame wp)) eqn:Hc.
  - assert (Hst : (if is_int_frame (wp_frame wp) then E (set_int_mode true) st else st) = st).
    { destruct (is_int_frame (wp_frame wp)) eqn:Hi; [|reflexivity].
      assert (Him : _int_mode (e st) = true).
      { unfold is_int_frame in Hi.
        destruct (Z.eqb_spec (wp_frame wp) MAV_FRAME_GLOBAL) as [E0|E0];
          [rewrite E0 in Hi; discriminate|].
        destruct (Z.eqb_spec (wp_frame wp) MAV_FRAME_GLOBAL_RELATIVE_ALT) as [E3|E3];
          [rewrite E3 in Hi; discriminate|].
        cbn in Hc. destruct (_int_mode (e st)); [reflexivity|discriminate]. }
      destruct st as [g0 [] w0]; cbn in *. subst. reflexivity. }
    cbv zeta. rewrite Hst.
    match goal with
    | |- context [parse_global_command ?a ?b] => destruct (parse_global_command a b)
    end; reflexivity.
  - destruct (wp_frame wp =? MAV_FRAME_MISSION); [|reflexivity].
    cbv zeta.
    match goal with
    | |- context [parse_mission_command ?a ?b] => destruct (parse_mission_command a b)
    end; reflexivity.
Qed.


(** ** What a method leaves alone *)

Lemma keeps_refl {V : View} (st : MM) : keeps V st st.
Proof.
  split; [reflexivity|]. split; [reflexivity|]. split; [reflexivity|].
  exists []. split; [reflexivity|constructor].
Qed.

Lemma keeps_trans {V : View} (st s1 s2 : MM) :
  keeps V st s1 -> keeps V s1 s2 -> keeps V st s2.
Proof.
  intros (H1 & H2 & H3 & new & H4 & H5) (K1 & K2 & K3 & new' & K4 & K5).
  split; [congruence|]. split; [congruence|].
  split; [intros Hw; rewrite (K3 Hw); exact (H3 Hw)|].
  exists (new' ++ new)%list. rewrite K4, H4, app_assoc. split; [reflexivity|].
  apply Forall_app; split; assumption.
Qed.

Lemma keeps_emit_allowed {V : View} (c : Event) (st s1 : MM) :
  allows V c -> keeps V st s1 -> keeps V st (emit c s1).
Proof.
  intros Hc (H1 & H2 & H3 & new & H4 & H5). repeat split; cbn; try assumption.
  exists (logged c s1 :: new). rewrite H4. split; [reflexivity|].
  constructor; assumption.
Qed.

Lemma keeps_emit {V : View} {HL : Lenient V} (c : Event) (st s1 : MM) :
  plain c -> keeps V st s1 -> keeps V st (emit c s1).
Proof. intros Hc. apply keeps_emit_allowed, lenient_plain, Hc. Qed.

Lemma keeps_emit_any {V : View} {HP : Permissive V} (c : Event) (st s1 : MM) :
  keeps V st s1 -> keeps V st (emit c s1).
Proof. apply keeps_emit_allowed, permissive_allows. Qed.

Lemma keeps_E {V : View} (f : Endpoint -> Endpoint) (st s1 : MM) :
  (forall x, on_e V (f x) = on_e V x) ->
  keeps V st s1 -> keeps V st (E f s1).
Proof.
  intros Hf (H1 & H2 & H3 & H4). repeat split; cbn; try assumption.
  rewrite Hf. exact H1.
Qed.

Lemma keeps_G {V : View} (f : Globals -> Globals) (st s1 : MM) :
  (forall x, on_g V (f x) = on_g V x) ->
  keeps V st s1 -> keeps V st (G f s1).
Proof.
  intros Hf (H1 & H2 & H3 & H4). repeat split; cbn; try assumption.
  rewrite Hf. exact H2.
Qed.

Lemma keeps_if {V : View} (b : bool) (st s1 s2 : MM) :
  keeps V st s1 -> keeps V st s2 -> keeps V st (if b then s1 else s2).
Proof. destruct b; auto. Qed.

Lemma keeps_dm_called {V : View} (st s1 : MM) : keeps V st s1 -> keeps V st (dm_called s1).
Proof. intros H. exact H. Qed.

Lemma keeps_dm_read {V : View} (item : dm_item_t) (i : Z) (st s1 : MM) :
  keeps V st s1 -> keeps V st (snd (dm_read item i s1)).
Proof. intros H. exact H. Qed.

Lemma keeps_set_count_at {V : View} {HP : Permissive V} (i v : Z) (st s1 : MM) :
  keeps V st s1 -> keeps V st (G (set_count_at i v) s1).
Proof. apply keeps_G. intros x. unfold set_count_at. apply permissive_count. Qed.

Create HintDb keeps discriminated.

#[local] Hint Resolve keeps_refl keeps_if keeps_dm_called keeps_dm_read keeps_set_count_at : keeps.
#[local] Hint Extern 0 (Lenient _) => typeclasses eauto : keeps.
#[local] Hint Extern 0 (Permissive _) => typeclasses eauto : keeps.
#[local] Hint Extern 0 (plain _) => solve [exact I | cbn; discriminate | cbn; assumption] : keeps.
#[local] Hint Extern 2 (keeps _ _ (emit _ _)) =>
  first [ apply keeps_emit_any | apply keeps_emit ] : keeps.
#[local] Hint Extern 2 (keeps _ _ (E _ _)) =>
  apply keeps_E;
  [ intros;
    first [ reflexivity
          | apply lenient_time_last_sent | apply lenient_filesystem_errcount
          | apply lenient_slow_rate_limiter | apply lenient_time_last_reached
          | apply permissive_my_dataman_id | apply permissive_offboard_mission_pub
          | apply permissive_transfer_current_seq ]
  | ] : keeps.
#[local] Hint Extern 2 (keeps _ _ (G _ _)) =>
  apply keeps_G;
  [ intros;
    first [ reflexivity
          | apply lenient_current_seq | apply lenient_last_reached
          | apply permissive_dataman_id | apply permissive_count
          | apply permissive_geofence_update_counter ]
  | ] : keeps.

Ltac split_bool :=
  match goal with
  | |- context [if ?c then _ else _] =>
      lazymatch c with
      | context [if _ then _ else _] => fail
      | context [match _ with _ => _ end] => fail
      | _ => destruct c eqn:?
      end
  end.

Ltac keep := solve [auto 40 with keeps].

Lemma keeps_dm_write {V : View} {HP : Permissive V} (item : dm_item_t) (i : Z)
    (v : dm_value) (st s1 : MM) :
  keeps V st s1 -> keeps V st (snd (dm_write item i v s1)).
Proof. intros H. unfold dm_write. destruct (dm_fault s1); cbn [snd]; keep. Qed.
#[local] Hint Resolve keeps_dm_write : keeps.

Lemma keeps_send_statustext_critical {V : View} {HL : Lenient V} (text : string) (st s1 : MM) :
  keeps V st s1 -> keeps V st (send_statustext_critical text s1).
Proof. intros H. unfold send_statustext_critical. keep. Qed.
#[local] Hint Resolve keeps_send_statustext_critical : keeps.

Lemma keeps_filesystem_error {V : View} {HL : Lenient V} (text : string) (st s1 : MM) :
  keeps V st s1 -> keeps V st (filesystem_error text s1).
Proof. intros H. unfold filesystem_error. keep. Qed.
#[local] Hint Resolve keeps_filesystem_error : keeps.

Lemma keeps_send_mission_ack {V : View} {HL : Lenient V} (a b c : Z) (st s1 : MM) :
  u8 c <> MAV_MISSION_ACCEPTED ->
  keeps V st s1 -> keeps V st (send_mission_ack a b c s1).
Proof. intros Hc H. unfold send_mission_ack. keep. Qed.

Lemma keeps_send_mission_ack_any {V : View} {HP : Permissive V} (a b c : Z) (st s1 : MM) :
  keeps V st s1 -> keeps V st (send_mission_ack a b c s1).
Proof. intros H. unfold send_mission_ack. keep. Qed.
#[local] Hint Extern 2 (keeps _ _ (send_mission_ack _ _ _ _)) =>
  first [ apply keeps_send_mission_ack_any
        | apply keeps_send_mission_ack; [first [assumption | vm_compute; discriminate] | ] ] : keeps.

Lemma keeps_send_mission_current {V : View} {HL : Lenient V} (seq : Z) (st s1 : MM) :
  keeps V st s1 -> keeps V st (send_mission_current seq s1).
Proof. intros H. unfold send_mission_current. keep. Qed.
#[local] Hint Resolve keeps_send_mission_current : keeps.

Lemma keeps_send_mission_count {V : View} {HL : Lenient V} (a b c d : Z) (st s1 : MM) :
  keeps V st s1 -> keeps V st (send_mission_count a b c d s1).
Proof. intros H. unfold send_mission_count. keep. Qed.
#[local] Hint Resolve keeps_send_mission_count : keeps.

Lemma keeps_send_mission_request {V : View} {HL : Lenient V} (a b c : Z) (st s1 : MM) :
  keeps V st s1 -> keeps V st (send_mission_request a b c s1).
Proof. intros H. unfold send_mission_request. keep. Qed.
#[local] Hint Resolve keeps_send_mission_request : keeps.

Lemma keeps_send_mission_item_reached {V : View} {HL : Lenient V} (seq : Z) (st s1 : MM) :
  keeps V st s1 -> keeps V st (send_mission_item_reached seq s1).
Proof. intros H. unfold send_mission_item_reached. keep. Qed.
#[local] Hint Resolve keeps_send_mission_item_reached : keeps.

Lemma keeps_read_mission_item {V : View} {HL : Lenient V} (seq : Z) (st s1 : MM) :
  keeps V st s1 -> keeps V st (snd (read_mission_item seq s1)).
Proof.
  intros H. unfold read_mission_item. cbv zeta.
  repeat split_bool; cbn [snd].
  1-3: match goal with
       | |- context [fst (dm_read ?a ?b ?c)] => destruct (fst (dm_read a b c)) as [[]|]
       end; cbn [snd]; keep.
  keep.
Qed.
#[local] Hint Resolve keeps_read_mission_item : keeps.

Lemma keeps_send_mission_item {V : View} {HL : Lenient V} (a b c : Z) (st s1 : MM) :
  keeps V st s1 -> keeps V st (send_mission_item a b c s1).
Proof. intros H. unfold send_mission_item. cbv zeta. repeat split_bool; keep. Qed.
#[local] Hint Resolve keeps_send_mission_item : keeps.

Lemma keeps_orb_copy {V : View} (st s1 : MM) :
  keeps V st s1 -> keeps V st (W (set_mission_result None) s1).
Proof. intros H. exact H. Qed.
#[local] Hint Resolve keeps_orb_copy : keeps.

Lemma keeps_send_progress {V : View} {HL : Lenient V} (now : Z) (st s1 : MM) :
  keeps V st s1 -> keeps V st (send_progress now s1).
Proof.
  intros H. unfold send_progress, rate_limiter_check. cbv zeta.
  destruct (mission_result (w s1)); repeat split_bool; cbn [fst snd]; keep.
Qed.
#[local] Hint Resolve keeps_send_progress : keeps.


Lemma keeps_update_active_mission {V : View} {HL : Lenient V} {HP : Permissive V}
    (a b c : Z) (st s1 : MM) :
  keeps V st s1 -> keeps V st (snd (update_active_mission a b c s1)).
Proof.
  intros H. unfold update_active_mission. cbv zeta.
  destruct (fst (dm_write _ _ _ s1)); cbn [snd]; keep.
Qed.
#[local] Hint Resolve keeps_update_active_mission : keeps.

Lemma keeps_update_geofence_count {V : View} {HL : Lenient V} {HP : Permissive V}
    (n : Z) (st s1 : MM) :
  keeps V st s1 -> keeps V st (snd (update_geofence_count n s1)).
Proof.
  intros H. unfold update_geofence_count. cbv zeta.
  destruct (fst (dm_write _ _ _ _)); cbn [snd]; keep.
Qed.
#[local] Hint Resolve keeps_update_geofence_count : keeps.

Lemma keeps_update_safepoint_count {V : View} {HL : Lenient V} {HP : Permissive V}
    (n : Z) (st s1 : MM) :
  keeps V st s1 -> keeps V st (snd (update_safepoint_count n s1)).
Proof.
  intros H. unfold update_safepoint_count. cbv zeta.
  destruct (fst (dm_write _ _ _ _)); cbn [snd]; keep.
Qed.
#[local] Hint Resolve keeps_update_safepoint_count : keeps.

Lemma keeps_load_geofence_stats {V : View} {HP : Permissive V} (st s1 : MM) :
  keeps V st s1 -> keeps V st (load_geofence_stats s1).
Proof.
  intros H. unfold load_geofence_stats. cbv zeta.
  destruct (fst (dm_read _ _ s1)) as [[]|]; keep.
Qed.
#[local] Hint Resolve keeps_load_geofence_stats : keeps.

Lemma keeps_load_safepoint_stats {V : View} {HP : Permissive V} (st s1 : MM) :
  keeps V st s1 -> keeps V st (load_safepoint_stats s1).
Proof.
  intros H. unfold load_safepoint_stats. cbv zeta.
  destruct (fst (dm_read _ _ s1)) as [[]|]; keep.
Qed.
#[local] Hint Resolve keeps_load_safepoint_stats : keeps.

Lemma keeps_store_mission_item {V : View} {HL : Lenient V} {HP : Permissive V}
    (wp : mavlink_mission_item_t) (mi : mission_item_s) (st s1 : MM) :
  keeps V st s1 -> keeps V st (snd (store_mission_item wp mi s1)).
Proof.
  intros H. unfold store_mission_item. cbv zeta.
  repeat split_bool; cbn [fst snd]; keep.
Qed.
#[local] Hint Resolve keeps_store_mission_item : keeps.

Lemma keeps_commit_transfer {V : View} {HL : Lenient V} {HP : Permissive V} (st s1 : MM) :
  keeps V st s1 -> keeps V st (snd (commit_transfer s1)).
Proof.
  intros H. unfold commit_transfer. cbv zeta.
  repeat split_bool; cbn [fst snd]; keep.
Qed.
#[local] Hint Resolve keeps_commit_transfer : keeps.

(** A view that watches neither [_state] nor the lock is kept by the switch
    to IDLE. *)
Lemma keeps_switch_to_idle_state {V : View} {HL : Lenient V} (st s1 : MM) :
  (forall v x, on_e V (set_state v x) = on_e V x) ->
  (forall v x, on_e V (set_geofence_locked v x) = on_e V x) ->
  on_lock V = false ->
  keeps V st s1 -> keeps V st (switch_to_idle_state s1).
Proof.
  intros Hs Hl Hf H. unfold switch_to_idle_state, dm_unlock.
  apply keeps_E; [apply Hs|].
  destruct (_geofence_locked (e s1)); [|exact H].
  apply keeps_E; [apply Hl|]. apply keeps_emit; [exact I|].
  destruct H as (H1 & H2 & H3 & H4). repeat split; cbn; try assumption. congruence.
Qed.

#[local] Instance lock_view_lenient : Lenient lock_view.
Proof. split; intros; try reflexivity; exact I. Qed.

#[local] Instance lock_view_permissive : Permissive lock_view.
Proof. split; intros; try reflexivity; exact I. Qed.

#[local] Instance cursor_view_lenient : Lenient cursor_view.
Proof. split; intros; try reflexivity; exact I. Qed.

#[local] Instance cursor_view_permissive : Permissive cursor_view.
Proof. split; intros; try reflexivity; exact I. Qed.

(** ** The fence lock *)

Lemma keeps_state (st st' : MM) : keeps lock_view st st' -> _state (e st') = _state (e st).
Proof. intros (H & _). cbn in H. congruence. Qed.

Lemma released_switch_to_idle_state (st s1 : MM) :
  keeps lock_view st s1 -> released st (switch_to_idle_state s1).
Proof.
  intros (H1 & H2 & H3 & new & H4 & H5). cbn in H1. injection H1 as H1 H1'.
  specialize (H3 eq_refl).
  unfold switch_to_idle_state, released, lock_released.
  destruct (_geofence_locked (e s1)) eqn:Hl; cbn.
  - repeat split.
    exists (logged (dm_unlock_call DM_KEY_FENCE_POINTS) (W (set_fence_lock false) s1) :: new).
    eexists. rewrite H4. split; [reflexivity|]. split; [left; reflexivity|].
    split; [reflexivity|]. exact H1.
  - split; [reflexivity|]. split; [exact Hl|]. congruence.
Qed.

Lemma released_then_keeps (st s1 s2 : MM) :
  released st s1 -> keeps lock_view s1 s2 -> released st s2.
Proof.
  intros (R1 & R2 & R3) (H1 & H2 & H3 & new & H4 & H5). cbn in H1. injection H1 as H1 H1'.
  specialize (H3 eq_refl). unfold released, lock_released.
  split; [congruence|]. split; [congruence|].
  intros Hl. destruct (R3 Hl) as (R4 & new0 & en & R5 & R6 & R7 & R8).
  split; [congruence|]. exists (new ++ new0)%list, en.
  rewrite H4, R5, app_assoc. split; [reflexivity|].
  split; [apply in_or_app; right; exact R6|]. split; assumption.
Qed.

Lemma released_emit (c : Event) (st s1 : MM) : released st s1 -> released st (emit c s1).
Proof. intros H. apply (released_then_keeps _ _ _ H). keep. Qed.

Lemma released_G (f : Globals -> Globals) (st s1 : MM) : released st s1 -> released st (G f s1).
Proof. intros H. apply (released_then_keeps _ _ _ H). keep. Qed.

Lemma released_send_mission_ack (a b c : Z) (st s1 : MM) :
  released st s1 -> released st (send_mission_ack a b c s1).
Proof. intros H. apply (released_then_keeps _ _ _ H). keep. Qed.

Lemma released_send_statustext_critical (text : string) (st s1 : MM) :
  released st s1 -> released st (send_statustext_critical text s1).
Proof. intros H. apply (released_then_keeps _ _ _ H). keep. Qed.

Lemma released_if (b : bool) (st s1 s2 : MM) :
  released st s1 -> released st s2 -> released st (if b then s1 else s2).
Proof. destruct b; auto. Qed.

Create HintDb released discriminated.
#[local] Hint Resolve released_emit released_G released_send_mission_ack
  released_send_statustext_critical released_if : released.
#[local] Hint Extern 1 (released _ (switch_to_idle_state _)) =>
  apply released_switch_to_idle_state; keep : released.

Ltac settle :=
  first [ left; keep | right; solve [auto 12 with released] ].

Lemma settled_idle (st st' : MM) :
  settled st st' ->
  _state (e st) <> MAVLINK_WPM_STATE_IDLE ->
  _state (e st') = MAVLINK_WPM_STATE_IDLE ->
  lock_released st st'.
Proof.
  intros [H | [_ H]] Hs Hi; [|exact H].
  rewrite (keeps_state _ _ H) in Hi. contradiction.
Qed.

Lemma handle_mission_item_both_settled (msg : mavlink_message_t)
    (wp : mavlink_mission_item_t) (st s0 : MM) :
  keeps lock_view s0 st -> settled s0 (handle_mission_item_both msg wp st).
Proof.
  intros H. unfold handle_mission_item_both. cbv zeta. rewrite parse_keeps_members.
  repeat split_bool; settle.
Qed.

Lemma handle_mission_ack_settled (msg : mavlink_message_t)
    (wpa : mavlink_mission_ack_t) (st : MM) :
  settled st (handle_mission_ack msg wpa st).
Proof. unfold handle_mission_ack. cbv zeta. repeat split_bool; settle. Qed.

Lemma handle_mission_set_current_settled (msg : mavlink_message_t)
    (wpc : mavlink_mission_set_current_t) (st : MM) :
  settled st (handle_mission_set_current msg wpc st).
Proof. unfold handle_mission_set_current. cbv zeta. repeat split_bool; settle. Qed.

Lemma handle_mission_request_both_settled (msg : mavlink_message_t)
    (wpr : mavlink_mission_request_t) (st s0 : MM) :
  keeps lock_view s0 st -> settled s0 (handle_mission_request_both msg wpr st).
Proof.
  intros H. unfold handle_mission_request_both, reject_request. cbv zeta.
  repeat split_bool; settle.
Qed.

Lemma handle_mission_clear_all_settled (msg : mavlink_message_t)
    (wpca : mavlink_mission_clear_all_t) (st : MM) :
  settled st (handle_mission_clear_all msg wpca st).
Proof.
  unfold handle_mission_clear_all. cbv zeta.
  repeat split_bool; cbn [fst snd]; settle.
Qed.

Lemma handle_mission_request_list_not_idle (msg : mavlink_message_t)
    (wprl : mavlink_mission_request_list_t) (st : MM) :
  _state (e st) <> MAVLINK_WPM_STATE_IDLE ->
  _state (e (handle_mission_request_list msg wprl st)) <> MAVLINK_WPM_STATE_IDLE.
Proof.
  intros Hs. unfold handle_mission_request_list.
  destruct (CHECK_SYSID_COMPID_MISSION _ _ st); [|exact Hs].
  destruct (_ || _); [|exact Hs].
  cbv zeta.
  match goal with
  | |- _state (e ?leaf) <> _ =>
      assert (Hk : keeps lock_view
                     (E (set_state MAVLINK_WPM_STATE_SENDLIST)
                        (E (set_time_last_recv (hrt_absolute_time st)) st)) leaf)
  end.
  { repeat split_bool; keep. }
  rewrite (keeps_state _ _ Hk). discriminate.
Qed.

Lemma handle_mission_count_settled (msg : mavlink_message_t)
    (wpc : mavlink_mission_count_t) (st : MM) :
  _state (e st) <> MAVLINK_WPM_STATE_IDLE ->
  settled st (handle_mission_count msg wpc st).
Proof.
  intros Hs. apply state_is_false in Hs. unfold handle_mission_count. rewrite Hs. cbv zeta.
  repeat split_bool; settle.
Qed.

Lemma send_settled (now : Z) (st : MM) : settled st (send now st).
Proof.
  pose proof (keeps_send_progress now st st (keeps_refl st) : keeps lock_view _ _) as H.
  unfold send. cbv zeta.
  repeat split_bool; settle.
Qed.

(** C2.  Whenever a message or a tick takes the endpoint from a state other
    than IDLE back to IDLE (completion of an upload, a protocol, codec or
    storage error, the action timeout), the fence lock flag is cleared and,
    if the endpoint held the lock, [dm_unlock] has been called on the fence
    namespace before [_state] became IDLE. *)
Theorem fence_lock_released_on_idle (i : Input) (st : MM) :
  _state (e st) <> MAVLINK_WPM_STATE_IDLE ->
  _state (e (step i st)) = MAVLINK_WPM_STATE_IDLE ->
  lock_released st (step i st).
Proof.
  intros Hs Hi. destruct i as [msg | now]; cbn [step] in *.
  - unfold handle_message in *.
    destruct (payload msg) as [wpa|wpc|wprl|wpr|wpr|wpc|wp|wp|wpca|].
    + apply settled_idle; auto using handle_mission_ack_settled.
    + apply settled_idle; auto using handle_mission_set_current_settled.
    + exfalso. apply (handle_mission_request_list_not_idle msg wprl st Hs Hi).
    + apply settled_idle; auto. unfold handle_mission_request in *. cbv zeta.
      apply handle_mission_request_both_settled. destruct (_int_mode (e st)); keep.
    + apply settled_idle; auto. unfold handle_mission_request_int in *. cbv zeta.
      apply handle_mission_request_both_settled. destruct (negb _); keep.
    + apply settled_idle; auto using handle_mission_count_settled.
    + apply settled_idle; auto. unfold handle_mission_item in *. cbv zeta.
      apply handle_mission_item_both_settled. destruct (_int_mode (e st)); keep.
    + apply settled_idle; auto. unfold handle_mission_item_int in *. cbv zeta.
      apply handle_mission_item_both_settled. destruct (negb _); keep.
    + apply settled_idle; auto using handle_mission_clear_all_settled.
    + contradiction.
  - apply settled_idle; auto using send_settled.
Qed.


(** ** The double buffer of the mission *)

#[local] Instance upload_view_lenient (k : dm_item_t) : Lenient (upload_view k).
Proof. split; intros; try reflexivity. left. assumption. Qed.

Lemma parse_result (wp : mavlink_mission_item_t) (mi : mission_item_s) (st : MM) :
  let ret := fst (fst (parse_mavlink_mission_item wp mi st)) in
  ret = MAV_MISSION_ACCEPTED \/ ret = MAV_MISSION_UNSUPPORTED \/
  ret = MAV_MISSION_UNSUPPORTED_FRAME.
Proof.
  unfold parse_mavlink_mission_item. cbv zeta.
  destruct (_ || _).
  - match goal with
    | |- context [parse_global_command ?a ?b] => destruct (parse_global_command a b)
    end; cbn; auto.
  - destruct (_ =? _); [|cbn; auto].
    match goal with
    | |- context [parse_mission_command ?a ?b] => destruct (parse_mission_command a b)
    end; cbn; auto.
Qed.

Lemma parse_rejects (wp : mavlink_mission_item_t) (mi : mission_item_s) (st : MM) :
  (fst (fst (parse_mavlink_mission_item wp mi st)) =? PX4_OK) = false ->
  u8 (fst (fst (parse_mavlink_mission_item wp mi st))) <> MAV_MISSION_ACCEPTED.
Proof.
  intros H. destruct (parse_result wp mi st) as [R | [R | R]]; rewrite R in *;
    [discriminate | vm_compute; discriminate | vm_compute; discriminate].
Qed.

Lemma inactive_is_not_active (st : MM) : inactive_dataman_id st <> _dataman_id (g st).
Proof.
  unfold inactive_dataman_id. destruct (Z.eqb_spec (_dataman_id (g st)) 0); lia.
Qed.

Lemma inactive_buffer_is_not_active (st : MM) :
  DM_KEY_WAYPOINTS_OFFBOARD (inactive_dataman_id st) <>
  DM_KEY_WAYPOINTS_OFFBOARD (_dataman_id (g st)).
Proof.
  unfold inactive_dataman_id, DM_KEY_WAYPOINTS_OFFBOARD.
  destruct (Z.eqb_spec (_dataman_id (g st)) 0); cbn; discriminate.
Qed.

(** Inputs other than items leave an upload as it is. *)
Lemma send_keeps_upload (k : dm_item_t) (now : Z) (st : MM) :
  keeps (upload_view k) st (send now st).
Proof.
  pose proof (keeps_send_progress now st st (keeps_refl st) : keeps (upload_view k) _ _) as H.
  unfold send. cbv zeta.
  repeat split_bool; try keep.
  apply keeps_G; [reflexivity|].
  apply keeps_switch_to_idle_state; try reflexivity. keep.
Qed.

Lemma state_is_getlist (st : MM) :
  _state (e st) = MAVLINK_WPM_STATE_GETLIST ->
  state_is MAVLINK_WPM_STATE_GETLIST st = true /\
  state_is MAVLINK_WPM_STATE_IDLE st = false /\
  state_is MAVLINK_WPM_STATE_SENDLIST st = false.
Proof. intros H. unfold state_is. rewrite H. auto. Qed.

Ltac in_getlist H :=
  let H1 := fresh in let H2 := fresh in let H3 := fresh in
  destruct (state_is_getlist _ H) as (H1 & H2 & H3);
  repeat first [ rewrite H1 | rewrite H2 | rewrite H3 ];
  change (state_is ?s (E (set_int_mode ?b) ?st)) with (state_is s st);
  repeat first [ rewrite H1 | rewrite H2 | rewrite H3 ].

Lemma other_messages_keep_upload (k : dm_item_t) (msg : mavlink_message_t) (st : MM) :
  _state (e st) = MAVLINK_WPM_STATE_GETLIST ->
  (forall wp, payload msg <> MAVLINK_MSG_ID_MISSION_ITEM wp) ->
  (forall wp, payload msg <> MAVLINK_MSG_ID_MISSION_ITEM_INT wp) ->
  keeps (upload_view k) st (handle_message msg st).
Proof.
  intros Hs N1 N2. unfold handle_message.
  destruct (payload msg) as [wpa|wpc|wprl|wpr|wpr|wpc|wp|wp|wpca|].
  - unfold handle_mission_ack. in_getlist Hs. cbn [andb]. repeat split_bool; keep.
  - unfold handle_mission_set_current. in_getlist Hs. repeat split_bool; keep.
  - unfold handle_mission_request_list. in_getlist Hs. cbn [andb orb]. repeat split_bool; keep.
  - unfold handle_mission_request, handle_mission_request_both. cbv zeta.
    destruct (_int_mode (e st)); in_getlist Hs; repeat split_bool; keep.
  - unfold handle_mission_request_int, handle_mission_request_both. cbv zeta.
    destruct (negb (_int_mode (e st))); in_getlist Hs; repeat split_bool; keep.
  - unfold handle_mission_count. in_getlist Hs. cbv zeta. repeat split_bool; keep.
  - exfalso. apply (N1 wp). reflexivity.
  - exfalso. apply (N2 wp). reflexivity.
  - unfold handle_mission_clear_all. in_getlist Hs. repeat split_bool; keep.
  - keep.
Qed.

Lemma keeps_upload_step (st st' : MM) :
  _mission_type (e st) = MAV_MISSION_TYPE_MISSION ->
  _transfer_dataman_id (e st) = inactive_dataman_id st ->
  keeps (upload_view (DM_KEY_WAYPOINTS_OFFBOARD (inactive_dataman_id st))) st st' ->
  upload_step st st'.
Proof.
  intros Hty Htid (H1 & H2 & _ & new & H4 & H5). cbn in H1, H2, H5.
  injection H1 as H1 H1'.
  exists new. split; [exact H4|]. split; [|split; [|split]].
  - eapply Forall_impl; [exact H5|]. intros en Hen k i it ok Hc.
    cbv beta in Hen. rewrite Hc in Hen. destruct Hen as [Hp | [(i' & it' & ok' & Hw) | (m & Hw)]].
    + destruct Hp.
    + congruence.
    + discriminate.
  - split; [intros Hn; contradiction|].
    intros Hex. exfalso. apply Exists_exists in Hex. destruct Hex as (en & Hin & wpa & Hc & Ht).
    rewrite Forall_forall in H5. specialize (H5 en Hin). cbv beta in H5. rewrite Hc in H5.
    destruct H5 as [Hp | [(i' & it' & ok' & Hw) | (m & Hw)]]; [|discriminate..].
    cbn in Hp. contradiction.
  - intros Hn; contradiction.
  - intros _. unfold inactive_dataman_id in *. rewrite H2. split; congruence.
Qed.

Lemma keeps_set_dm_store {V : View} (m : gmap (dm_item_t * Z) dm_value) (st s1 : MM) :
  keeps V st s1 -> keeps V st (W (set_dm_store m) s1).
Proof. intros H. exact H. Qed.
#[local] Hint Resolve keeps_set_dm_store : keeps.

#[local] Hint Extern 3 (keeps (upload_view _) _ (emit _ _)) =>
  apply keeps_emit_allowed;
  [ cbn; first [ right; left; do 3 eexists; reflexivity
               | right; right; eexists; reflexivity ]
  | ] : keeps.
#[local] Hint Extern 3 (keeps (upload_view _) _ (switch_to_idle_state _)) =>
  apply keeps_switch_to_idle_state; [reflexivity | reflexivity | reflexivity | ] : keeps.

(** The three steps of an item of a mission upload, as the source takes
    them. *)
Lemma store_mission_item_mission (wp : mavlink_mission_item_t) (mi : mission_item_s) (st : MM) :
  _mission_type (e st) = MAV_MISSION_TYPE_MISSION ->
  store_mission_item wp mi st =
    if is_fence_or_rally_cmd (nav_cmd mi) then (false, true, st)
    else
      let k := DM_KEY_WAYPOINTS_OFFBOARD (_transfer_dataman_id (e st)) in
      if dm_fault st then
        (true, false, emit (dm_write_call k (wp_seq wp) (DmMissionItem mi) false) (dm_called st))
      else
        let st1 := emit (dm_write_call k (wp_seq wp) (DmMissionItem mi) true)
                     (W (set_dm_store (<[(k, wp_seq wp) := DmMissionItem mi]> (dm_store (w st))))
                        (dm_called st)) in
        (false, false,
         if negb (wp_current wp =? 0) then E (set_transfer_current_seq (wp_seq wp)) st1 else st1).
Proof.
  intros Hty. unfold store_mission_item. rewrite Hty. cbn [Z.eqb MAV_MISSION_TYPE_MISSION].
  destruct (is_fence_or_rally_cmd _); [reflexivity|].
  unfold dm_write. cbv zeta. destruct (dm_fault st); reflexivity.
Qed.

Lemma update_active_mission_cases (id n seq : Z) (st : MM) :
  let hdr := {| dataman_id := id; count := n; current_seq := seq |} in
  update_active_mission id n seq st =
    if dm_fault st then
      (PX4_ERROR,
       filesystem_error "Mission storage: Unable to write to microSD"
         (emit (dm_write_call DM_KEY_MISSION_STATE 0 (DmMissionState hdr) false) (dm_called st)))
    else
      let st1 := emit (dm_write_call DM_KEY_MISSION_STATE 0 (DmMissionState hdr) true)
                   (W (set_dm_store (<[(DM_KEY_MISSION_STATE, 0) := DmMissionState hdr]>
                                       (dm_store (w st)))) (dm_called st)) in
      let st2 := E (set_my_dataman_id id)
                   (G (set_current_seq seq)
                      (G (set_count_at MAV_MISSION_TYPE_MISSION n)
                         (G (set_dataman_id id) st1))) in
      (PX4_OK,
       if _offboard_mission_pub (e st)
       then emit (orb_publish_call hdr) st2
       else E (set_offboard_mission_pub true) (emit (orb_advertise_call hdr) st2)).
Proof.
  unfold update_active_mission, dm_write. cbv zeta.
  destruct (dm_fault st); reflexivity.
Qed.

Lemma upload_view_item_writes (k : dm_item_t) (new : list Entry) :
  Forall (fun en => allows (upload_view k) (call en)) new ->
  Forall (fun en => forall k' i it ok,
            call en = dm_write_call k' i (DmMissionItem it) ok -> k' = k) new.
Proof.
  intros H. eapply Forall_impl; [exact H|]. intros en Hen k' i it ok Hc.
  cbv beta in Hen. rewrite Hc in Hen.
  destruct Hen as [Hp | [(i' & it' & ok' & Hw) | (m & Hw)]];
    [destruct Hp | congruence | discriminate].
Qed.

(** The last step of an accepted upload: header written, buffer swapped,
    header published, endpoint back to IDLE, MISSION_ACK(ACCEPTED). *)
Lemma completion_upload_step (st st5 : MM) (a b : Z) :
  let hdr := {| dataman_id := inactive_dataman_id st;
                count := _transfer_count (e st);
                current_seq := _transfer_current_seq (e st5) |} in
  let st1 := emit (dm_write_call DM_KEY_MISSION_STATE 0 (DmMissionState hdr) true)
               (W (set_dm_store (<[(DM_KEY_MISSION_STATE, 0) := DmMissionState hdr]>
                                   (dm_store (w st5)))) (dm_called st5)) in
  let st2 := E (set_my_dataman_id (inactive_dataman_id st))
               (G (set_current_seq (_transfer_current_seq (e st5)))
                  (G (set_count_at MAV_MISSION_TYPE_MISSION (_transfer_count (e st)))
                     (G (set_dataman_id (inactive_dataman_id st)) st1))) in
  let st3 := if _offboard_mission_pub (e st5)
             then emit (orb_publish_call hdr) st2
             else E (set_offboard_mission_pub true) (emit (orb_advertise_call hdr) st2) in
  keeps (upload_view (DM_KEY_WAYPOINTS_OFFBOARD (inactive_dataman_id st))) st st5 ->
  upload_step st
    (G (set_transfer_in_progress false)
       (send_mission_ack a b MAV_MISSION_ACCEPTED (switch_to_idle_state st3))).
Proof.
  intros hdr st1 st2 st3 (H1 & H2 & _ & new & H4 & H5). cbn in H2.
  pose proof (upload_view_item_writes _ _ H5) as H6.
  pose proof (inactive_is_not_active st) as Hne.
  assert (Hack : is_mission_ack MAV_MISSION_ACCEPTED
                   (mavlink_msg_mission_ack_send
                      {| wpa_target_system := u8 a; wpa_target_component := u8 b;
                         wpa_type := u8 MAV_MISSION_ACCEPTED;
                         wpa_mission_type := u8 (_mission_type (e st5)) |})).
  { eexists. split; reflexivity. }
  unfold upload_step, swapped. subst st3 st2 st1.
  unfold switch_to_idle_state, send_mission_ack, dm_unlock.
  destruct (_offboard_mission_pub (e st5)); cbn;
    destruct (_geofence_locked (e st5)); cbn; rewrite H4.
  all: first [ eexists (_ :: _ :: _ :: _ :: new); split; [reflexivity|]
             | eexists (_ :: _ :: _ :: new); split; [reflexivity|] ].
  all: split; [repeat (constructor; [intros ? ? ? ? [=]|]); exact H6|].
  all: split; [split; [intros _; constructor; exact Hack | intros _; exact Hne]|].
  all: split; [|intros [=]].
  all: intros _; split; [reflexivity|]; split; [reflexivity|].
  all: exists hdr.
  all: first [ eexists _, _, [_; _], new; split; [reflexivity|]
             | eexists _, _, [_], new; split; [reflexivity|] ].
  all: cbn; repeat split; try reflexivity; try exact H2; auto;
    apply lookup_insert_eq.
Qed.

Lemma item_upload_step (msg : mavlink_message_t) (wp : mavlink_mission_item_t)
    (b : bool) (st : MM) :
  _state (e st) = MAVLINK_WPM_STATE_GETLIST ->
  _mission_type (e st) = MAV_MISSION_TYPE_MISSION ->
  _transfer_dataman_id (e st) = inactive_dataman_id st ->
  upload_step st (handle_mission_item_both msg wp (E (set_int_mode b) st)).
Proof.
  intros Hs Hty Htid.
  unfold handle_mission_item_both. cbv zeta. rewrite parse_keeps_members.
  change (state_is ?s (E (set_int_mode b) st)) with (state_is s st).
  in_getlist Hs.
  destruct (CHECK_SYSID_COMPID_MISSION _ _ _); [|apply keeps_upload_step; auto; keep].
  destruct (negb (wp_mission_type wp =? _)); [apply keeps_upload_step; auto; keep|].
  destruct (negb (wp_seq wp =? _)); [apply keeps_upload_step; auto; keep|].
  set (st1 := E (set_time_last_recv (hrt_absolute_time (E (set_int_mode b) st))) (E (set_int_mode b) st)).
  pose proof (parse_rejects wp mission_item_zero st1) as Hrej.
  destruct (fst (fst (parse_mavlink_mission_item wp mission_item_zero st1)) =? PX4_OK) eqn:Hret;
    cbn [negb].
  2:{ specialize (Hrej eq_refl). apply keeps_upload_step; auto. subst st1. keep. }
  clear Hrej Hret.
  generalize (snd (fst (parse_mavlink_mission_item wp mission_item_zero st1))). intros mi.
  rewrite (store_mission_item_mission wp mi st1 Hty).
  change (_transfer_dataman_id (e st1)) with (_transfer_dataman_id (e st)). rewrite Htid.
  change (dm_fault st1) with (dm_fault st).
  cbv zeta.
  destruct (is_fence_or_rally_cmd (nav_cmd mi)); cbn [fst snd orb].
  { apply keeps_upload_step; auto. subst st1. keep. }
  destruct (dm_fault st) eqn:Hf1; cbn [fst snd orb].
  { apply keeps_upload_step; auto. subst st1. keep. }
  assert (Hcommit : forall s, _mission_type (e s) = MAV_MISSION_TYPE_MISSION ->
            commit_transfer s = update_active_mission (_transfer_dataman_id (e s))
                                  (_transfer_count (e s)) (_transfer_current_seq (e s)) s).
  { intros s Hm. unfold commit_transfer. rewrite Hm. reflexivity. }
  destruct (negb (wp_current wp =? 0)).
  all: match goal with
       | |- upload_step _ (if _ =? _ then G _ (if fst (commit_transfer ?s) =? _ then _ else _) else _) =>
           set (st5 := s)
       end.
  all: change (_transfer_seq (e st5)) with (wp_seq wp + 1).
  all: change (_transfer_count (e st5)) with (_transfer_count (e st)).
  all: change (_transfer_partner_sysid (e st5)) with (_transfer_partner_sysid (e st)).
  all: change (_transfer_partner_compid (e st5)) with (_transfer_partner_compid (e st)).
  all: destruct (wp_seq wp + 1 =? _transfer_count (e st));
       [|apply keeps_upload_step; auto; subst st5 st1; keep].
  all: rewrite (Hcommit st5 Hty), update_active_mission_cases.
  all: change (_transfer_dataman_id (e st5)) with (_transfer_dataman_id (e st)); rewrite Htid.
  all: change (_transfer_count (e st5)) with (_transfer_count (e st)).
  all: cbv zeta; destruct (dm_fault st5) eqn:Hf2; cbn [fst snd];
       [change (PX4_ERROR =? PX4_OK) with false; cbv iota;
        apply keeps_upload_step; auto; subst st5 st1; keep|].
  all: change (PX4_OK =? PX4_OK) with true; cbv iota.
  all: match goal with
       | |- upload_step _ (G _ (send_mission_ack ?a ?b _ _)) => generalize a, b; intros pa pb
       end.
  all: apply (completion_upload_step st st5 pa pb); subst st5 st1; keep.
Qed.

Lemma handle_mission_item_variants (msg : mavlink_message_t)
    (wp : mavlink_mission_item_t) (st : MM) :
  handle_mission_item msg wp st = handle_mission_item_both msg wp (E (set_int_mode false) st) /\
  handle_mission_item_int msg wp st = handle_mission_item_both msg wp (E (set_int_mode true) st).
Proof.
  unfold handle_mission_item, handle_mission_item_int. cbv zeta.
  destruct st as [g0 e0 w0]. destruct e0 as [? ? ? ? ? ? ? im ? ? ? ? ? ? ? ? ? ? ?]. cbn.
  split; destruct im; reflexivity.
Qed.

Lemma upload_step_any_input (i : Input) (st : MM) :
  _state (e st) = MAVLINK_WPM_STATE_GETLIST ->
  _mission_type (e st) = MAV_MISSION_TYPE_MISSION ->
  _transfer_dataman_id (e st) = inactive_dataman_id st ->
  upload_step st (step i st).
Proof.
  intros Hs Hty Htid. destruct i as [msg | now]; cbn [step].
  - destruct (payload msg) as [wpa|wpc|wprl|wpr|wpr|wpc|wp|wp|wpca|] eqn:Hp.
    7:{ unfold handle_message. rewrite Hp.
        rewrite (proj1 (handle_mission_item_variants msg wp st)).
        apply item_upload_step; assumption. }
    7:{ unfold handle_message. rewrite Hp.
        rewrite (proj2 (handle_mission_item_variants msg wp st)).
        apply item_upload_step; assumption. }
    all: apply keeps_upload_step; auto.
    all: apply other_messages_keep_upload; auto; rewrite Hp; discriminate.
  - apply keeps_upload_step; auto. apply send_keeps_upload.
Qed.

(** An accepted MISSION_COUNT of a mission selects the inactive buffer. *)
Lemma mission_count_starts_upload (msg : mavlink_message_t)
    (wpc : mavlink_mission_count_t) (st : MM) :
  wpc_mission_type wpc = MAV_MISSION_TYPE_MISSION ->
  _state (e st) = MAVLINK_WPM_STATE_IDLE ->
  _state (e (handle_mission_count msg wpc st)) = MAVLINK_WPM_STATE_GETLIST ->
  _mission_type (e (handle_mission_count msg wpc st)) = MAV_MISSION_TYPE_MISSION /\
  _transfer_dataman_id (e (handle_mission_count msg wpc st)) = inactive_dataman_id st /\
  _dataman_id (g (handle_mission_count msg wpc st)) = _dataman_id (g st).
Proof.
  intros Hty Hs. unfold handle_mission_count.
  rewrite (proj2 (state_is_true _ _) Hs). cbv zeta.
  destruct (CHECK_SYSID_COMPID_MISSION _ _ _); [|congruence].
  destruct (_transfer_in_progress _); [cbn; congruence|].
  destruct (_ <? _); [cbn; congruence|].
  destruct (wpc_count wpc =? 0).
  { intros Hg. exfalso. revert Hg.
    match goal with
    | |- _state (e ?leaf) = _ -> _ => assert (Hk : keeps lock_view st leaf)
    end.
    { repeat split_bool; cbn [fst snd]; keep. }
    rewrite (keeps_state _ _ Hk). congruence. }
  cbn [_mission_type e E set_mission_type set_state set_transfer_seq set_transfer_partner_sysid
       set_transfer_partner_compid set_transfer_count set_transfer_dataman_id
       set_transfer_current_seq set_time_last_recv G].
  rewrite Hty. cbn [Z.eqb MAV_MISSION_TYPE_MISSION MAV_MISSION_TYPE_FENCE].
  intros _. unfold send_mission_request, inactive_dataman_id. cbv zeta.
  repeat split_bool; cbn in *;
    repeat match goal with
           | H : (_dataman_id (g st) =? 0) = _ |- _ => rewrite H
           end; auto; congruence.
Qed.

Lemma keeps_upload_id (k : dm_item_t) (st st' : MM) :
  keeps (upload_view k) st st' -> _dataman_id (g st') = _dataman_id (g st).
Proof. intros (_ & H & _). exact H. Qed.

Lemma sent_in (c : Event) (st st' : MM) (new : list Entry) :
  log (w st') = (new ++ log (w st))%list -> In c (map call new) -> sent c st st'.
Proof.
  intros Hl Hin. destruct (proj1 (List.in_map_iff call new c) Hin) as (en & Hc & Hi).
  exists new, en. auto.
Qed.

Lemma key_is_not_header (id i : Z) :
  (DM_KEY_WAYPOINTS_OFFBOARD id, i) <> (DM_KEY_MISSION_STATE, 0).
Proof. unfold DM_KEY_WAYPOINTS_OFFBOARD. destruct (id =? 0); discriminate. Qed.

Ltac log_prefix l base :=
  lazymatch l with
  | base => constr:(@nil Entry)
  | ?x :: ?r => let p := log_prefix r base in constr:(x :: p)
  end.

(** [sent c st leaf] when [leaf] is [st] followed by explicit calls. *)
Ltac sent_now :=
  lazymatch goal with
  | |- sent ?c ?st ?leaf =>
      let l := eval cbn in (log (w leaf)) in
      let p := log_prefix l constr:(log (w st)) in
      apply (sent_in c st leaf p); [reflexivity | cbn; auto 10]
  end.

Ltac ack_now :=
  lazymatch goal with
  | |- exists c, is_mission_ack _ c /\ sent c ?st ?leaf =>
      let l := eval cbn in (log (w leaf)) in
      lazymatch l with
      | context [{| call := mavlink_msg_mission_ack_send ?wpa; at_g := _; at_e := _ |}] =>
          exists (mavlink_msg_mission_ack_send wpa);
          split; [exists wpa; split; reflexivity | sent_now]
      end
  end.

(** The path of an expected and accepted item through
    [handle_mission_item_both], write by write. *)
Lemma item_outcome_expected (msg : mavlink_message_t) (wp : mavlink_mission_item_t)
    (b : bool) (st : MM) :
  _state (e st) = MAVLINK_WPM_STATE_GETLIST ->
  _mission_type (e st) = MAV_MISSION_TYPE_MISSION ->
  _transfer_dataman_id (e st) = inactive_dataman_id st ->
  let st0 := E (set_int_mode b) st in
  let st1 := E (set_time_last_recv (hrt_absolute_time st0)) st0 in
  let pr := parse_mavlink_mission_item wp mission_item_zero st1 in
  item_outcome
    (if CHECK_SYSID_COMPID_MISSION (wp_target_system wp) (wp_target_component wp) st &&
        (wp_mission_type wp =? _mission_type (e st)) &&
        (wp_seq wp =? _transfer_seq (e st)) &&
        (fst (fst pr) =? PX4_OK) &&
        negb (is_fence_or_rally_cmd (nav_cmd (snd (fst pr))))
     then Some (wp, snd (fst pr)) else None)
    st (handle_mission_item_both msg wp st0).
Proof.
  intros Hs Hty Htid st0 st1 pr.
  set (k := DM_KEY_WAYPOINTS_OFFBOARD (inactive_dataman_id st)).
  assert (Hquiet : forall s, keeps (upload_view k) st s -> item_outcome None st s).
  { intros s Hk. exact (keeps_upload_id _ _ _ Hk). }
  unfold handle_mission_item_both. cbv zeta. rewrite parse_keeps_members.
  change (state_is ?s st0) with (state_is s st).
  change (CHECK_SYSID_COMPID_MISSION ?a ?c st0) with (CHECK_SYSID_COMPID_MISSION a c st).
  change (_mission_type (e st0)) with (_mission_type (e st)).
  in_getlist Hs.
  destruct (CHECK_SYSID_COMPID_MISSION _ _ _); cbn [andb]; [|apply Hquiet; subst st0; keep].
  destruct (wp_mission_type wp =? _mission_type (e st)); cbn [andb negb];
    [|apply Hquiet; subst st0; keep].
  change (_transfer_seq (e (E (set_time_last_recv (hrt_absolute_time st0)) st0)))
    with (_transfer_seq (e st)).
  destruct (Z.eqb_spec (wp_seq wp) (_transfer_seq (e st))) as [Hseq|_]; cbn [andb negb];
    [|apply Hquiet; subst st0; keep].
  fold st1. fold pr.
  pose proof (parse_rejects wp mission_item_zero st1) as Hrej. fold pr in Hrej.
  destruct (fst (fst pr) =? PX4_OK) eqn:Hret; cbn [andb negb].
  2:{ specialize (Hrej eq_refl). apply Hquiet. subst st1 st0. keep. }
  clear Hrej Hret.
  generalize (snd (fst pr)). intros mi. clear pr.
  rewrite (store_mission_item_mission wp mi st1 Hty).
  change (_transfer_dataman_id (e st1)) with (_transfer_dataman_id (e st)). rewrite Htid.
  fold k.
  change (dm_fault st1) with (dm_fault st).
  cbv zeta.
  destruct (is_fence_or_rally_cmd (nav_cmd mi)); cbn [fst snd orb negb].
  { apply Hquiet. subst st1 st0. keep. }
  unfold item_outcome. cbv zeta. fold k.
  destruct (dm_fault st) eqn:Hf1; cbn [fst snd orb].
  { unfold switch_to_idle_state, send_mission_ack, send_statustext_critical, dm_unlock.
    cbv zeta.
    destruct (_geofence_locked _).
    all: split; [split; [reflexivity|]; split; [reflexivity|ack_now]|].
    all: split; [reflexivity|sent_now]. }
  assert (Hcommit : forall s, _mission_type (e s) = MAV_MISSION_TYPE_MISSION ->
            commit_transfer s = update_active_mission (_transfer_dataman_id (e s))
                                  (_transfer_count (e s)) (_transfer_current_seq (e s)) s).
  { intros s Hm. unfold commit_transfer. rewrite Hm. reflexivity. }
  destruct (negb (wp_current wp =? 0)).
  all: match goal with
       | |- context [if _ =? _ then G _ (if fst (commit_transfer ?s) =? _ then _ else _) else _] =>
           set (st5 := s)
       end.
  all: change (_transfer_seq (e st5)) with (wp_seq wp + 1).
  all: change (_transfer_count (e st5)) with (_transfer_count (e st)).
  all: change (_transfer_partner_sysid (e st5)) with (_transfer_partner_sysid (e st)).
  all: change (_transfer_partner_compid (e st5)) with (_transfer_partner_compid (e st)).
  all: destruct (wp_seq wp + 1 =? _transfer_count (e st)).
  2,4: unfold send_mission_request, send_statustext_critical; cbv zeta;
    match goal with |- context [if ?c <? ?d then _ else _] => destruct (c <? d) end;
    subst st5 st1 st0; destruct b;
    (split; [cbn; apply lookup_insert_eq|]);
    (split; [sent_now|]);
    cbn; rewrite Hs; repeat split.
  all: rewrite (Hcommit st5 Hty), update_active_mission_cases.
  all: change (_transfer_dataman_id (e st5)) with (_transfer_dataman_id (e st)); rewrite Htid.
  all: change (_transfer_count (e st5)) with (_transfer_count (e st)).
  all: change (dm_fault st5) with (hd false (tl (dm_faults (w st)))).
  all: cbv zeta; destruct (hd false (tl (dm_faults (w st)))); cbn [fst snd].
  all: first [ change (PX4_ERROR =? PX4_OK) with false
             | change (PX4_OK =? PX4_OK) with true ]; cbv iota.
  all: unfold filesystem_error, switch_to_idle_state, send_mission_ack,
         send_statustext_critical, dm_unlock; cbv zeta.
  all: change (_offboard_mission_pub (e st5)) with (_offboard_mission_pub (e st)).
  all: change (_filesystem_errcount (e (emit ?c (dm_called st5))))
         with (_filesystem_errcount (e st)).
  all: try destruct (_filesystem_errcount (e st) <? FILESYSTEM_ERRCOUNT_NOTIFY_LIMIT).
  all: try destruct (_offboard_mission_pub (e st)).
  all: subst st5 st1 st0; cbn [e E G emit W dm_called _geofence_locked
         set_filesystem_errcount set_time_last_sent set_transfer_seq set_transfer_current_seq
         set_time_last_recv set_int_mode set_my_dataman_id set_offboard_mission_pub].
  all: destruct (_geofence_locked (e st)).
  all: (split; [cbn; rewrite ?lookup_insert_ne by (apply not_eq_sym, key_is_not_header);
                apply lookup_insert_eq|]).
  all: (split; [sent_now|]).
  all: (split; [reflexivity|]); (split; [reflexivity|]); ack_now.
Qed.

Lemma item_step_any_input (i : Input) (st : MM) :
  _state (e st) = MAVLINK_WPM_STATE_GETLIST ->
  _mission_type (e st) = MAV_MISSION_TYPE_MISSION ->
  _transfer_dataman_id (e st) = inactive_dataman_id st ->
  item_step i st (step i st).
Proof.
  intros Hs Hty Htid. unfold item_step.
  set (k := DM_KEY_WAYPOINTS_OFFBOARD (inactive_dataman_id st)).
  destruct i as [msg | now]; cbn [step expected_item].
  - destruct (payload msg) as [wpa|wpc|wprl|wpr|wpr|wpc|wp|wp|wpca|] eqn:Hp.
    7:{ unfold handle_message. rewrite Hp.
        rewrite (proj1 (handle_mission_item_variants msg wp st)).
        apply item_outcome_expected; assumption. }
    7:{ unfold handle_message. rewrite Hp.
        rewrite (proj2 (handle_mission_item_variants msg wp st)).
        apply item_outcome_expected; assumption. }
    all: apply (keeps_upload_id k).
    all: apply other_messages_keep_upload; auto; rewrite Hp; discriminate.
  - apply (keeps_upload_id k). apply send_keeps_upload.
Qed.

(** C1 (as amended).  For every mission upload handled by the endpoint:
    the MISSION_COUNT that starts it selects the inactive buffer (the
    complement of the active id); from then on, for every input of the
    endpoint and as long as it stays in GETLIST: an expected item (addressed
    to the endpoint, of the mission type of the transfer, with the expected
    sequence number, accepted by the parser, not a fence or rally command)
    is written to its slot of that buffer when dataman takes the write, and
    no item is written to another buffer; the active id changes exactly
    when MISSION_ACK(ACCEPTED) is sent, which is when such an item is the
    last one and dataman takes both its write and the write of the header.
    The header, which names the formerly inactive id, is written first;
    the active id swaps when that write has succeeded; the header is
    published after the swap.  When dataman refuses a write the upload ends
    with MISSION_ACK(ERROR) and the active id stays.  The static members
    are shared by the instances; what another instance does to them during
    the upload is outside this statement. *)
Theorem mission_upload_double_buffer (msg : mavlink_message_t)
    (wpc : mavlink_mission_count_t) (st : MM) (inputs : list Input) :
  payload msg = MAVLINK_MSG_ID_MISSION_COUNT wpc ->
  wpc_mission_type wpc = MAV_MISSION_TYPE_MISSION ->
  _state (e st) = MAVLINK_WPM_STATE_IDLE ->
  _state (e (step (Message msg) st)) = MAVLINK_WPM_STATE_GETLIST ->
  upload_run (inactive_dataman_id st) (step (Message msg) st) inputs.
Proof.
  intros Hp Hty Hs Hg. cbn [step] in *. unfold handle_message in *. rewrite Hp in *.
  destruct (mission_count_starts_upload msg wpc st Hty Hs Hg) as (Hm & Htid & Hid).
  assert (Hin : inactive_dataman_id (handle_mission_count msg wpc st) = inactive_dataman_id st).
  { unfold inactive_dataman_id. rewrite Hid. reflexivity. }
  revert Hg Hm Htid Hin.
  generalize (handle_mission_count msg wpc st). intros s. revert s.
  induction inputs as [|i rest IH]; intros s Hg Hm Htid Hin; cbn [upload_run]; [exact I|].
  assert (Hstep : upload_step s (step i s)).
  { apply upload_step_any_input; congruence. }
  assert (Hitem : item_step i s (step i s)).
  { apply item_step_any_input; congruence. }
  repeat split; try assumption.
  intros Hg'. destruct Hstep as (new & _ & _ & Hiff & _ & Hinv).
  destruct (Hinv Hg') as (Hm' & Htid').
  assert (Hsame : _dataman_id (g (step i s)) = _dataman_id (g s)).
  { destruct (Z.eq_dec (_dataman_id (g (step i s))) (_dataman_id (g s))) as [|Hne]; [assumption|].
    exfalso.
    pose proof (upload_step_any_input i s Hg Hm ltac:(congruence)) as (new' & _ & _ & _ & Hsw & _).
    destruct (Hsw Hne) as (_ & Hidle & _). congruence. }
  assert (Hin' : inactive_dataman_id (step i s) = inactive_dataman_id st).
  { rewrite <- Hin. unfold inactive_dataman_id. rewrite Hsame. reflexivity. }
  apply IH; congruence.
Qed.

(** ** The cursor of a transfer *)

#[local] Hint Extern 3 (keeps _ _ (switch_to_idle_state _)) =>
  apply keeps_switch_to_idle_state; [reflexivity | reflexivity | reflexivity | ] : keeps.

Lemma keeps_cursor (st st' : MM) :
  keeps cursor_view st st' ->
  _transfer_seq (e st') = _transfer_seq (e st) /\
  _transfer_count (e st') = _transfer_count (e st).
Proof. intros (H & _). cbn in H. injection H as H1 H2. auto. Qed.

Lemma sent_here (c : Event) (st s1 : MM) :
  keeps cursor_view st s1 -> sent c st (emit c s1).
Proof.
  intros (_ & _ & _ & new & H4 & _). exists (logged c s1 :: new), (logged c s1).
  cbn. rewrite H4. split; [reflexivity|]. split; [left; reflexivity|reflexivity].
Qed.

Lemma sent_then_keeps (c : Event) (st s1 s2 : MM) :
  sent c st s1 -> keeps cursor_view s1 s2 -> sent c st s2.
Proof.
  intros (new & en & H1 & H2 & H3) (_ & _ & _ & new' & H4 & _).
  exists (new' ++ new)%list, en. rewrite H4, H1, app_assoc.
  split; [reflexivity|]. split; [apply in_or_app; right; exact H2|exact H3].
Qed.

Lemma switch_to_idle_state_idle (st : MM) :
  _state (e (switch_to_idle_state st)) = MAVLINK_WPM_STATE_IDLE.
Proof. reflexivity. Qed.

Ltac ack_sent st :=
  unfold send_mission_ack;
  match goal with
  | |- exists c, _ /\ sent c st ?leaf =>
      match leaf with
      | context [emit (mavlink_msg_mission_ack_send ?wpa) ?s1] =>
          exists (mavlink_msg_mission_ack_send wpa); split;
          [ exists wpa; split; reflexivity
          | apply (sent_then_keeps _ st (emit (mavlink_msg_mission_ack_send wpa) s1));
            [apply sent_here|]; keep ]
      end
  end.

(** C3 (as amended).  In GETLIST, an item (of either variant) that is
    addressed to the endpoint, has the mission type of the transfer and the
    expected sequence number advances the cursor to [seq + 1] when the
    parser accepts it and it is stored; otherwise the cursor stays, a
    MISSION_ACK with the error is sent and the endpoint drops to IDLE.  An
    item with any other sequence number is ignored: nothing is sent or
    stored, and the state and the cursor are unchanged. *)
Theorem mission_item_sequence_discipline (msg : mavlink_message_t)
    (wp : mavlink_mission_item_t) (b : bool) (st : MM) :
  _state (e st) = MAVLINK_WPM_STATE_GETLIST ->
  let st0 := E (set_int_mode b) st in
  let st' := handle_mission_item_both msg wp st0 in
  let st1 := E (set_time_last_recv (hrt_absolute_time st0)) st0 in
  let pr := parse_mavlink_mission_item wp mission_item_zero st1 in
  let sr := store_mission_item wp (snd (fst pr)) st1 in
  let stored := (fst (fst pr) =? MAV_MISSION_ACCEPTED) &&
                negb (fst (fst sr)) && negb (snd (fst sr)) in
  let result := if fst (fst pr) =? MAV_MISSION_ACCEPTED
                then MAV_MISSION_ERROR else fst (fst pr) in
  (CHECK_SYSID_COMPID_MISSION (wp_target_system wp) (wp_target_component wp) st = true ->
   wp_mission_type wp = _mission_type (e st) ->
   wp_seq wp = _transfer_seq (e st) ->
   if stored
   then _transfer_seq (e st') = wp_seq wp + 1
   else _transfer_seq (e st') = _transfer_seq (e st) /\
        _state (e st') = MAVLINK_WPM_STATE_IDLE /\
        _transfer_in_progress (g st') = false /\
        u8 result <> MAV_MISSION_ACCEPTED /\
        exists c, is_mission_ack (u8 result) c /\ sent c st st') /\
  (wp_seq wp <> _transfer_seq (e st) ->
   log (w st') = log (w st) /\
   dm_store (w st') = dm_store (w st) /\
   g st' = g st /\
   _state (e st') = MAVLINK_WPM_STATE_GETLIST /\
   _transfer_seq (e st') = _transfer_seq (e st) /\
   _transfer_count (e st') = _transfer_count (e st)).
Proof.
  intros Hs st0 st' st1 pr sr stored result.
  assert (Hk1 : keeps cursor_view st st1) by (subst st1 st0; keep).
  split.
  - intros Hchk Hty Hseq. subst st'. unfold handle_mission_item_both.
    change (CHECK_SYSID_COMPID_MISSION ?a ?b st0) with (CHECK_SYSID_COMPID_MISSION a b st).
    change (_mission_type (e st0)) with (_mission_type (e st)).
    change (_transfer_seq (e (E _ st0))) with (_transfer_seq (e st)).
    change (state_is ?s st0) with (state_is s st).
    rewrite Hchk, Hty, Hseq, !Z.eqb_refl, (proj2 (state_is_true _ _) Hs). cbn [negb].
    cbv zeta. fold st1. rewrite parse_keeps_members. fold pr. fold sr.
    pose proof (parse_rejects wp mission_item_zero st1) as Hrej. fold pr in Hrej.
    subst stored result.
    change PX4_OK with MAV_MISSION_ACCEPTED in *.
    destruct (fst (fst pr) =? MAV_MISSION_ACCEPTED) eqn:Hret; cbn [negb andb].
    2:{ specialize (Hrej eq_refl).
        split; [|split; [reflexivity|split; [reflexivity|split; [exact Hrej|]]]].
        - match goal with
          | |- _transfer_seq (e ?leaf) = _ => assert (Hk : keeps cursor_view st1 leaf) by keep
          end.
          rewrite (proj1 (keeps_cursor _ _ Hk)). reflexivity.
        - ack_sent st. }
    assert (Hk2 : keeps cursor_view st (snd sr)) by (subst sr; keep).
    destruct (fst (fst sr)) eqn:Hwf; destruct (snd (fst sr)) eqn:Hcf; cbn [negb andb orb].
    4:{ match goal with
        | |- _transfer_seq (e (if _ then ?a else ?b)) = _ =>
            match a with
            | context [commit_transfer ?s5] =>
                assert (Hk : keeps cursor_view s5 (if _transfer_seq (e s5) =? _transfer_count (e s5)
                                                   then a else b))
                  by (repeat split_bool; keep);
                rewrite (proj1 (keeps_cursor _ _ Hk)); reflexivity
            end
        end. }
    all: split; [|split; [reflexivity|split; [reflexivity|split; [vm_compute; discriminate|]]]].
    all: try match goal with
          | |- _transfer_seq (e ?leaf) = _ =>
              assert (Hk : keeps cursor_view st leaf) by keep;
              rewrite (proj1 (keeps_cursor _ _ Hk)); reflexivity
          end.
    all: ack_sent st.
  - intros Hseq. subst st'. unfold handle_mission_item_both.
    change (_transfer_seq (e (E _ st0))) with (_transfer_seq (e st)).
    change (state_is ?s st0) with (state_is s st).
    rewrite (proj2 (state_is_true _ _) Hs).
    apply Z.eqb_neq in Hseq. rewrite Hseq. cbn [negb].
    clear stored result sr pr Hk1.
    destruct (CHECK_SYSID_COMPID_MISSION _ _ _); [|cbn; auto 10].
    destruct (wp_mission_type wp =? _mission_type (e st0)); cbn; auto 10.
Qed.

Lemma u32_id (x : Z) : 0 <= x < 2 ^ 32 -> u32 x = x.
Proof. intros H. unfold u32. apply Z.mod_small. exact H. Qed.

(** A read that succeeds leaves no trace in the log. *)
Lemma read_mission_item_success (seq : Z) (st : MM) :
  readable seq st = true -> snd (read_mission_item seq st) = dm_called st.
Proof.
  unfold readable, read_mission_item. cbv zeta.
  repeat split_bool; cbn [fst snd].
  1-3: match goal with
       | |- context [fst (dm_read ?a ?b ?c)] => destruct (fst (dm_read a b c)) as [[]|]
       end; cbn [fst snd]; intros H; try discriminate; reflexivity.
  discriminate.
Qed.

Lemma read_mission_item_E (f : Endpoint -> Endpoint) (seq : Z) (st : MM) :
  _mission_type (f (e st)) = _mission_type (e st) ->
  fst (read_mission_item seq (E f st)) = fst (read_mission_item seq st).
Proof.
  intros H. unfold read_mission_item. cbv zeta.
  change (_mission_type (e (E f st))) with (_mission_type (f (e st))). rewrite H.
  change (g (E f st)) with (g st).
  change (fst (dm_read ?k ?i (E f st))) with (fst (dm_read k i st)).
  repeat split_bool; try reflexivity.
  all: match goal with
       | |- context [fst (dm_read ?a ?b ?c)] => destruct (fst (dm_read a b c)) as [[]|]
       end; reflexivity.
Qed.

Lemma sent_same_log (c : Event) (st s1 st' : MM) :
  log (w s1) = log (w st) -> sent c s1 st' -> sent c st st'.
Proof. intros H (new & en & H1 & H2). exists new, en. rewrite <- H. auto. Qed.

(** What [send_mission_item] does, by the outcome of the read. *)
Lemma send_mission_item_outcome (a b seq : Z) (st : MM) :
  0 <= seq < 2 ^ 16 ->
  let st' := send_mission_item a b seq st in
  keeps cursor_view st st' /\
  _state (e st') = _state (e st) /\
  if readable seq st
  then exists en, log (w st') = en :: log (w st) /\
                  is_mission_item_send seq (call en)
  else exists c, is_mission_ack MAV_MISSION_ERROR c /\ sent c st st'.
Proof.
  intros Hseq st'.
  split; [subst st'; keep|].
  assert (Hst : keeps lock_view st st') by (subst st'; keep).
  split; [exact (keeps_state _ _ Hst)|].
  subst st'. unfold send_mission_item. cbv zeta. rewrite (u16_id seq Hseq).
  fold (readable seq st). destruct (readable seq st) eqn:Hr.
  - rewrite (read_mission_item_success seq st Hr).
    destruct (_int_mode _); cbn; eexists; (split; [reflexivity|]);
      eexists; (split; [first [left; reflexivity | right; reflexivity] | reflexivity]).
  - unfold send_mission_ack, filesystem_error. cbv zeta.
    match goal with
    | |- context [emit (mavlink_msg_mission_ack_send ?wpa) ?s2] =>
        exists (mavlink_msg_mission_ack_send wpa); split;
        [ exists wpa; split; reflexivity
        | apply (sent_then_keeps _ st (emit (mavlink_msg_mission_ack_send wpa) s2));
          [apply sent_here|]; keep ]
    end.
Qed.

(** What the error exit of [handle_mission_request_both] does. *)
Lemma reject_request_outcome (st : MM) :
  let st' := reject_request st in
  keeps cursor_view st st' /\
  _state (e st') = MAVLINK_WPM_STATE_IDLE /\
  exists c, is_mission_ack MAV_MISSION_ERROR c /\ sent c st st'.
Proof.
  intros st'. subst st'. unfold reject_request. cbv zeta.
  split; [keep|]. split; [reflexivity|].
  ack_sent st.
Qed.

(** What [send_mission_item] sends when the item can be read: one message,
    in the encoding of [_int_mode], that carries the formatted item. *)
Lemma send_mission_item_readable (a b seq : Z) (st : MM) :
  0 <= seq < 2 ^ 16 ->
  readable seq st = true ->
  let mission_item := snd (fst (read_mission_item seq st)) in
  let wp := set_wp_current (if _current_seq (g st) =? seq then 1 else 0)
              (set_wp_seq seq
                 (set_wp_target_component (u8 b)
                    (set_wp_target_system (u8 a)
                       (snd (format_mavlink_mission_item (_int_mode (e st)) mission_item
                               (wp_uninit (w st))))))) in
  exists en, log (w (send_mission_item a b seq st)) = en :: log (w st) /\
    call en = (if _int_mode (e st) then mavlink_msg_mission_item_int_send wp
               else mavlink_msg_mission_item_send wp).
Proof.
  intros Hseq Hr. cbv zeta. unfold send_mission_item. cbv zeta. rewrite (u16_id seq Hseq).
  fold (readable seq st). rewrite Hr.
  rewrite (read_mission_item_success seq st Hr).
  destruct (_int_mode (e st)) eqn:Hi; cbn; rewrite Hi; eexists; split; reflexivity.
Qed.

Lemma sent_inv (c : Event) (st st' : MM) (new : list Entry) :
  log (w st') = (new ++ log (w st))%list -> sent c st st' -> In c (map call new).
Proof.
  intros Hl (new' & en & Hl' & Hin & Hc). rewrite Hl in Hl'.
  apply app_inv_tail in Hl'. subst new'. rewrite <- Hc. apply List.in_map. exact Hin.
Qed.

(** What [send_mission_item] sends when the item cannot be read:
    MISSION_ACK(ERROR) to the transfer partner, and the status text of the
    storage error as long as fewer than FILESYSTEM_ERRCOUNT_NOTIFY_LIMIT
    errors have been counted. *)
Lemma send_mission_item_unreadable (a b seq : Z) (st : MM) :
  0 <= seq < 2 ^ 16 ->
  readable seq st = false ->
  let st' := send_mission_item a b seq st in
  sent (mavlink_msg_mission_ack_send
          {| wpa_target_system := u8 (_transfer_partner_sysid (e st));
             wpa_target_component := u8 (_transfer_partner_compid (e st));
             wpa_type := MAV_MISSION_ERROR;
             wpa_mission_type := u8 (_mission_type (e st)) |}) st st' /\
  (sent (statustext_critical "Mission storage: Unable to read from microSD") st st' <->
   _filesystem_errcount (e st) < FILESYSTEM_ERRCOUNT_NOTIFY_LIMIT) /\
  _filesystem_errcount (e st') = u32 (_filesystem_errcount (e st) + 1).
Proof.
  intros Hseq Hr. cbv zeta. unfold send_mission_item. cbv zeta. rewrite (u16_id seq Hseq).
  fold (readable seq st). rewrite Hr.
  assert (Hrd : snd (read_mission_item seq st) = dm_called st \/
                snd (read_mission_item seq st) =
                  send_statustext_critical "Received unknown mission type, abort." st).
  { unfold read_mission_item. cbv zeta. repeat split_bool; cbn [fst snd].
    1-3: match goal with
         | |- context [fst (dm_read ?x ?y ?z)] => destruct (fst (dm_read x y z)) as [[]|]
         end; left; reflexivity.
    right; reflexivity. }
  unfold filesystem_error, send_mission_ack, send_statustext_critical in *. cbv zeta.
  destruct Hrd as [-> | ->];
    change (_filesystem_errcount (e (emit ?c (emit ?d ?s)))) with (_filesystem_errcount (e s));
    change (_filesystem_errcount (e (emit ?c (dm_called ?s)))) with (_filesystem_errcount (e s));
    destruct (Z.ltb_spec (_filesystem_errcount (e st)) FILESYSTEM_ERRCOUNT_NOTIFY_LIMIT)
      as [Hlt|Hge];
    (split; [sent_now|]); (split; [|reflexivity]);
    (split; [intros Hs | intros Hl]); try sent_now; try assumption; try lia;
    exfalso;
    match goal with
    | Hs : sent ?c ?s0 ?leaf |- _ =>
        let l := eval cbn in (log (w leaf)) in
        let p := log_prefix l constr:(log (w s0)) in
        pose proof (sent_inv c s0 leaf p eq_refl Hs) as Hin
    end;
    cbn in Hin; repeat destruct Hin as [Hin|Hin]; try discriminate Hin; try contradiction.
Qed.

(** C4 (as amended).  In SENDLIST, a request (of either variant) from the
    transfer partner with the mission type of the transfer: with seq equal
    to [_transfer_seq] (below [_transfer_count]) it advances the cursor, with
    seq equal to [_transfer_seq - 1] it leaves the cursor.  In both cases,
    if seq is below the current item count and the item can be read from
    dataman, exactly one message is sent: the item read at seq, formatted,
    in the encoding of the variant of the request, addressed to the
    partner, with seq as its sequence number and [current] set when seq is
    the current item.  If the item cannot be read, MISSION_ACK(ERROR) is
    sent to the partner, with the status text of the storage error only
    while fewer than FILESYSTEM_ERRCOUNT_NOTIFY_LIMIT errors have been
    counted, and the endpoint stays in SENDLIST.  If seq is not below the
    current item count, MISSION_ACK(ERROR) is sent and the endpoint drops to
    IDLE.  Any other seq causes MISSION_ACK(ERROR) and the drop to IDLE, the
    cursor unchanged. *)
Theorem mission_request_sequence_discipline (msg : mavlink_message_t)
    (wpr : mavlink_mission_request_t) (b : bool) (st : MM) :
  CHECK_SYSID_COMPID_MISSION (wpr_target_system wpr) (wpr_target_component wpr) st = true ->
  from_partner msg st = true ->
  _state (e st) = MAVLINK_WPM_STATE_SENDLIST ->
  u8 (_mission_type (e st)) = wpr_mission_type wpr ->
  0 <= wpr_seq wpr < 2 ^ 16 ->
  0 <= _transfer_seq (e st) < 2 ^ 32 ->
  _transfer_count (e st) < 2 ^ 32 ->
  let seq := wpr_seq wpr in
  let st' := handle_mission_request_both msg wpr (E (set_int_mode b) st) in
  let mission_item := snd (fst (read_mission_item seq st)) in
  let wp := set_wp_current (if _current_seq (g st) =? seq then 1 else 0)
              (set_wp_seq seq
                 (set_wp_target_component (u8 (_transfer_partner_compid (e st)))
                    (set_wp_target_system (u8 (_transfer_partner_sysid (e st)))
                       (snd (format_mavlink_mission_item b mission_item
                               (wp_uninit (w st))))))) in
  let nack := mavlink_msg_mission_ack_send
                {| wpa_target_system := u8 (_transfer_partner_sysid (e st));
                   wpa_target_component := u8 (_transfer_partner_compid (e st));
                   wpa_type := MAV_MISSION_ERROR;
                   wpa_mission_type := u8 (_mission_type (e st)) |} in
  let served (cursor : Z) : Prop :=
    _transfer_seq (e st') = cursor /\
    if seq <? current_item_count st then
      _state (e st') = MAVLINK_WPM_STATE_SENDLIST /\
      if readable seq st
      then exists en, log (w st') = en :: log (w st) /\
             call en = (if b then mavlink_msg_mission_item_int_send wp
                        else mavlink_msg_mission_item_send wp)
      else sent nack st st' /\
           (sent (statustext_critical "Mission storage: Unable to read from microSD") st st'
            <-> _filesystem_errcount (e st) < FILESYSTEM_ERRCOUNT_NOTIFY_LIMIT)
    else
      _state (e st') = MAVLINK_WPM_STATE_IDLE /\
      exists c, is_mission_ack MAV_MISSION_ERROR c /\ sent c st st' in
  (seq = _transfer_seq (e st) -> _transfer_seq (e st) < _transfer_count (e st) ->
     served (_transfer_seq (e st) + 1)) /\
  (seq = _transfer_seq (e st) - 1 -> served (_transfer_seq (e st))) /\
  (~ (seq = _transfer_seq (e st) /\ _transfer_seq (e st) < _transfer_count (e st)) ->
   seq <> _transfer_seq (e st) - 1 ->
     _transfer_seq (e st') = _transfer_seq (e st) /\
     _state (e st') = MAVLINK_WPM_STATE_IDLE /\
     exists c, is_mission_ack MAV_MISSION_ERROR c /\ sent c st st').
Proof.
  intros Hchk Hfrom Hs Hty Hseq Hts Htc seq st' mission_item wp nack served.
  set (st0 := E (set_int_mode b) st) in *.
  set (st1 := E (set_time_last_recv (hrt_absolute_time st0)) st0).
  assert (Hst' : st' =
    if (seq =? _transfer_seq (e st)) && (_transfer_seq (e st) <? _transfer_count (e st)) then
      let s2 := E (set_transfer_seq (u32 (_transfer_seq (e st) + 1))) st1 in
      if seq <? current_item_count st
      then send_mission_item (_transfer_partner_sysid (e st)) (_transfer_partner_compid (e st)) seq s2
      else reject_request s2
    else if seq =? u32 (_transfer_seq (e st) - 1) then
      if seq <? current_item_count st
      then send_mission_item (_transfer_partner_sysid (e st)) (_transfer_partner_compid (e st)) seq st1
      else reject_request st1
    else reject_request st1).
  { subst st'. unfold handle_mission_request_both.
    change (CHECK_SYSID_COMPID_MISSION ?a ?c st0) with (CHECK_SYSID_COMPID_MISSION a c st).
    change (from_partner msg st0) with (from_partner msg st).
    change (state_is ?s st0) with (state_is s st).
    change (_mission_type (e st0)) with (_mission_type (e st)).
    rewrite Hchk, Hfrom, (proj2 (state_is_true _ _) Hs), Hty, Z.eqb_refl. cbn [negb].
    reflexivity. }
  assert (Hserve : forall (f : Endpoint -> Endpoint) cursor,
            let s2 := E f st1 in
            _state (f (e st1)) = MAVLINK_WPM_STATE_SENDLIST ->
            _transfer_seq (f (e st1)) = cursor ->
            _mission_type (f (e st1)) = _mission_type (e st) ->
            _int_mode (f (e st1)) = b ->
            _filesystem_errcount (f (e st1)) = _filesystem_errcount (e st) ->
            _transfer_partner_sysid (f (e st1)) = _transfer_partner_sysid (e st) ->
            _transfer_partner_compid (f (e st1)) = _transfer_partner_compid (e st) ->
            st' = (if seq <? current_item_count st
                   then send_mission_item (_transfer_partner_sysid (e st))
                          (_transfer_partner_compid (e st)) seq s2
                   else reject_request s2) ->
            served cursor).
  { intros f cursor s2 Hs2 Hcur Hm2 Hi2 He2 Hp2 Hq2 ->. subst served. cbv beta.
    assert (Hlog : log (w s2) = log (w st)) by reflexivity.
    assert (Hrd : fst (read_mission_item seq s2) = fst (read_mission_item seq st)).
    { subst s2 st1 st0. rewrite !read_mission_item_E by assumption || reflexivity.
      reflexivity. }
    destruct (seq <? current_item_count st).
    - destruct (send_mission_item_outcome (_transfer_partner_sysid (e st))
                  (_transfer_partner_compid (e st)) seq s2 Hseq) as (K1 & K2 & _).
      destruct (keeps_cursor _ _ K1) as (C1 & _).
      split; [rewrite C1; exact Hcur|]. split; [rewrite K2; exact Hs2|].
      destruct (readable seq st) eqn:Hr.
      + assert (Hr2 : readable seq s2 = true) by (unfold readable in *; rewrite Hrd; exact Hr).
        destruct (send_mission_item_readable (_transfer_partner_sysid (e st))
                    (_transfer_partner_compid (e st)) seq s2 Hseq Hr2) as (en & Hl & Hc).
        exists en. split; [exact Hl|]. rewrite Hc.
        change (_int_mode (e s2)) with (_int_mode (f (e st1))). rewrite Hi2.
        rewrite Hrd. reflexivity.
      + assert (Hr2 : readable seq s2 = false) by (unfold readable in *; rewrite Hrd; exact Hr).
        destruct (send_mission_item_unreadable (_transfer_partner_sysid (e st))
                    (_transfer_partner_compid (e st)) seq s2 Hseq Hr2) as (A1 & A2 & _).
        change (e s2) with (f (e st1)) in A1, A2.
        rewrite Hp2, Hq2, Hm2 in A1. rewrite He2 in A2.
        split; [exact (sent_same_log _ _ _ _ Hlog A1)|].
        split; intros H.
        * apply A2. destruct H as (new & en & H1 & H2). exists new, en. rewrite Hlog. auto.
        * exact (sent_same_log _ _ _ _ Hlog (proj2 A2 H)).
    - destruct (reject_request_outcome s2) as (K1 & K2 & c & Hc & Hsent).
      destruct (keeps_cursor _ _ K1) as (C1 & _).
      split; [rewrite C1; exact Hcur|]. split; [assumption|].
      exists c. split; [exact Hc|]. exact (sent_same_log _ _ _ _ Hlog Hsent). }
  split; [|split].
  - intros He Hlt.
    rewrite (proj2 (Z.eqb_eq _ _) He), (proj2 (Z.ltb_lt _ _) Hlt) in Hst'. cbn [andb] in Hst'.
    rewrite u32_id in Hst' by lia.
    apply (Hserve (set_transfer_seq (_transfer_seq (e st) + 1))); auto.
  - intros He.
    assert (Hne : (seq =? _transfer_seq (e st)) = false) by (apply Z.eqb_neq; lia).
    rewrite Hne in Hst'. cbn [andb] in Hst'.
    rewrite u32_id in Hst' by lia.
    rewrite (proj2 (Z.eqb_eq _ _) He) in Hst'.
    apply (Hserve (fun x => x)); auto.
  - intros Hn1 Hn2.
    assert (H1 : (seq =? _transfer_seq (e st)) && (_transfer_seq (e st) <? _transfer_count (e st)) = false).
    { destruct (Z.eqb_spec seq (_transfer_seq (e st))) as [Ha|Ha]; [|reflexivity].
      destruct (Z.ltb_spec (_transfer_seq (e st)) (_transfer_count (e st))) as [Hb|Hb];
        [|reflexivity].
      exfalso. apply Hn1. split; assumption. }
    assert (H2 : (seq =? u32 (_transfer_seq (e st) - 1)) = false).
    { apply Z.eqb_neq. unfold u32.
      destruct (Z.eq_dec (_transfer_seq (e st)) 0) as [Hz|Hz].
      - rewrite Hz. change ((0 - 1) mod 2 ^ 32) with (2 ^ 32 - 1). lia.
      - rewrite Z.mod_small by lia. exact Hn2. }
    rewrite H1, H2 in Hst'. rewrite Hst'.
    destruct (reject_request_outcome st1) as (K1 & K2 & c & Hc & Hsent).
    destruct (keeps_cursor _ _ K1) as (C1 & _).
    split; [exact C1|]. split; [assumption|].
    exists c. split; [exact Hc|]. exact (sent_same_log _ _ _ _ eq_refl Hsent).
Qed.

(** ** Replies, modes and counters *)

(** C5.  A MISSION_COUNT that is addressed to the endpoint and arrives in
    IDLE while no transfer is in progress, with a count above the capacity
    of its mission type, is answered by MISSION_ACK(NO_SPACE) and nothing
    else; the endpoint stays in IDLE and [_transfer_in_progress] is false
    afterwards. *)
Theorem mission_count_over_capacity (msg : mavlink_message_t)
    (wpc : mavlink_mission_count_t) (st : MM) :
  payload msg = MAVLINK_MSG_ID_MISSION_COUNT wpc ->
  CHECK_SYSID_COMPID_MISSION (wpc_target_system wpc) (wpc_target_component wpc) st = true ->
  _state (e st) = MAVLINK_WPM_STATE_IDLE ->
  _transfer_in_progress (g st) = false ->
  current_max_item_count (E (set_mission_type (wpc_mission_type wpc)) st) < wpc_count wpc ->
  let st' := handle_message msg st in
  (exists en, log (w st') = en :: log (w st) /\
     call en = mavlink_msg_mission_ack_send
                 {| wpa_target_system := u8 (_transfer_partner_sysid (e st));
                    wpa_target_component := u8 (_transfer_partner_compid (e st));
                    wpa_type := MAV_MISSION_NO_SPACE;
                    wpa_mission_type := u8 (wpc_mission_type wpc) |}) /\
  _state (e st') = MAVLINK_WPM_STATE_IDLE /\
  _transfer_in_progress (g st') = false.
Proof.
  intros Hp Hchk Hidle Htip Hmax st'. subst st'.
  unfold handle_message. rewrite Hp. unfold handle_mission_count. rewrite Hchk.
  rewrite (proj2 (state_is_true _ _) Hidle).
  cbn [g E G set_time_last_recv _transfer_in_progress]. rewrite Htip.
  unfold current_max_item_count in *. cbn in Hmax |- *.
  apply Z.ltb_lt in Hmax. rewrite Hmax.
  cbn. repeat split; [|exact Hidle]. eexists. split; reflexivity.
Qed.

(** C6 (as amended).  The flip of [_int_mode] on a MISSION_ACK that is not
    ACCEPTED happens in GETLIST (upload), not in SENDLIST.  In GETLIST, such
    an ACK from the transfer partner, addressed to the endpoint, turns int
    mode into float mode and float mode into int mode and rewrites nothing
    but [_int_mode]; an ACCEPTED one changes nothing.  In SENDLIST no
    MISSION_ACK changes [_int_mode]: an ACK from the partner with the
    mission type of the transfer ends the download (the endpoint goes to
    IDLE, with a status text when not all items had been sent, the statics
    and the store unchanged); an ACK from the partner with another mission
    type, or one that is not addressed to the endpoint, changes nothing;
    an ACK from another sender is answered by a status text and changes
    nothing else. *)
Theorem mission_ack_flips_int_mode_in_getlist (msg : mavlink_message_t)
    (wpa : mavlink_mission_ack_t) (st : MM) :
  payload msg = MAVLINK_MSG_ID_MISSION_ACK wpa ->
  let st' := handle_message msg st in
  let for_me :=
    CHECK_SYSID_COMPID_MISSION (wpa_target_system wpa) (wpa_target_component wpa) st in
  (_state (e st) = MAVLINK_WPM_STATE_GETLIST ->
   for_me = true -> from_partner msg st = true ->
   st' = if wpa_type wpa =? MAV_MISSION_ACCEPTED then st
         else E (set_int_mode (negb (_int_mode (e st)))) st) /\
  (_state (e st) = MAVLINK_WPM_STATE_SENDLIST ->
   _int_mode (e st') = _int_mode (e st) /\
   (for_me = true -> from_partner msg st = true ->
    _mission_type (e st) = wpa_mission_type wpa ->
    _state (e st') = MAVLINK_WPM_STATE_IDLE /\
    g st' = g st /\
    dm_store (w st') = dm_store (w st) /\
    (sent (statustext_critical "WPM: ERR: not all items sent -> IDLE") st st' <->
     _transfer_seq (e st) <> current_item_count st)) /\
   (for_me = true -> from_partner msg st = true ->
    _mission_type (e st) <> wpa_mission_type wpa ->
    st' = st) /\
   (for_me = true -> from_partner msg st = false ->
    st' = send_statustext_critical "REJ. WP CMD: partner id mismatch" st) /\
   (for_me = false -> st' = st)).
Proof.
  intros Hp. cbv zeta. unfold handle_message. rewrite Hp. unfold handle_mission_ack. split.
  - intros Hs -> ->.
    assert (state_is MAVLINK_WPM_STATE_SENDLIST st = false) as ->.
    { apply state_is_false. congruence. }
    rewrite (proj2 (state_is_true _ _) Hs). cbn [andb].
    destruct (wpa_type wpa =? MAV_MISSION_ACCEPTED); cbn [negb andb];
      destruct (_int_mode (e st)); reflexivity.
  - intros Hs.
    assert (state_is MAVLINK_WPM_STATE_GETLIST st = false) as ->.
    { apply state_is_false. congruence. }
    rewrite (proj2 (state_is_true _ _) Hs). cbn [andb].
    split; [|split; [|split; [|split]]].
    + destruct (CHECK_SYSID_COMPID_MISSION _ _ _); [|reflexivity].
      destruct (from_partner msg st); [|reflexivity].
      destruct (_ =? _); [|reflexivity].
      unfold switch_to_idle_state.
      destruct (_ =? _); cbn; destruct (_geofence_locked (e st)); reflexivity.
    + intros -> -> Hty. rewrite Hty, Z.eqb_refl. cbv zeta.
      change (_transfer_seq (e (E ?f st))) with (_transfer_seq (e st)).
      change (current_item_count (E (set_time_last_recv ?t) st)) with (current_item_count st).
      unfold switch_to_idle_state, send_statustext_critical, dm_unlock.
      destruct (Z.eqb_spec (_transfer_seq (e st)) (current_item_count st)) as [Heq|Hne];
        cbn [e E emit W _geofence_locked set_time_last_recv];
        destruct (_geofence_locked (e st));
        (split; [reflexivity|]); (split; [reflexivity|]); (split; [reflexivity|]);
        (split; [intros Hsent | intros Hn]); try sent_now; try assumption;
        try (exfalso; apply Hn; exact Heq);
        exfalso;
        match goal with
        | Hsent : sent ?c ?s0 ?leaf |- _ =>
            let l := eval cbn in (log (w leaf)) in
            let p := log_prefix l constr:(log (w s0)) in
            pose proof (sent_inv c s0 leaf p eq_refl Hsent) as Hin
        end;
        cbn in Hin; repeat destruct Hin as [Hin|Hin]; try discriminate Hin; contradiction.
    + intros -> -> Hty. apply Z.eqb_neq in Hty. rewrite Hty. reflexivity.
    + intros -> ->. reflexivity.
    + intros ->. reflexivity.
Qed.

(** C7.  [send_mission_current(seq)], with [n] the number of mission items:
    if [seq < n], MISSION_CURRENT(seq) is sent; if [seq = 0] and [n = 0],
    nothing is sent; in every other case a critical status text is sent and
    no MISSION_CURRENT.  The members are never changed. *)
Theorem send_mission_current_outcomes (seq : Z) (st : MM) :
  0 <= seq < 2 ^ 16 ->
  let n := count_at MAV_MISSION_TYPE_MISSION st in
  let st' := send_mission_current seq st in
  g st' = g st /\ e st' = e st /\
  (seq < n ->
     log (w st') = logged (mavlink_msg_mission_current_send seq) st :: log (w st)) /\
  (seq = 0 /\ n = 0 -> st' = st) /\
  (~ seq < n -> ~ (seq = 0 /\ n = 0) ->
     log (w st') =
       logged (statustext_critical "ERROR: wp index out of bounds") st :: log (w st)).
Proof.
  intros Hseq n st'. subst st'. unfold send_mission_current.
  rewrite (u16_id seq Hseq). fold n.
  destruct (Z.ltb_spec seq n) as [Hlt | Hge].
  - repeat split; try reflexivity; intros; try lia.
  - destruct (Z.eqb_spec seq 0) as [H0 | H0]; destruct (Z.eqb_spec n 0) as [Hn | Hn];
      cbn [andb].
    all: repeat split; try reflexivity; intros; try lia.
    all: try (exfalso; tauto).
Qed.

(** C8.  In float mode the parser rejects an item whose frame is GLOBAL_INT
    or GLOBAL_RELATIVE_ALT_INT with UNSUPPORTED_FRAME and changes nothing;
    and whatever the mode and the item, the parser returns the members as it
    found them: its assignment of [_int_mode] is reached only when
    [_int_mode] is already set. *)
Theorem parse_never_switches_to_int_mode (wp : mavlink_mission_item_t)
    (mi : mission_item_s) (st : MM) :
  _int_mode (e st) = false ->
  wp_frame wp = MAV_FRAME_GLOBAL_INT \/ wp_frame wp = MAV_FRAME_GLOBAL_RELATIVE_ALT_INT ->
  parse_mavlink_mission_item wp mi st = (MAV_MISSION_UNSUPPORTED_FRAME, mi, st) /\
  (forall wp' mi' st', snd (parse_mavlink_mission_item wp' mi' st') = st').
Proof.
  intros Hf Hfr. split; [|intros; apply parse_keeps_members].
  unfold parse_mavlink_mission_item. rewrite Hf.
  destruct Hfr as [-> | ->]; reflexivity.
Qed.

(** C9.  [update_geofence_count] increments the geofence update counter by
    one (in [uint16_t]) before it calls [dm_write]: the counter in the
    record that is written, and the counter at the moment of the call, are
    already the new one.  When the write fails the counter has advanced, and
    the fence count and the store are unchanged. *)
Theorem update_geofence_count_bumps_before_write (n : Z) (st : MM) :
  let c' := u16 (_geofence_update_counter (g st) + 1) in
  let st' := snd (update_geofence_count n st) in
  let bumped := G (set_geofence_update_counter c') st in
  _geofence_update_counter (g st') = c' /\
  (0 <= _geofence_update_counter (g st) < 2 ^ 16 -> c' <> _geofence_update_counter (g st)) /\
  (0 <= _geofence_update_counter (g st) < 2 ^ 16 - 1 ->
     c' = _geofence_update_counter (g st) + 1) /\
  (exists later : list Entry,
     log (w st') =
       (later ++
        logged (dm_write_call DM_KEY_FENCE_POINTS 0
                  (DmStats {| num_items := n; update_counter := c' |})
                  (negb (dm_fault st))) bumped :: log (w st))%list) /\
  (dm_fault st = true ->
     fst (update_geofence_count n st) = PX4_ERROR /\
     _count (g st') = _count (g st) /\
     dm_store (w st') = dm_store (w st)) /\
  (dm_fault st = false ->
     fst (update_geofence_count n st) = PX4_OK /\
     _count (g st') = <[1%nat := n]> (_count (g st)) /\
     dm_store (w st') !! (DM_KEY_FENCE_POINTS, 0) =
       Some (DmStats {| num_items := n; update_counter := c' |})).
Proof.
  intros c' st' bumped. subst st' bumped.
  unfold update_geofence_count, dm_write.
  change (dm_fault (G _ st)) with (dm_fault st).
  split; [|split; [|split; [|split; [|split]]]].
  - destruct (dm_fault st); cbn. 1: unfold filesystem_error; cbn.
    1: destruct (_ <? _); reflexivity. reflexivity.
  - intros H. subst c'. unfold u16.
    destruct (Z.eq_dec (_geofence_update_counter (g st)) (2^16 - 1)) as [->|Hne].
    + rewrite Z.sub_add, Z.mod_same by lia. lia.
    + rewrite Z.mod_small by lia. lia.
  - intros H. subst c'. unfold u16. rewrite Z.mod_small by lia. reflexivity.
  - destruct (dm_fault st); cbn.
    + unfold filesystem_error; cbn. destruct (_ <? _); cbn.
      * eexists [_]. reflexivity.
      * exists []. reflexivity.
    + exists []. reflexivity.
  - intros ->. cbn. unfold filesystem_error; cbn. destruct (_ <? _); cbn; auto.
  - intros ->. cbn. repeat split. apply lookup_insert_eq.
Qed.

(** C10.  MISSION_SET_CURRENT is never answered by a MISSION_ACK.  When the
    endpoint is not in IDLE or seq is not below the mission count, the
    static members and the store are unchanged and, if the message is
    addressed to the endpoint, exactly one critical status text is sent
    (nothing at all otherwise).  The persisted header and [_current_seq]
    change only when the message is addressed to the endpoint, the endpoint
    is in IDLE and seq is below the mission count; when the write then
    succeeds the header holds the active id, the count and seq. *)
Theorem mission_set_current_never_acks (msg : mavlink_message_t)
    (wpc : mavlink_mission_set_current_t) (st : MM) :
  payload msg = MAVLINK_MSG_ID_MISSION_SET_CURRENT wpc ->
  let st' := handle_message msg st in
  let addressed :=
    CHECK_SYSID_COMPID_MISSION (wsc_target_system wpc) (wsc_target_component wpc) st in
  let n := count_at MAV_MISSION_TYPE_MISSION st in
  let header (s : MM) := dm_store (w s) !! (DM_KEY_MISSION_STATE, 0) in
  (exists new : list Entry, log (w st') = (new ++ log (w st))%list /\
     Forall (fun en => forall wpa, call en <> mavlink_msg_mission_ack_send wpa) new) /\
  (_state (e st) <> MAVLINK_WPM_STATE_IDLE \/ ~ wsc_seq wpc < n ->
     g st' = g st /\ dm_store (w st') = dm_store (w st) /\
     (addressed = true ->
        exists text, log (w st') =
          {| call := statustext_critical text; at_g := g st; at_e := e st' |} :: log (w st)) /\
     (addressed = false -> st' = st)) /\
  (header st' <> header st \/ _current_seq (g st') <> _current_seq (g st) ->
     addressed = true /\ _state (e st) = MAVLINK_WPM_STATE_IDLE /\ wsc_seq wpc < n) /\
  (addressed = true -> _state (e st) = MAVLINK_WPM_STATE_IDLE -> wsc_seq wpc < n ->
   dm_fault st = false ->
     header st' = Some (DmMissionState {| dataman_id := _dataman_id (g st);
                                          count := n;
                                          current_seq := wsc_seq wpc |}) /\
     _current_seq (g st') = wsc_seq wpc /\
     _dataman_id (g st') = _dataman_id (g st)).
Proof.
  intros Hp st' addressed n header. subst st' addressed n header.
  unfold handle_message. rewrite Hp. unfold handle_mission_set_current.
  destruct (CHECK_SYSID_COMPID_MISSION _ _ st) eqn:Hchk.
  2:{ split; [exists []; split; [reflexivity|constructor]|].
      split; [intros _; repeat split; intros; congruence|].
      split; [intros [H|H]; congruence|discriminate]. }
  destruct (state_is MAVLINK_WPM_STATE_IDLE st) eqn:Hs.
  2:{ apply state_is_false in Hs.
      split; [eexists [_]; split; [reflexivity|repeat constructor; discriminate]|].
      split; [intros _; repeat split; [intros _; eexists; reflexivity|discriminate]|].
      split; [intros [H|H]; cbn in H; congruence|intros; contradiction]. }
  apply state_is_true in Hs.
  change (count_at MAV_MISSION_TYPE_MISSION (E _ st)) with (count_at MAV_MISSION_TYPE_MISSION st).
  destruct (Z.ltb_spec (wsc_seq wpc) (count_at MAV_MISSION_TYPE_MISSION st)) as [Hlt|Hge].
  2:{ split; [eexists [_]; split; [reflexivity|repeat constructor; discriminate]|].
      split; [intros _; repeat split; [intros _; eexists; reflexivity|discriminate]|].
      split; [intros [H|H]; cbn in H; congruence|intros; lia]. }
  split; [|split; [intros [H|H]; [congruence|lia]|split; [intros _; auto|]]].
  - unfold update_active_mission, dm_write, filesystem_error.
    change (dm_fault (E _ st)) with (dm_fault st).
    destruct (dm_fault st); cbn.
    + destruct (_ <? _); cbn.
      * eexists [_;_;_]. split; [reflexivity|]. repeat constructor; discriminate.
      * eexists [_;_]. split; [reflexivity|]. repeat constructor; discriminate.
    + destruct (_offboard_mission_pub (e st)); cbn.
      * eexists [_;_]. split; [reflexivity|]. repeat constructor; discriminate.
      * eexists [_;_]. split; [reflexivity|]. repeat constructor; discriminate.
  - intros _ _ _ Hf. rewrite update_active_mission_cases.
    change (dm_fault (E _ st)) with (dm_fault st). rewrite Hf. cbv zeta.
    change (PX4_OK =? PX4_OK) with true. cbv iota. cbn [fst snd].
    destruct (_offboard_mission_pub _); cbn; repeat split; apply lookup_insert_eq.
Qed.

(** ** Addressing *)

Lemma set_int_mode_same (st : MM) : E (set_int_mode (_int_mode (e st))) st = st.
Proof. destruct st as [g0 [] w0]; reflexivity. Qed.

Lemma handle_mission_request_variants (msg : mavlink_message_t)
    (wpr : mavlink_mission_request_t) (st : MM) :
  handle_mission_request msg wpr st =
    handle_mission_request_both msg wpr (E (set_int_mode false) st) /\
  handle_mission_request_int msg wpr st =
    handle_mission_request_both msg wpr (E (set_int_mode true) st).
Proof.
  unfold handle_mission_request, handle_mission_request_int. cbv zeta.
  destruct st as [g0 e0 w0]. destruct e0 as [? ? ? ? ? ? ? im ? ? ? ? ? ? ? ? ? ? ?]. cbn.
  split; destruct im; reflexivity.
Qed.

(** A mission message that is not addressed to this system and component
    (or to the mission planner or to all components of this system) is
    dropped: nothing is sent, stored or changed.  The one exception is that
    the handlers of MISSION_REQUEST(_INT) and MISSION_ITEM(_INT) assign
    [_int_mode] before they look at the addressee.  Messages of any other
    kind are dropped as well. *)
Theorem message_for_another_system_is_dropped (msg : mavlink_message_t) (st : MM) :
  addressed msg st = false ->
  handle_message msg st =
    E (set_int_mode (variant_int_mode (payload msg) (_int_mode (e st)))) st.
Proof.
  unfold addressed, handle_message, target_of. intros H.
  destruct (payload msg) as [wpa|wpc|wprl|wpr|wpr|wpc|wp|wp|wpca|];
    cbn [variant_int_mode]; rewrite ?set_int_mode_same.
  - unfold handle_mission_ack. rewrite H. reflexivity.
  - unfold handle_mission_set_current. rewrite H. reflexivity.
  - unfold handle_mission_request_list. rewrite H. reflexivity.
  - rewrite (proj1 (handle_mission_request_variants msg wpr st)).
    unfold handle_mission_request_both.
    change (CHECK_SYSID_COMPID_MISSION ?a ?b (E _ st)) with (CHECK_SYSID_COMPID_MISSION a b st).
    rewrite H. reflexivity.
  - rewrite (proj2 (handle_mission_request_variants msg wpr st)).
    unfold handle_mission_request_both.
    change (CHECK_SYSID_COMPID_MISSION ?a ?b (E _ st)) with (CHECK_SYSID_COMPID_MISSION a b st).
    rewrite H. reflexivity.
  - unfold handle_mission_count. rewrite H. reflexivity.
  - rewrite (proj1 (handle_mission_item_variants msg wp st)).
    unfold handle_mission_item_both.
    change (CHECK_SYSID_COMPID_MISSION ?a ?b (E _ st)) with (CHECK_SYSID_COMPID_MISSION a b st).
    rewrite H. reflexivity.
  - rewrite (proj2 (handle_mission_item_variants msg wp st)).
    unfold handle_mission_item_both.
    change (CHECK_SYSID_COMPID_MISSION ?a ?b (E _ st)) with (CHECK_SYSID_COMPID_MISSION a b st).
    rewrite H. reflexivity.
  - unfold handle_mission_clear_all. rewrite H. reflexivity.
  - reflexivity.
Qed.

(** ** What is written to dataman *)

Lemma writes_only_refl (K : dm_item_t * Z -> Prop) (st : MM) : writes_only K st st.
Proof. intros k _. reflexivity. Qed.

Lemma writes_only_same (K : dm_item_t * Z -> Prop) (st s1 s2 : MM) :
  dm_store (w s2) = dm_store (w s1) -> writes_only K st s1 -> writes_only K st s2.
Proof. intros Hs H k Hk. rewrite Hs. apply H, Hk. Qed.

Lemma writes_only_trans (K : dm_item_t * Z -> Prop) (st s1 s2 : MM) :
  writes_only K st s1 -> writes_only K s1 s2 -> writes_only K st s2.
Proof. intros H1 H2 k Hk. rewrite (H2 k Hk). apply H1, Hk. Qed.

Lemma writes_only_weaken (K K' : dm_item_t * Z -> Prop) (st s1 : MM) :
  (forall k, K k -> K' k) -> writes_only K st s1 -> writes_only K' st s1.
Proof. intros HK H k Hk. apply H. intros Hc. apply Hk, HK, Hc. Qed.

Lemma writes_only_if (K : dm_item_t * Z -> Prop) (b : bool) (st s1 s2 : MM) :
  writes_only K st s1 -> writes_only K st s2 -> writes_only K st (if b then s1 else s2).
Proof. destruct b; auto. Qed.

Lemma writes_only_dm_write (K : dm_item_t * Z -> Prop) (item : dm_item_t) (i : Z)
    (v : dm_value) (st s1 : MM) :
  K (item, i) -> writes_only K st s1 -> writes_only K st (snd (dm_write item i v s1)).
Proof.
  intros HK H k Hk. unfold dm_write. destruct (dm_fault s1); cbn.
  - apply H, Hk.
  - rewrite lookup_insert_ne; [apply H, Hk|]. intros <-. apply Hk, HK.
Qed.

Lemma writes_only_emit K (c : Event) (st s1 : MM) :
  writes_only K st s1 -> writes_only K st (emit c s1).
Proof. intros H. exact H. Qed.

Lemma writes_only_E K (f : Endpoint -> Endpoint) (st s1 : MM) :
  writes_only K st s1 -> writes_only K st (E f s1).
Proof. intros H. exact H. Qed.

Lemma writes_only_G K (f : Globals -> Globals) (st s1 : MM) :
  writes_only K st s1 -> writes_only K st (G f s1).
Proof. intros H. exact H. Qed.

Lemma writes_only_dm_called K (st s1 : MM) :
  writes_only K st s1 -> writes_only K st (dm_called s1).
Proof. intros H. exact H. Qed.

Lemma writes_only_dm_read K (item : dm_item_t) (i : Z) (st s1 : MM) :
  writes_only K st s1 -> writes_only K st (snd (dm_read item i s1)).
Proof. intros H. exact H. Qed.

Lemma writes_only_dm_lock K (item : dm_item_t) (st s1 : MM) :
  writes_only K st s1 -> writes_only K st (snd (dm_lock item s1)).
Proof. intros H. unfold dm_lock. destruct (dm_fault s1); exact H. Qed.

Lemma writes_only_dm_unlock K (item : dm_item_t) (st s1 : MM) :
  writes_only K st s1 -> writes_only K st (dm_unlock item s1).
Proof. intros H. exact H. Qed.

Lemma writes_only_orb_copy K (st s1 : MM) :
  writes_only K st s1 -> writes_only K st (W (set_mission_result None) s1).
Proof. intros H. exact H. Qed.

Create HintDb writes discriminated.

#[local] Hint Resolve writes_only_refl writes_only_if writes_only_emit writes_only_E
  writes_only_G writes_only_dm_called writes_only_dm_read writes_only_dm_lock
  writes_only_dm_unlock writes_only_orb_copy : writes.
#[local] Hint Extern 2 (writes_only _ _ (snd (dm_write _ _ _ _))) =>
  apply writes_only_dm_write;
  [ first [ assumption
          | cbv [bookkeeping_slot]; solve [auto 6]
          | solve [auto 6] ]
  | ] : writes.

Ltac stored := solve [auto 40 with writes].

Lemma writes_only_send_statustext_critical K (text : string) (st s1 : MM) :
  writes_only K st s1 -> writes_only K st (send_statustext_critical text s1).
Proof. intros H. unfold send_statustext_critical. stored. Qed.
#[local] Hint Resolve writes_only_send_statustext_critical : writes.

Lemma writes_only_filesystem_error K (text : string) (st s1 : MM) :
  writes_only K st s1 -> writes_only K st (filesystem_error text s1).
Proof. intros H. unfold filesystem_error. cbv zeta. stored. Qed.
#[local] Hint Resolve writes_only_filesystem_error : writes.

Lemma writes_only_send_mission_ack K (a b c : Z) (st s1 : MM) :
  writes_only K st s1 -> writes_only K st (send_mission_ack a b c s1).
Proof. intros H. unfold send_mission_ack. stored. Qed.
#[local] Hint Resolve writes_only_send_mission_ack : writes.

Lemma writes_only_send_mission_current K (seq : Z) (st s1 : MM) :
  writes_only K st s1 -> writes_only K st (send_mission_current seq s1).
Proof. intros H. unfold send_mission_current. cbv zeta. stored. Qed.
#[local] Hint Resolve writes_only_send_mission_current : writes.

Lemma writes_only_send_mission_count K (a b c d : Z) (st s1 : MM) :
  writes_only K st s1 -> writes_only K st (send_mission_count a b c d s1).
Proof. intros H. unfold send_mission_count. cbv zeta. stored. Qed.
#[local] Hint Resolve writes_only_send_mission_count : writes.

Lemma writes_only_send_mission_request K (a b c : Z) (st s1 : MM) :
  writes_only K st s1 -> writes_only K st (send_mission_request a b c s1).
Proof. intros H. unfold send_mission_request. cbv zeta. stored. Qed.
#[local] Hint Resolve writes_only_send_mission_request : writes.

Lemma writes_only_send_mission_item_reached K (seq : Z) (st s1 : MM) :
  writes_only K st s1 -> writes_only K st (send_mission_item_reached seq s1).
Proof. intros H. unfold send_mission_item_reached. stored. Qed.
#[local] Hint Resolve writes_only_send_mission_item_reached : writes.

Lemma writes_only_read_mission_item K (seq : Z) (st s1 : MM) :
  writes_only K st s1 -> writes_only K st (snd (read_mission_item seq s1)).
Proof.
  intros H. unfold read_mission_item. cbv zeta.
  repeat split_bool; cbn [snd].
  1-3: match goal with
       | |- context [fst (dm_read ?a ?b ?c)] => destruct (fst (dm_read a b c)) as [[]|]
       end; cbn [snd]; stored.
  stored.
Qed.
#[local] Hint Resolve writes_only_read_mission_item : writes.

Lemma writes_only_send_mission_item K (a b c : Z) (st s1 : MM) :
  writes_only K st s1 -> writes_only K st (send_mission_item a b c s1).
Proof. intros H. unfold send_mission_item. cbv zeta. repeat split_bool; stored. Qed.
#[local] Hint Resolve writes_only_send_mission_item : writes.

Lemma writes_only_switch_to_idle_state K (st s1 : MM) :
  writes_only K st s1 -> writes_only K st (switch_to_idle_state s1).
Proof. intros H. unfold switch_to_idle_state. cbv zeta. stored. Qed.
#[local] Hint Resolve writes_only_switch_to_idle_state : writes.

Lemma writes_only_send_progress K (now : Z) (st s1 : MM) :
  writes_only K st s1 -> writes_only K st (send_progress now s1).
Proof.
  intros H. unfold send_progress, rate_limiter_check. cbv zeta.
  destruct (mission_result (w s1)); repeat split_bool; cbn [fst snd]; stored.
Qed.
#[local] Hint Resolve writes_only_send_progress : writes.

Lemma writes_only_load_geofence_stats K (st s1 : MM) :
  writes_only K st s1 -> writes_only K st (load_geofence_stats s1).
Proof.
  intros H. unfold load_geofence_stats. cbv zeta.
  destruct (fst (dm_read _ _ s1)) as [[]|]; stored.
Qed.
#[local] Hint Resolve writes_only_load_geofence_stats : writes.

Lemma writes_only_load_safepoint_stats K (st s1 : MM) :
  writes_only K st s1 -> writes_only K st (load_safepoint_stats s1).
Proof.
  intros H. unfold load_safepoint_stats. cbv zeta.
  destruct (fst (dm_read _ _ s1)) as [[]|]; stored.
Qed.
#[local] Hint Resolve writes_only_load_safepoint_stats : writes.

Lemma writes_only_update_active_mission K (a b c : Z) (st s1 : MM) :
  K (DM_KEY_MISSION_STATE, 0) ->
  writes_only K st s1 -> writes_only K st (snd (update_active_mission a b c s1)).
Proof.
  intros HK H. unfold update_active_mission. cbv zeta.
  destruct (fst (dm_write _ _ _ s1)); cbn [snd]; stored.
Qed.

Lemma writes_only_update_geofence_count K (n : Z) (st s1 : MM) :
  K (DM_KEY_FENCE_POINTS, 0) ->
  writes_only K st s1 -> writes_only K st (snd (update_geofence_count n s1)).
Proof.
  intros HK H. unfold update_geofence_count. cbv zeta.
  destruct (fst (dm_write _ _ _ _)); cbn [snd]; stored.
Qed.

Lemma writes_only_update_safepoint_count K (n : Z) (st s1 : MM) :
  K (DM_KEY_SAFE_POINTS, 0) ->
  writes_only K st s1 -> writes_only K st (snd (update_safepoint_count n s1)).
Proof.
  intros HK H. unfold update_safepoint_count. cbv zeta.
  destruct (fst (dm_write _ _ _ _)); cbn [snd]; stored.
Qed.

#[local] Hint Extern 2 (writes_only _ _ (snd (update_active_mission _ _ _ _))) =>
  apply writes_only_update_active_mission;
  [ first [assumption | cbv [bookkeeping_slot]; solve [auto 6] | solve [auto 6]] | ] : writes.
#[local] Hint Extern 2 (writes_only _ _ (snd (update_geofence_count _ _))) =>
  apply writes_only_update_geofence_count;
  [ first [assumption | cbv [bookkeeping_slot]; solve [auto 6] | solve [auto 6]] | ] : writes.
#[local] Hint Extern 2 (writes_only _ _ (snd (update_safepoint_count _ _))) =>
  apply writes_only_update_safepoint_count;
  [ first [assumption | cbv [bookkeeping_slot]; solve [auto 6] | solve [auto 6]] | ] : writes.

Lemma handle_mission_ack_writes (msg : mavlink_message_t) (wpa : mavlink_mission_ack_t)
    (st : MM) :
  writes_only bookkeeping_slot st (handle_mission_ack msg wpa st).
Proof. unfold handle_mission_ack. cbv zeta. repeat split_bool; stored. Qed.

Lemma handle_mission_set_current_writes (msg : mavlink_message_t)
    (wpc : mavlink_mission_set_current_t) (st : MM) :
  writes_only bookkeeping_slot st (handle_mission_set_current msg wpc st).
Proof. unfold handle_mission_set_current. cbv zeta. repeat split_bool; stored. Qed.

Lemma handle_mission_request_list_writes (msg : mavlink_message_t)
    (wprl : mavlink_mission_request_list_t) (st : MM) :
  writes_only bookkeeping_slot st (handle_mission_request_list msg wprl st).
Proof. unfold handle_mission_request_list. cbv zeta. repeat split_bool; stored. Qed.

Lemma handle_mission_request_both_writes (msg : mavlink_message_t)
    (wpr : mavlink_mission_request_t) (st s0 : MM) :
  writes_only bookkeeping_slot s0 st ->
  writes_only bookkeeping_slot s0 (handle_mission_request_both msg wpr st).
Proof.
  intros H. unfold handle_mission_request_both, reject_request. cbv zeta.
  repeat split_bool; stored.
Qed.

Lemma handle_mission_count_writes (msg : mavlink_message_t)
    (wpc : mavlink_mission_count_t) (st : MM) :
  writes_only bookkeeping_slot st (handle_mission_count msg wpc st).
Proof. unfold handle_mission_count. cbv zeta. repeat split_bool; stored. Qed.

Lemma handle_mission_clear_all_writes (msg : mavlink_message_t)
    (wpca : mavlink_mission_clear_all_t) (st : MM) :
  writes_only bookkeeping_slot st (handle_mission_clear_all msg wpca st).
Proof.
  unfold handle_mission_clear_all.
  destruct (CHECK_SYSID_COMPID_MISSION _ _ _); [|stored].
  destruct (state_is _ _); [|stored].
  cbv zeta.
  match goal with
  | |- writes_only _ _ (if fst ?r =? _ then _ else _) =>
      assert (H : writes_only bookkeeping_slot st (snd r)); [|destruct (fst r =? PX4_OK); stored]
  end.
  repeat split_bool; cbn [snd]; stored.
Qed.

Lemma store_mission_item_writes (K : dm_item_t * Z -> Prop) (wp : mavlink_mission_item_t)
    (mi : mission_item_s) (st s1 : MM) :
  K (DM_KEY_FENCE_POINTS, 0) ->
  K (item_slot (wp_seq wp) s1) ->
  writes_only K st s1 -> writes_only K st (snd (store_mission_item wp mi s1)).
Proof.
  intros HK Hslot H. unfold store_mission_item, item_slot in *. cbv zeta.
  destruct (_mission_type (e s1) =? MAV_MISSION_TYPE_MISSION).
  { repeat split_bool; cbn [fst snd]; stored. }
  destruct (_mission_type (e s1) =? MAV_MISSION_TYPE_FENCE).
  { repeat split_bool; cbn [fst snd]; stored. }
  repeat split_bool; cbn [fst snd]; stored.
Qed.

Lemma commit_transfer_writes (K : dm_item_t * Z -> Prop) (st s1 : MM) :
  (forall k, bookkeeping_slot k -> K k) ->
  writes_only K st s1 -> writes_only K st (snd (commit_transfer s1)).
Proof.
  intros HK H. unfold commit_transfer. cbv zeta.
  pose proof (HK _ (or_introl eq_refl)).
  pose proof (HK _ (or_intror (or_introl eq_refl))).
  pose proof (HK _ (or_intror (or_intror eq_refl))).
  repeat split_bool; cbn [fst snd]; stored.
Qed.

(** An item is written to its own slot, and nowhere else. *)
Lemma handle_mission_item_both_writes (msg : mavlink_message_t)
    (wp : mavlink_mission_item_t) (st : MM) :
  writes_only (fun k => bookkeeping_slot k \/ k = item_slot (wp_seq wp) st) st
    (handle_mission_item_both msg wp st).
Proof.
  set (K := fun k => bookkeeping_slot k \/ k = item_slot (wp_seq wp) st).
  assert (HK : forall k, bookkeeping_slot k -> K k) by (intros k Hk; left; exact Hk).
  assert (HF : K (DM_KEY_FENCE_POINTS, 0)) by (apply HK; right; left; reflexivity).
  unfold handle_mission_item_both. cbv zeta. rewrite parse_keeps_members.
  destruct (CHECK_SYSID_COMPID_MISSION _ _ _); [|stored].
  destruct (negb (wp_mission_type wp =? _)); [stored|].
  destruct (state_is MAVLINK_WPM_STATE_GETLIST st); [|repeat split_bool; stored].
  destruct (negb (wp_seq wp =? _)); [stored|].
  destruct (negb (_ =? PX4_OK)); [stored|].
  match goal with
  | |- context [store_mission_item ?a ?b ?c] =>
      assert (Hs : writes_only K st (snd (store_mission_item a b c)));
      [ apply store_mission_item_writes; [exact HF | right; reflexivity | stored]
      | generalize dependent (store_mission_item a b c) ]
  end.
  intros sr Hs.
  destruct (fst (fst sr) || snd (fst sr)); [repeat split_bool; stored|].
  match goal with
  | |- context [commit_transfer ?a] =>
      assert (Hc : writes_only K st (snd (commit_transfer a)));
      [ apply commit_transfer_writes; [exact HK|]; repeat split_bool; stored
      | generalize dependent (commit_transfer a) ]
  end.
  intros cr Hc. repeat split_bool; stored.
Qed.

(** What the handlers of everything but items write. *)
Lemma handlers_write_bookkeeping (msg : mavlink_message_t) (st : MM) :
  (forall wp, payload msg <> MAVLINK_MSG_ID_MISSION_ITEM wp) ->
  (forall wp, payload msg <> MAVLINK_MSG_ID_MISSION_ITEM_INT wp) ->
  writes_only bookkeeping_slot st (handle_message msg st).
Proof.
  intros N1 N2. unfold handle_message.
  destruct (payload msg) as [wpa|wpc|wprl|wpr|wpr|wpc|wp|wp|wpca|].
  - apply handle_mission_ack_writes.
  - apply handle_mission_set_current_writes.
  - apply handle_mission_request_list_writes.
  - rewrite (proj1 (handle_mission_request_variants msg wpr st)).
    apply handle_mission_request_both_writes. stored.
  - rewrite (proj2 (handle_mission_request_variants msg wpr st)).
    apply handle_mission_request_both_writes. stored.
  - apply handle_mission_count_writes.
  - exfalso. apply (N1 wp). reflexivity.
  - exfalso. apply (N2 wp). reflexivity.
  - apply handle_mission_clear_all_writes.
  - stored.
Qed.

Lemma send_writes_nothing (now : Z) (st : MM) :
  writes_only (fun _ => False) st (send now st).
Proof. unfold send. cbv zeta. repeat split_bool; stored. Qed.

Lemma handle_mission_item_both_unexpected (msg : mavlink_message_t)
    (wp : mavlink_mission_item_t) (st : MM) :
  _state (e st) <> MAVLINK_WPM_STATE_GETLIST \/ wp_seq wp <> _transfer_seq (e st) ->
  writes_only (fun _ => False) st (handle_mission_item_both msg wp st).
Proof.
  intros H. unfold handle_mission_item_both. cbv zeta.
  destruct (CHECK_SYSID_COMPID_MISSION _ _ _); [|stored].
  destruct (negb (wp_mission_type wp =? _)); [stored|].
  destruct (state_is MAVLINK_WPM_STATE_GETLIST st) eqn:Hs; [|repeat split_bool; stored].
  apply state_is_true in Hs.
  destruct (Z.eqb_spec (wp_seq wp)
              (_transfer_seq (e (E (set_time_last_recv (hrt_absolute_time st)) st))))
    as [Heq|Hne]; cbn [negb]; [|stored].
  exfalso. destruct H as [H|H]; [exact (H Hs) | exact (H Heq)].
Qed.

Lemma handle_mission_item_both_slots (msg : mavlink_message_t)
    (wp : mavlink_mission_item_t) (b : bool) (K : dm_item_t * Z -> Prop) (st : MM) :
  (forall k, bookkeeping_slot k -> K k) ->
  (_state (e st) = MAVLINK_WPM_STATE_GETLIST -> wp_seq wp = _transfer_seq (e st) ->
   K (item_slot (wp_seq wp) st)) ->
  writes_only K st (handle_mission_item_both msg wp (E (set_int_mode b) st)).
Proof.
  intros HK Hslot.
  apply (writes_only_trans _ _ (E (set_int_mode b) st)); [stored|].
  assert (Hdec : _state (e st) = MAVLINK_WPM_STATE_GETLIST \/
                 _state (e st) <> MAVLINK_WPM_STATE_GETLIST).
  { destruct (_state (e st)); [right; discriminate | right; discriminate | left; reflexivity]. }
  destruct Hdec as [Hs|Hs].
  - destruct (Z.eq_dec (wp_seq wp) (_transfer_seq (e st))) as [Hq|Hq].
    + eapply writes_only_weaken; [|apply handle_mission_item_both_writes].
      intros k [Hk | ->]; [apply HK, Hk | apply (Hslot Hs Hq)].
    + eapply writes_only_weaken; [|apply handle_mission_item_both_unexpected; right; exact Hq].
      intros k [].
  - eapply writes_only_weaken; [|apply handle_mission_item_both_unexpected; left; exact Hs].
    intros k [].
Qed.

Lemma step_writes_slots (i : Input) (st : MM) :
  writes_only (slots_of_input i st) st (step i st).
Proof.
  destruct i as [msg | now]; cbn [step slots_of_input]; [|apply send_writes_nothing].
  destruct (payload msg) as [wpa|wpc|wprl|wpr|wpr|wpc|wp|wp|wpca|] eqn:Hp.
  7:{ unfold handle_message. rewrite Hp.
      rewrite (proj1 (handle_mission_item_variants msg wp st)).
      apply handle_mission_item_both_slots; [intros k Hk; left; exact Hk|].
      intros Hs Hq. right. exists wp. auto. }
  7:{ unfold handle_message. rewrite Hp.
      rewrite (proj2 (handle_mission_item_variants msg wp st)).
      apply handle_mission_item_both_slots; [intros k Hk; left; exact Hk|].
      intros Hs Hq. right. exists wp. auto. }
  all: eapply writes_only_weaken;
    [|apply handlers_write_bookkeeping; rewrite Hp; discriminate].
  all: intros k Hk; left; exact Hk.
Qed.


(** Whatever the input, the endpoint writes to dataman only the slots of
    the mission header and of the fence and rally stats and, when the input
    is the item that an upload is waiting for, the slot of that item: in
    the transfer buffer for a mission, at [seq + 1] of the fence or rally
    namespace otherwise.  A tick writes nothing.  In particular
    MISSION_CLEAR_ALL leaves every stored item in place. *)
Theorem dataman_writes_are_confined (i : Input) (st : MM) :
  writes_only (slots_of_input i st) st (step i st).
Proof. apply step_writes_slots. Qed.

(** The items of the active mission are out of reach of an upload: as long
    as an upload of a mission writes to the inactive buffer (which is how
    MISSION_COUNT sets it up), no input changes a slot of the active
    buffer. *)
Theorem active_mission_survives_upload (i : Input) (st : MM) (index : Z) :
  (_state (e st) = MAVLINK_WPM_STATE_GETLIST ->
   _mission_type (e st) = MAV_MISSION_TYPE_MISSION ->
   _transfer_dataman_id (e st) = inactive_dataman_id st) ->
  dm_store (w (step i st)) !! (DM_KEY_WAYPOINTS_OFFBOARD (_dataman_id (g st)), index) =
  dm_store (w st) !! (DM_KEY_WAYPOINTS_OFFBOARD (_dataman_id (g st)), index).
Proof.
  intros Hinv. apply (step_writes_slots i st).
  destruct i as [msg | now]; cbn [slots_of_input]; [|tauto].
  intros [[Hk | [Hk | Hk]] | (wp & _ & Hs & _ & Hk)];
    [unfold DM_KEY_WAYPOINTS_OFFBOARD in Hk; destruct (_ =? 0); discriminate Hk..|].
  revert Hk. unfold item_slot.
  destruct (Z.eqb_spec (_mission_type (e st)) MAV_MISSION_TYPE_MISSION) as [Hm|Hm].
  - rewrite (Hinv Hs Hm). intros Hk. injection Hk as Hk _. revert Hk. apply not_eq_sym.
    apply inactive_buffer_is_not_active.
  - unfold DM_KEY_WAYPOINTS_OFFBOARD. destruct (_ =? MAV_MISSION_TYPE_FENCE);
      destruct (_ =? 0); discriminate.
Qed.

(** ** Starting a transfer *)

Lemma state_is_idle (st : MM) :
  _state (e st) = MAVLINK_WPM_STATE_IDLE ->
  state_is MAVLINK_WPM_STATE_IDLE st = true /\
  state_is MAVLINK_WPM_STATE_GETLIST st = false /\
  state_is MAVLINK_WPM_STATE_SENDLIST st = false.
Proof. intros H. unfold state_is. rewrite H. auto. Qed.

Lemma state_is_sendlist (st : MM) :
  _state (e st) = MAVLINK_WPM_STATE_SENDLIST ->
  state_is MAVLINK_WPM_STATE_SENDLIST st = true /\
  state_is MAVLINK_WPM_STATE_IDLE st = false /\
  state_is MAVLINK_WPM_STATE_GETLIST st = false.
Proof. intros H. unfold state_is. rewrite H. auto. Qed.

#[local] Instance transfer_view_lenient : Lenient transfer_view.
Proof. split; intros; try reflexivity; exact I. Qed.

#[local] Instance transfer_view_permissive : Permissive transfer_view.
Proof. split; intros; try reflexivity; exact I. Qed.

Lemma keeps_dm_lock {V : View} {HL : Lenient V} (item : dm_item_t) (st s1 : MM) :
  on_lock V = false -> keeps V st s1 -> keeps V st (snd (dm_lock item s1)).
Proof.
  intros Hl H. unfold dm_lock. destruct (dm_fault s1); cbn [snd].
  - keep.
  - apply keeps_emit; [exact I|].
    destruct H as (H1 & H2 & H3 & H4). repeat split; cbn; try assumption. congruence.
Qed.
#[local] Hint Extern 2 (keeps _ _ (snd (dm_lock _ _))) =>
  apply keeps_dm_lock; [reflexivity|] : keeps.

Lemma keeps_transfer (st st' : MM) :
  keeps transfer_view st st' ->
  _state (e st') = _state (e st) /\
  _mission_type (e st') = _mission_type (e st) /\
  _transfer_count (e st') = _transfer_count (e st) /\
  _transfer_seq (e st') = _transfer_seq (e st) /\
  _transfer_partner_sysid (e st') = _transfer_partner_sysid (e st) /\
  _transfer_partner_compid (e st') = _transfer_partner_compid (e st) /\
  _transfer_in_progress (g st') = _transfer_in_progress (g st).
Proof.
  intros (H1 & H2 & _). cbn in H1, H2. injection H1 as -> -> -> -> -> ->.
  rewrite H2. repeat split.
Qed.

(** Admission of an upload.  A MISSION_COUNT that is addressed to the
    endpoint and arrives in IDLE starts an upload (GETLIST) exactly when no
    transfer is in progress, the count is not above the capacity of the
    mission type and the count is not zero; the sender becomes the partner
    and the cursor starts at 0.  Otherwise the endpoint stays in IDLE,
    leaves [_transfer_in_progress] as it found it, and the newest call is a
    MISSION_ACK: ERROR if a transfer was in progress, NO_SPACE if the
    count is above the capacity, ACCEPTED if the count is zero.  That ACK
    goes to the partner of the previous transfer, not to the sender of the
    MISSION_COUNT. *)
Theorem upload_admission (msg : mavlink_message_t) (wpc : mavlink_mission_count_t) (st : MM) :
  CHECK_SYSID_COMPID_MISSION (wpc_target_system wpc) (wpc_target_component wpc) st = true ->
  _state (e st) = MAVLINK_WPM_STATE_IDLE ->
  let st' := handle_mission_count msg wpc st in
  let max := current_max_item_count (E (set_mission_type (wpc_mission_type wpc)) st) in
  let admitted := negb (_transfer_in_progress (g st)) && (wpc_count wpc <=? max) &&
                  negb (wpc_count wpc =? 0) in
  if admitted then
    _state (e st') = MAVLINK_WPM_STATE_GETLIST /\
    _transfer_in_progress (g st') = true /\
    _mission_type (e st') = wpc_mission_type wpc /\
    _transfer_count (e st') = wpc_count wpc /\
    _transfer_seq (e st') = 0 /\
    _transfer_partner_sysid (e st') = sysid msg /\
    _transfer_partner_compid (e st') = compid msg
  else
    _state (e st') = MAVLINK_WPM_STATE_IDLE /\
    _transfer_in_progress (g st') = _transfer_in_progress (g st) /\
    exists en, hd_error (log (w st')) = Some en /\
      call en = mavlink_msg_mission_ack_send
                  {| wpa_target_system := u8 (_transfer_partner_sysid (e st));
                     wpa_target_component := u8 (_transfer_partner_compid (e st));
                     wpa_type := if _transfer_in_progress (g st) then MAV_MISSION_ERROR
                                 else if max <? wpc_count wpc then MAV_MISSION_NO_SPACE
                                 else MAV_MISSION_ACCEPTED;
                     wpa_mission_type :=
                       u8 (if _transfer_in_progress (g st) then _mission_type (e st)
                           else wpc_mission_type wpc) |}.
Proof.
  intros Hc Hs. cbv zeta. unfold handle_mission_count. rewrite Hc.
  destruct (state_is_idle st Hs) as (-> & _ & _).
  cbv zeta.
  change (_transfer_in_progress (g (E ?f st))) with (_transfer_in_progress (g st)).
  destruct (_transfer_in_progress (g st)) eqn:Htip; cbn [negb andb].
  { cbn. rewrite Hs, Htip. repeat split. eexists. split; reflexivity. }
  change (current_max_item_count (E (set_mission_type ?t) (G ?f (E ?f' st))))
    with (current_max_item_count (E (set_mission_type t) st)).
  rewrite Z.leb_antisym.
  destruct (_ <? wpc_count wpc) eqn:Hmax; cbn [negb andb].
  { cbn. rewrite Hs. repeat split. eexists. split; reflexivity. }
  set (b := E (set_mission_type (wpc_mission_type wpc))
              (G (set_transfer_in_progress true)
                 (E (set_time_last_recv (hrt_absolute_time st)) st))).
  destruct (wpc_count wpc =? 0) eqn:Hz; cbn [negb].
  - match goal with
    | |- _state (e (G _ (send_mission_ack _ _ _ ?s))) = _ /\ _ =>
        assert (Hk : keeps transfer_view b s) by (repeat split_bool; keep);
        generalize dependent s
    end.
    intros s Hk. destruct (keeps_transfer _ _ Hk) as (K1 & K2 & _ & _ & K5 & K6 & _).
    cbn in K1, K2, K5, K6.
    split; [cbn; congruence|]. split; [reflexivity|].
    eexists. split; [reflexivity|]. cbn. rewrite K2, K5, K6. reflexivity.
  - match goal with
    | |- _state (e (send_mission_request _ _ _ ?s)) = _ /\ _ =>
        set (b2 := s)
    end.
    assert (Hk : keeps transfer_view
                   (E (set_transfer_count (wpc_count wpc))
                      (E (set_transfer_partner_compid (compid msg))
                         (E (set_transfer_partner_sysid (sysid msg))
                            (E (set_transfer_seq 0)
                               (E (set_state MAVLINK_WPM_STATE_GETLIST) b)))))
                   (send_mission_request (_transfer_partner_sysid (e b2))
                      (_transfer_partner_compid (e b2)) (_transfer_seq (e b2)) b2)).
    { subst b2. repeat split_bool; keep. }
    destruct (keeps_transfer _ _ Hk) as (K1 & K2 & K3 & K4 & K5 & K6 & K7).
    cbn in K1, K2, K3, K4, K5, K6, K7. auto 10.
Qed.

(** A MISSION_COUNT with count 0 clears the mission.  It is acknowledged
    with ACCEPTED whether or not the new header could be written: when the
    write succeeds the count is 0, the active buffer is the other one and
    the header is persisted; when the write fails nothing has changed, and
    the answer is ACCEPTED all the same. *)
Theorem empty_mission_count_clears (msg : mavlink_message_t)
    (wpc : mavlink_mission_count_t) (st : MM) :
  CHECK_SYSID_COMPID_MISSION (wpc_target_system wpc) (wpc_target_component wpc) st = true ->
  _state (e st) = MAVLINK_WPM_STATE_IDLE ->
  _transfer_in_progress (g st) = false ->
  wpc_mission_type wpc = MAV_MISSION_TYPE_MISSION ->
  wpc_count wpc = 0 ->
  0 <= current_max_item_count (E (set_mission_type MAV_MISSION_TYPE_MISSION) st) ->
  (0 < length (_count (g st)))%nat ->
  let st' := handle_mission_count msg wpc st in
  let hdr := {| dataman_id := inactive_dataman_id st; count := 0; current_seq := 0 |} in
  (exists en, hd_error (log (w st')) = Some en /\
     call en = mavlink_msg_mission_ack_send
                 {| wpa_target_system := u8 (_transfer_partner_sysid (e st));
                    wpa_target_component := u8 (_transfer_partner_compid (e st));
                    wpa_type := MAV_MISSION_ACCEPTED;
                    wpa_mission_type := MAV_MISSION_TYPE_MISSION |}) /\
  (dm_fault st = false ->
     count_at MAV_MISSION_TYPE_MISSION st' = 0 /\
     _dataman_id (g st') = inactive_dataman_id st /\
     _current_seq (g st') = 0 /\
     dm_store (w st') !! (DM_KEY_MISSION_STATE, 0) = Some (DmMissionState hdr)) /\
  (dm_fault st = true ->
     g st' = g st /\ dm_store (w st') = dm_store (w st)).
Proof.
  intros Hc Hs Htip Hty Hn Hmax Hlen. cbv zeta. unfold handle_mission_count. rewrite Hc.
  destruct (state_is_idle st Hs) as (-> & _ & _).
  cbv zeta.
  change (_transfer_in_progress (g (E ?f st))) with (_transfer_in_progress (g st)).
  rewrite Htip, Hty, Hn.
  change (current_max_item_count (E (set_mission_type ?t) (G ?f (E ?f' st))))
    with (current_max_item_count (E (set_mission_type t) st)).
  destruct (Z.ltb_spec (current_max_item_count (E (set_mission_type MAV_MISSION_TYPE_MISSION) st)) 0)
    as [Hlt|_]; [lia|].
  cbn [Z.eqb MAV_MISSION_TYPE_MISSION _mission_type e E set_mission_type].
  rewrite update_active_mission_cases. cbv zeta.
  change (dm_fault (E ?f (G ?f' (E ?f'' st)))) with (dm_fault st).
  unfold inactive_dataman_id.
  destruct (dm_fault st) eqn:Hf; cbn [snd].
  - split; [|split; [discriminate|]].
    + unfold filesystem_error. cbv zeta. destruct (_ <? FILESYSTEM_ERRCOUNT_NOTIFY_LIMIT);
        eexists; (split; [reflexivity|]); reflexivity.
    + intros _. unfold filesystem_error. cbv zeta.
      destruct (_ <? FILESYSTEM_ERRCOUNT_NOTIFY_LIMIT); cbn;
        (split; [|reflexivity]);
        destruct st as [[] e0 w0]; cbn in *; subst; reflexivity.
  - split; [|split; [|discriminate]].
    + destruct (_offboard_mission_pub _); eexists; (split; [reflexivity|]); reflexivity.
    + intros _. destruct (_offboard_mission_pub _); cbn.
      all: split; [|split; [reflexivity|split; [reflexivity|apply lookup_insert_eq]]].
      all: unfold count_at; cbn; apply list_lookup_total_insert_eq; exact Hlen.
Qed.


(** What an admitted MISSION_COUNT does, step by step. *)
Lemma handle_mission_count_admitted (msg : mavlink_message_t)
    (wpc : mavlink_mission_count_t) (st : MM) :
  CHECK_SYSID_COMPID_MISSION (wpc_target_system wpc) (wpc_target_component wpc) st = true ->
  _state (e st) = MAVLINK_WPM_STATE_IDLE ->
  _transfer_in_progress (g st) = false ->
  0 < wpc_count wpc <= current_max_item_count (E (set_mission_type (wpc_mission_type wpc)) st) ->
  let s0 :=
    E (set_transfer_current_seq (-1))
      (E (set_transfer_dataman_id (inactive_dataman_id st))
         (E (set_transfer_count (wpc_count wpc))
            (E (set_transfer_partner_compid (compid msg))
               (E (set_transfer_partner_sysid (sysid msg))
                  (E (set_transfer_seq 0)
                     (E (set_state MAVLINK_WPM_STATE_GETLIST)
                        (E (set_mission_type (wpc_mission_type wpc))
                           (G (set_transfer_in_progress true)
                              (E (set_time_last_recv (hrt_absolute_time st)) st))))))))) in
  let s1 :=
    if wpc_mission_type wpc =? MAV_MISSION_TYPE_FENCE then
      if dm_fault st
      then emit (dm_lock_call DM_KEY_FENCE_POINTS false) (dm_called s0)
      else E (set_geofence_locked true)
             (emit (dm_lock_call DM_KEY_FENCE_POINTS true)
                (W (set_fence_lock true) (dm_called s0)))
    else s0 in
  let wpr := {| wpr_target_system := u8 (sysid msg);
                wpr_target_component := u8 (compid msg);
                wpr_seq := 0;
                wpr_mission_type := u8 (wpc_mission_type wpc) |} in
  handle_mission_count msg wpc st =
    emit (if _int_mode (e st)
          then mavlink_msg_mission_request_int_send wpr
          else mavlink_msg_mission_request_send wpr)
      (E (set_time_last_sent (hrt_absolute_time st)) s1).
Proof.
  intros Hc Hs Htip Hn. unfold handle_mission_count. rewrite Hc.
  destruct (state_is_idle st Hs) as (-> & _ & _).
  cbv zeta.
  change (_transfer_in_progress (g (E ?f st))) with (_transfer_in_progress (g st)).
  rewrite Htip.
  change (current_max_item_count (E (set_mission_type ?t) (G ?f (E ?f' st))))
    with (current_max_item_count (E (set_mission_type t) st)).
  destruct (Z.ltb_spec (current_max_item_count (E (set_mission_type (wpc_mission_type wpc)) st))
              (wpc_count wpc)) as [Hlt|_]; [lia|].
  destruct (Z.eqb_spec (wpc_count wpc) 0) as [Hz|_]; [lia|].
  assert (Hmax : (0 <? current_max_item_count
                         (E (set_mission_type (wpc_mission_type wpc)) st)) = true)
    by (apply Z.ltb_lt; lia).
  unfold send_mission_request, inactive_dataman_id, dm_lock, current_max_item_count, dm_fault,
    hrt_absolute_time in *.
  cbv zeta. cbn in Hmax.
  cbn [_mission_type e E set_mission_type set_state set_transfer_seq set_transfer_partner_sysid
       set_transfer_partner_compid set_transfer_count set_transfer_dataman_id
       set_transfer_current_seq set_time_last_recv G g w _dataman_id set_transfer_in_progress
       dm_faults].
  destruct (wpc_mission_type wpc =? MAV_MISSION_TYPE_FENCE);
    [destruct (hd false (dm_faults (w st)))|];
    cbn; change (u16 0) with 0; rewrite Hmax; destruct (_int_mode (e st)); reflexivity.
Qed.

(** An admitted upload of a fence takes the dataman lock of the fence
    namespace before it asks for the first item; the endpoint remembers the
    lock exactly when [dm_lock] succeeded, and the upload goes on without
    the lock when it did not.  An upload of another type makes no call to
    [dm_lock]. *)
Theorem fence_upload_takes_the_lock (msg : mavlink_message_t)
    (wpc : mavlink_mission_count_t) (st : MM) :
  CHECK_SYSID_COMPID_MISSION (wpc_target_system wpc) (wpc_target_component wpc) st = true ->
  _state (e st) = MAVLINK_WPM_STATE_IDLE ->
  _transfer_in_progress (g st) = false ->
  0 < wpc_count wpc <= current_max_item_count (E (set_mission_type (wpc_mission_type wpc)) st) ->
  let st' := handle_mission_count msg wpc st in
  let request (c : Event) : Prop :=
    exists wpr, (c = mavlink_msg_mission_request_send wpr \/
                 c = mavlink_msg_mission_request_int_send wpr) /\ wpr_seq wpr = 0 in
  _state (e st') = MAVLINK_WPM_STATE_GETLIST /\
  if wpc_mission_type wpc =? MAV_MISSION_TYPE_FENCE then
    _geofence_locked (e st') = negb (dm_fault st) || _geofence_locked (e st) /\
    fence_lock (w st') = negb (dm_fault st) || fence_lock (w st) /\
    exists en_request en_lock,
      log (w st') = en_request :: en_lock :: log (w st) /\
      call en_lock = dm_lock_call DM_KEY_FENCE_POINTS (negb (dm_fault st)) /\
      request (call en_request)
  else
    _geofence_locked (e st') = _geofence_locked (e st) /\
    fence_lock (w st') = fence_lock (w st) /\
    exists en_request, log (w st') = en_request :: log (w st) /\ request (call en_request).
Proof.
  intros Hc Hs Htip Hn. cbv zeta.
  rewrite (handle_mission_count_admitted msg wpc st Hc Hs Htip Hn). cbv zeta.
  unfold dm_fault.
  destruct (wpc_mission_type wpc =? MAV_MISSION_TYPE_FENCE);
    [destruct (hd false (dm_faults (w st)))|];
    (split; [reflexivity|]); cbn; (split; [reflexivity|]); (split; [reflexivity|]).
  1,2: eexists _, _; split; [reflexivity|]; split; [reflexivity|].
  3: eexists; split; [reflexivity|].
  all: cbn; destruct (_int_mode (e st)); eexists;
    (split; [first [left; reflexivity | right; reflexivity] | reflexivity]).
Qed.

Lemma load_geofence_stats_frame (st : MM) :
  e (load_geofence_stats st) = e st /\
  log (w (load_geofence_stats st)) = log (w st) /\
  dm_store (w (load_geofence_stats st)) = dm_store (w st).
Proof.
  unfold load_geofence_stats. cbv zeta.
  destruct (fst (dm_read _ _ st)) as [[]|]; repeat split.
Qed.

Lemma load_safepoint_stats_frame (st : MM) :
  e (load_safepoint_stats st) = e st /\
  log (w (load_safepoint_stats st)) = log (w st) /\
  dm_store (w (load_safepoint_stats st)) = dm_store (w st).
Proof.
  unfold load_safepoint_stats. cbv zeta.
  destruct (fst (dm_read _ _ st)) as [[]|]; repeat split.
Qed.

(** The start of a download.  A MISSION_REQUEST_LIST that is addressed to
    the endpoint and arrives in IDLE, or in SENDLIST for the mission type
    of the download under way (which restarts it), puts the endpoint in
    SENDLIST with the sender as partner and the cursor at 0; the number of
    items to send is the count of the requested type, read again from
    dataman for a fence or for rally points, and that number is what the
    MISSION_COUNT sent to the requester carries.  Nothing is written to
    dataman. *)
Theorem request_list_starts_download (msg : mavlink_message_t)
    (wprl : mavlink_mission_request_list_t) (st : MM) :
  CHECK_SYSID_COMPID_MISSION (wprl_target_system wprl) (wprl_target_component wprl) st = true ->
  _state (e st) = MAVLINK_WPM_STATE_IDLE \/
  (_state (e st) = MAVLINK_WPM_STATE_SENDLIST /\
   u8 (_mission_type (e st)) = wprl_mission_type wprl) ->
  let st' := handle_mission_request_list msg wprl st in
  _state (e st') = MAVLINK_WPM_STATE_SENDLIST /\
  _mission_type (e st') = wprl_mission_type wprl /\
  _transfer_seq (e st') = 0 /\
  _transfer_partner_sysid (e st') = sysid msg /\
  _transfer_partner_compid (e st') = compid msg /\
  _transfer_count (e st') = current_item_count st' /\
  (wprl_mission_type wprl = MAV_MISSION_TYPE_MISSION -> (0 < length (_count (g st)))%nat ->
   _transfer_count (e st') = count_at MAV_MISSION_TYPE_MISSION st) /\
  dm_store (w st') = dm_store (w st) /\
  exists en, log (w st') = en :: log (w st) /\
    call en = mavlink_msg_mission_count_send
                {| wpc_target_system := u8 (sysid msg);
                   wpc_target_component := u8 (compid msg);
                   wpc_count := u16 (_transfer_count (e st'));
                   wpc_mission_type := u8 (wprl_mission_type wprl) |}.
Proof.
  intros Hc Hs. cbv zeta. unfold handle_mission_request_list. rewrite Hc.
  assert (Hcond : state_is MAVLINK_WPM_STATE_IDLE st ||
                  state_is MAVLINK_WPM_STATE_SENDLIST st &&
                  (u8 (_mission_type (e st)) =? wprl_mission_type wprl) = true).
  { destruct Hs as [Hs | [Hs Ht]].
    - destruct (state_is_idle st Hs) as (-> & _). reflexivity.
    - destruct (state_is_sendlist st Hs) as (-> & -> & _). rewrite Ht, Z.eqb_refl. reflexivity. }
  rewrite Hcond. clear Hcond Hs. cbv zeta.
  cbn [_mission_type e E set_mission_type set_state set_time_last_recv].
  set (b := E (set_mission_type (wprl_mission_type wprl))
              (E (set_state MAVLINK_WPM_STATE_SENDLIST)
                 (E (set_time_last_recv (hrt_absolute_time st)) st))).
  match goal with
  | |- context [E (set_transfer_seq 0) ?s] => set (s2 := s)
  end.
  assert (H2 : e s2 = e b /\ log (w s2) = log (w st) /\ dm_store (w s2) = dm_store (w st) /\
               (wprl_mission_type wprl = MAV_MISSION_TYPE_MISSION -> g s2 = g st)).
  { subst s2. destruct (wprl_mission_type wprl =? MAV_MISSION_TYPE_FENCE) eqn:Hf.
    - destruct (load_geofence_stats_frame b) as (A1 & A2 & A3). repeat split; auto.
      intros Hm. rewrite Hm in Hf. discriminate.
    - destruct (wprl_mission_type wprl =? MAV_MISSION_TYPE_RALLY) eqn:Hr.
      + destruct (load_safepoint_stats_frame b) as (A1 & A2 & A3). repeat split; auto.
        intros Hm. rewrite Hm in Hr. discriminate.
      + repeat split. }
  clearbody s2. destruct H2 as (A1 & A2 & A3 & A4).
  unfold send_mission_count, current_item_count, count_at. cbn. rewrite A1, A2, A3. cbn.
  repeat split.
  - intros Hm Hl. rewrite (A4 Hm), Hm. destruct (_count (g st)); [inversion Hl | reflexivity].
  - eexists. split; reflexivity.
Qed.

(** ** Refusals *)

(** While a transfer is under way the endpoint starts no other operation:
    MISSION_CLEAR_ALL and MISSION_SET_CURRENT outside IDLE, a
    MISSION_REQUEST_LIST during an upload or for another mission type than
    the one being downloaded, and a MISSION_COUNT during a download are
    answered by one critical status text; nothing else is sent, written or
    changed. *)
Theorem busy_endpoint_refuses (msg : mavlink_message_t) (st : MM) :
  addressed msg st = true ->
  match payload msg with
  | MAVLINK_MSG_ID_MISSION_CLEAR_ALL _ | MAVLINK_MSG_ID_MISSION_SET_CURRENT _ =>
      _state (e st) <> MAVLINK_WPM_STATE_IDLE
  | MAVLINK_MSG_ID_MISSION_REQUEST_LIST wprl =>
      _state (e st) = MAVLINK_WPM_STATE_GETLIST \/
      (_state (e st) = MAVLINK_WPM_STATE_SENDLIST /\
       u8 (_mission_type (e st)) <> wprl_mission_type wprl)
  | MAVLINK_MSG_ID_MISSION_COUNT _ => _state (e st) = MAVLINK_WPM_STATE_SENDLIST
  | _ => False
  end ->
  exists text, handle_message msg st = send_statustext_critical text st.
Proof.
  unfold addressed, handle_message, target_of. intros Ha Hb.
  destruct (payload msg) as [wpa|wpc|wprl|wpr|wpr|wpc|wp|wp|wpca|]; try contradiction.
  - unfold handle_mission_set_current. rewrite Ha.
    apply state_is_false in Hb. rewrite Hb. eexists; reflexivity.
  - unfold handle_mission_request_list. rewrite Ha.
    destruct Hb as [Hb | [Hb Ht]].
    + destruct (state_is_getlist st Hb) as (_ & -> & ->). eexists; reflexivity.
    + destruct (state_is_sendlist st Hb) as (-> & -> & _).
      apply Z.eqb_neq in Ht. rewrite Ht. eexists; reflexivity.
  - unfold handle_mission_count. rewrite Ha.
    destruct (state_is_sendlist st Hb) as (_ & -> & ->). eexists; reflexivity.
  - unfold handle_mission_clear_all. rewrite Ha.
    apply state_is_false in Hb. rewrite Hb. eexists; reflexivity.
Qed.

(** A download is driven by its partner only: a MISSION_REQUEST(_INT) or a
    MISSION_ACK that is addressed to the endpoint but comes from another
    system or component than the transfer partner is answered by one
    critical status text; the state, the cursor and the store are
    untouched (the variant of a request still selects the encoding). *)
Theorem stranger_cannot_drive_a_download (msg : mavlink_message_t) (st : MM) :
  addressed msg st = true ->
  from_partner msg st = false ->
  match payload msg with
  | MAVLINK_MSG_ID_MISSION_ACK _ | MAVLINK_MSG_ID_MISSION_REQUEST _
  | MAVLINK_MSG_ID_MISSION_REQUEST_INT _ => True
  | _ => False
  end ->
  exists text,
    handle_message msg st =
      send_statustext_critical text
        (E (set_int_mode (variant_int_mode (payload msg) (_int_mode (e st)))) st).
Proof.
  unfold addressed, handle_message, target_of. intros Ha Hp Hb.
  destruct (payload msg) as [wpa|wpc|wprl|wpr|wpr|wpc|wp|wp|wpca|]; try contradiction;
    cbn [variant_int_mode].
  - rewrite set_int_mode_same. unfold handle_mission_ack. rewrite Ha, Hp. eexists; reflexivity.
  - rewrite (proj1 (handle_mission_request_variants msg wpr st)).
    unfold handle_mission_request_both.
    change (CHECK_SYSID_COMPID_MISSION ?a ?b (E _ st)) with (CHECK_SYSID_COMPID_MISSION a b st).
    change (from_partner msg (E _ st)) with (from_partner msg st).
    rewrite Ha, Hp. eexists; reflexivity.
  - rewrite (proj2 (handle_mission_request_variants msg wpr st)).
    unfold handle_mission_request_both.
    change (CHECK_SYSID_COMPID_MISSION ?a ?b (E _ st)) with (CHECK_SYSID_COMPID_MISSION a b st).
    change (from_partner msg (E _ st)) with (from_partner msg st).
    rewrite Ha, Hp. eexists; reflexivity.
Qed.

(** ** Persistence *)

Lemma count_of_set_count_at (j v : Z) (st : MM) :
  _count (g (G (set_count_at j v) st)) = <[Z.to_nat j := v]> (_count (g st)).
Proof. destruct st as [[] e0 w0]. reflexivity. Qed.

Lemma count_at_set_count_at_eq (j v : Z) (st : MM) :
  (Z.to_nat j < length (_count (g st)))%nat ->
  count_at j (G (set_count_at j v) st) = v.
Proof.
  intros Hl. unfold count_at. rewrite count_of_set_count_at.
  apply list_lookup_total_insert_eq. exact Hl.
Qed.

Lemma count_at_set_count_at_ne (i j v : Z) (st : MM) :
  Z.to_nat i <> Z.to_nat j ->
  count_at i (G (set_count_at j v) st) = count_at i st.
Proof.
  intros Hne. unfold count_at. rewrite count_of_set_count_at.
  apply list_lookup_total_insert_ne. congruence.
Qed.

Lemma load_geofence_stats_mission (st : MM) :
  _dataman_id (g (load_geofence_stats st)) = _dataman_id (g st) /\
  _current_seq (g (load_geofence_stats st)) = _current_seq (g st) /\
  _dataman_init (g (load_geofence_stats st)) = _dataman_init (g st) /\
  count_at MAV_MISSION_TYPE_MISSION (load_geofence_stats st) =
    count_at MAV_MISSION_TYPE_MISSION st /\
  dm_store (w (load_geofence_stats st)) = dm_store (w st).
Proof.
  unfold load_geofence_stats. cbv zeta.
  destruct (fst (dm_read _ _ st)) as [[]|]; repeat split.
  change (count_at ?i (G (set_geofence_update_counter ?c) ?s)) with (count_at i s).
  rewrite count_at_set_count_at_ne by (vm_compute; discriminate). reflexivity.
Qed.

Lemma load_safepoint_stats_mission (st : MM) :
  _dataman_id (g (load_safepoint_stats st)) = _dataman_id (g st) /\
  _current_seq (g (load_safepoint_stats st)) = _current_seq (g st) /\
  _dataman_init (g (load_safepoint_stats st)) = _dataman_init (g st) /\
  count_at MAV_MISSION_TYPE_MISSION (load_safepoint_stats st) =
    count_at MAV_MISSION_TYPE_MISSION st /\
  dm_store (w (load_safepoint_stats st)) = dm_store (w st).
Proof.
  unfold load_safepoint_stats. cbv zeta.
  destruct (fst (dm_read _ _ st)) as [[]|]; repeat split.
  rewrite count_at_set_count_at_ne by (vm_compute; discriminate). reflexivity.
Qed.

(** The mission header survives a restart.  When [update_active_mission]
    has written a header, the first instance that is created on a dataman
    that still holds it, with the statics not yet initialised, starts with
    the active buffer, the count and the current item of that header.  An
    instance that is created later reads nothing from dataman: it only
    takes over the active buffer id. *)
Theorem persisted_header_is_restored (id n seq : Z) (st st2 : MM) :
  dm_fault st = false ->
  dm_store (w st2) !! (DM_KEY_MISSION_STATE, 0) =
    dm_store (w (snd (update_active_mission id n seq st))) !! (DM_KEY_MISSION_STATE, 0) ->
  dm_fault st2 = false ->
  (0 < length (_count (g st2)))%nat ->
  let st3 := init_offboard_mission st2 in
  (_dataman_init (g st2) = false ->
     _dataman_id (g st3) = id /\
     count_at MAV_MISSION_TYPE_MISSION st3 = n /\
     _current_seq (g st3) = seq /\
     _my_dataman_id (e st3) = id /\
     _dataman_init (g st3) = true) /\
  (_dataman_init (g st2) = true ->
     st3 = E (set_my_dataman_id (_dataman_id (g st2))) st2).
Proof.
  intros Hf Hst Hf2 Hlen. cbv zeta. split; intros Hi.
  - rewrite update_active_mission_cases, Hf in Hst. cbv zeta in Hst.
    assert (Hrd : dm_store (w st2) !! (DM_KEY_MISSION_STATE, 0) =
                  Some (DmMissionState {| dataman_id := id; count := n; current_seq := seq |})).
    { rewrite Hst. destruct (_offboard_mission_pub (e st)); cbn; apply lookup_insert_eq. }
    clear Hst.
    assert (Hread : fst (dm_read DM_KEY_MISSION_STATE 0 (G (set_dataman_init true) st2)) =
                    Some (DmMissionState {| dataman_id := id; count := n; current_seq := seq |})).
    { unfold dm_read. change (dm_fault (G ?f st2)) with (dm_fault st2). rewrite Hf2.
      exact Hrd. }
    unfold init_offboard_mission. rewrite Hi. cbn [negb]. cbv zeta. rewrite Hread.
    cbn [dataman_id count current_seq].
    match goal with
    | |- context [load_geofence_stats ?s] => set (s1 := s)
    end.
    destruct (load_geofence_stats_mission s1) as (A1 & A2 & A3 & A4 & _).
    destruct (load_safepoint_stats_mission (load_geofence_stats s1)) as (B1 & B2 & B3 & B4 & _).
    cbn [g e E _my_dataman_id set_my_dataman_id].
    change (count_at ?i (E ?f ?s)) with (count_at i s).
    rewrite B1, B2, B3, B4, A1, A2, A3, A4. subst s1.
    change (count_at ?i (G (set_current_seq ?c) ?s)) with (count_at i s).
    rewrite count_at_set_count_at_eq by exact Hlen.
    repeat split.
  - unfold init_offboard_mission. rewrite Hi. reflexivity.
Qed.

(** The fence and rally stats survive a restart as well: the count that
    [update_geofence_count] or [update_safepoint_count] has written is the
    one that [load_geofence_stats] or [load_safepoint_stats] finds, and the
    fence comes back with the update counter that was written. *)
Theorem persisted_stats_are_restored (n : Z) (st st2 : MM) :
  dm_fault st = false ->
  dm_fault st2 = false ->
  (2 < length (_count (g st2)))%nat ->
  (dm_store (w st2) !! (DM_KEY_FENCE_POINTS, 0) =
     dm_store (w (snd (update_geofence_count n st))) !! (DM_KEY_FENCE_POINTS, 0) ->
   count_at MAV_MISSION_TYPE_FENCE (load_geofence_stats st2) = n /\
   _geofence_update_counter (g (load_geofence_stats st2)) =
     u16 (_geofence_update_counter (g st) + 1)) /\
  (dm_store (w st2) !! (DM_KEY_SAFE_POINTS, 0) =
     dm_store (w (snd (update_safepoint_count n st))) !! (DM_KEY_SAFE_POINTS, 0) ->
   count_at MAV_MISSION_TYPE_RALLY (load_safepoint_stats st2) = n).
Proof.
  intros Hf Hf2 Hlen. split; intros Hst.
  - unfold update_geofence_count, dm_write in Hst. cbv zeta in Hst.
    change (dm_fault (G ?f st)) with (dm_fault st) in Hst. rewrite Hf in Hst.
    cbn in Hst. rewrite lookup_insert_eq in Hst.
    unfold load_geofence_stats, dm_read. cbv zeta. rewrite Hf2. cbn [fst snd]. rewrite Hst.
    cbn [num_items update_counter].
    change (count_at ?i (G (set_geofence_update_counter ?c) ?s)) with (count_at i s).
    rewrite count_at_set_count_at_eq; [split; reflexivity|].
    change (Z.to_nat MAV_MISSION_TYPE_FENCE) with 1%nat.
    change (length (_count (g (dm_called st2)))) with (length (_count (g st2))). lia.
  - unfold update_safepoint_count, dm_write in Hst. cbv zeta in Hst.
    rewrite Hf in Hst. cbn in Hst. rewrite lookup_insert_eq in Hst.
    unfold load_safepoint_stats, dm_read. cbv zeta. rewrite Hf2. cbn [fst snd]. rewrite Hst.
    cbn [num_items].
    rewrite count_at_set_count_at_eq; [reflexivity|].
    change (Z.to_nat MAV_MISSION_TYPE_RALLY) with 2%nat.
    change (length (_count (g (dm_called st2)))) with (length (_count (g st2))). lia.
Qed.

(** [check_active_mission] notifies of a mission that was changed through
    another instance, once: when the buffer this instance knows is not the
    active one it takes over the active id and sends the MISSION_COUNT of
    the mission to its partner; otherwise, and so on a second call, it
    does nothing, and a mission that this instance has committed itself is
    not notified. *)
Theorem check_active_mission_notifies_once (st : MM) :
  let st' := check_active_mission st in
  _my_dataman_id (e st') = _dataman_id (g st') /\
  check_active_mission st' = st' /\
  (_my_dataman_id (e st) = _dataman_id (g st) -> st' = st) /\
  (_my_dataman_id (e st) <> _dataman_id (g st) ->
     log (w st') =
       logged (mavlink_msg_mission_count_send
                 {| wpc_target_system := u8 (_transfer_partner_sysid (e st));
                    wpc_target_component := u8 (_transfer_partner_compid (e st));
                    wpc_count := u16 (count_at MAV_MISSION_TYPE_MISSION st);
                    wpc_mission_type := u8 MAV_MISSION_TYPE_MISSION |})
              (E (set_time_last_sent (hrt_absolute_time st))
                 (E (set_my_dataman_id (_dataman_id (g st))) st))
       :: log (w st)) /\
  (forall id n seq, dm_fault st = false ->
     check_active_mission (snd (update_active_mission id n seq st)) =
       snd (update_active_mission id n seq st)).
Proof.
  cbv zeta. unfold check_active_mission.
  destruct (Z.eqb_spec (_my_dataman_id (e st)) (_dataman_id (g st))) as [Heq|Hne]; cbn [negb].
  - rewrite (proj2 (Z.eqb_eq _ _) Heq). cbn [negb].
    split; [exact Heq|]. split; [reflexivity|]. split; [reflexivity|].
    split; [intros Hn; contradiction|].
    intros id n seq Hf. rewrite update_active_mission_cases, Hf. cbv zeta.
    destruct (_offboard_mission_pub (e st)); cbn; rewrite Z.eqb_refl; reflexivity.
  - cbv zeta. unfold send_mission_count. cbv zeta. cbn. rewrite Z.eqb_refl. cbn.
    split; [reflexivity|]. split; [reflexivity|]. split; [intros Hn; contradiction|].
    split; [intros _; reflexivity|].
    intros id n seq Hf. rewrite update_active_mission_cases, Hf. cbv zeta.
    destruct (_offboard_mission_pub (e st)); cbn; rewrite Z.eqb_refl; reflexivity.
Qed.

(** An item that an upload has stored is the item that a download reads.
    When [store_mission_item] reports neither a failed write nor a failed
    check, reading the same sequence number for the same mission type, on a
    dataman that still holds the slot (and, for a mission, with the
    transfer buffer as the active one), succeeds and returns the item: a
    mission item as it was stored; a fence vertex or a rally point with
    its position, altitude and frame, a fence vertex with its command and
    its vertex count or radius as well, a rally point always as
    MAV_CMD_NAV_RALLY_POINT. *)
Theorem stored_item_is_read_back (wp : mavlink_mission_item_t) (mi : mission_item_s)
    (st st2 : MM) :
  let sr := store_mission_item wp mi st in
  let mt := _mission_type (e st) in
  mt = MAV_MISSION_TYPE_MISSION \/ mt = MAV_MISSION_TYPE_FENCE \/ mt = MAV_MISSION_TYPE_RALLY ->
  fst (fst sr) = false ->
  snd (fst sr) = false ->
  _mission_type (e st2) = mt ->
  (mt = MAV_MISSION_TYPE_MISSION -> _dataman_id (g st2) = _transfer_dataman_id (e st)) ->
  dm_store (w st2) !! item_slot (wp_seq wp) st =
    dm_store (w (snd sr)) !! item_slot (wp_seq wp) st ->
  dm_fault st2 = false ->
  let back := as_stored mt mi in
  fst (read_mission_item (wp_seq wp) st2) = (true, back) /\
  lat back = lat mi /\ lon back = lon mi /\ altitude back = altitude mi /\
  frame back = frame mi /\
  (mt = MAV_MISSION_TYPE_RALLY -> nav_cmd back = MAV_CMD_NAV_RALLY_POINT) /\
  (mt = MAV_MISSION_TYPE_FENCE ->
     nav_cmd back = nav_cmd mi /\
     if is_polygon_vertex (nav_cmd mi)
     then vertex_count back = vertex_count mi
     else circle_radius back = circle_radius mi).
Proof.
  cbv zeta. intros Hmt Hw Hck Hm2 Hid Hst Hf2.
  unfold read_mission_item, store_mission_item, item_slot, as_stored, dm_read in *.
  cbv zeta in *. rewrite Hm2, Hf2. clear Hm2 Hf2.
  destruct Hmt as [Hm | [Hm | Hm]]; rewrite Hm in *;
    cbn [Z.eqb MAV_MISSION_TYPE_MISSION MAV_MISSION_TYPE_FENCE MAV_MISSION_TYPE_RALLY Pos.eqb]
      in *.
  - rewrite (Hid eq_refl). clear Hid.
    destruct (is_fence_or_rally_cmd (nav_cmd mi)); [discriminate Hck|].
    unfold dm_write in *. destruct (dm_fault st); [discriminate Hw|].
    cbn [fst snd] in Hst.
    assert (Hrd : dm_store (w st2) !!
                    (DM_KEY_WAYPOINTS_OFFBOARD (_transfer_dataman_id (e st)), wp_seq wp) =
                  Some (DmMissionItem mi)).
    { rewrite Hst. destruct (negb (wp_current wp =? 0)); cbn; apply lookup_insert_eq. }
    cbn [fst snd]. rewrite Hrd. repeat split; discriminate.
  - destruct (is_polygon_vertex (nav_cmd mi) && (vertex_count mi <? 3)) eqn:Hshort;
      cbn [fst snd negb] in *; [discriminate Hck|].
    unfold dm_write in *. destruct (dm_fault st); [discriminate Hw|].
    cbn [fst snd] in Hst.
    assert (Hrd : dm_store (w st2) !! (DM_KEY_FENCE_POINTS, wp_seq wp + 1) =
                  Some (DmFencePoint (fence_point_of_item mi))).
    { rewrite Hst. cbn. apply lookup_insert_eq. }
    cbn [fst snd]. rewrite Hrd. unfold item_of_fence_point, fence_point_of_item. cbv zeta.
    cbn [fp_nav_cmd fp_vertex_count fp_circle_radius fp_frame fp_lat fp_lon fp_alt].
    destruct (is_polygon_vertex (nav_cmd mi)); repeat split; discriminate.
  - unfold dm_write in *. destruct (dm_fault st); [discriminate Hw|].
    cbn [fst snd] in Hst.
    assert (Hrd : dm_store (w st2) !! (DM_KEY_SAFE_POINTS, wp_seq wp + 1) =
                  Some (DmSafePoint (save_point_of_item mi))).
    { rewrite Hst. cbn. apply lookup_insert_eq. }
    cbn [fst snd]. rewrite Hrd. repeat split; discriminate.
Qed.

(** ** The item codec *)

Lemma one_of_cons (c a : Z) (l : list Z) : one_of c (a :: l) = (c =? a) || one_of c l.
Proof. reflexivity. Qed.

(** Case analysis on the label that a command has matched. *)
Ltac which_label :=
  repeat match goal with
         | H : one_of _ (_ :: _) = true |- _ =>
             rewrite one_of_cons in H; apply orb_true_iff in H; destruct H as [H|H]
         | H : one_of _ [] = true |- _ => discriminate H
         | H : (_ =? _) = true |- _ => apply Z.eqb_eq in H
         end.

Lemma parse_global_command_format (wp : mavlink_mission_item_t) (mi m : mission_item_s) :
  parse_global_command wp mi = Some m ->
  nav_cmd m = wp_command wp /\
  altitude m = altitude mi /\
  altitude_is_relative m = altitude_is_relative mi /\
  forall (item : mission_item_s) (wp' : mavlink_mission_item_t),
    nav_cmd item = wp_command wp ->
    fst (format_global_command item wp') = PX4_OK /\
    wp_command (snd (format_global_command item wp')) = wp_command wp' /\
    wp_frame (snd (format_global_command item wp')) = wp_frame wp' /\
    wp_autocontinue (snd (format_global_command item wp')) = wp_autocontinue wp' /\
    wp_z (snd (format_global_command item wp')) = wp_z wp'.
Proof.
  unfold parse_global_command. cbv zeta. intros H.
  repeat match type of H with
         | (if ?c then _ else _) = Some _ => destruct c eqn:?
         end;
    [injection H as <-.. | discriminate H].
  all: which_label.
  all: match goal with
       | Hc : wp_command _ = _ |- _ => rewrite Hc
       end.
  all: split; [reflexivity|]; split; [reflexivity|]; split; [reflexivity|].
  all: intros item wp' Hi; unfold format_global_command; cbv zeta; rewrite Hi.
  all: repeat split.
Qed.

Lemma parse_mission_command_format (wp : mavlink_mission_item_t) (mi m : mission_item_s) :
  parse_mission_command wp mi = Some m ->
  nav_cmd m = wp_command wp /\
  params m = params mi /\
  forall (b : bool) (item : mission_item_s) (wp' : mavlink_mission_item_t),
    nav_cmd item = wp_command wp ->
    frame item = MAV_FRAME_MISSION ->
    let fm := format_mavlink_mission_item b item wp' in
    fst fm = (if one_of (wp_command wp) [MAV_CMD_NAV_DELAY; MAV_CMD_NAV_RETURN_TO_LAUNCH]
              then PX4_ERROR else PX4_OK) /\
    wp_command (snd fm) = wp_command wp /\
    wp_frame (snd fm) = MAV_FRAME_MISSION /\
    wp_autocontinue (snd fm) = (if autocontinue item then 1 else 0) /\
    wp_z (snd fm) = param_at 6 item /\
    wp_param3 (snd fm) = param_at 2 item /\
    wp_param4 (snd fm) = param_at 3 item /\
    (wp_command wp <> MAV_CMD_DO_JUMP ->
     wp_param1 (snd fm) = param_at 0 item /\ wp_param2 (snd fm) = param_at 1 item).
Proof.
  unfold parse_mission_command. cbv zeta. intros H.
  repeat match type of H with
         | (if ?c then _ else _) = Some _ => destruct c eqn:?
         end;
    [injection H as <-.. | discriminate H].
  all: which_label.
  all: match goal with
       | Hc : wp_command _ = _ |- _ => rewrite Hc
       end.
  all: split; [reflexivity|]; split; [reflexivity|].
  all: intros b item wp' Hi Hfr; unfold format_mavlink_mission_item; cbv zeta;
    rewrite Hfr; cbn [Z.eqb MAV_FRAME_MISSION Pos.eqb];
    cbn [wp_command set_wp_command set_wp_param1 set_wp_param2 set_wp_param3 set_wp_param4
         set_wp_x set_wp_y set_wp_z set_wp_frame set_wp_autocontinue];
    rewrite Hi.
  all: repeat split; try reflexivity.
  all: exfalso; match goal with Hne : _ <> _ |- _ => apply Hne; reflexivity end.
Qed.

Lemma low_bit_of_flag (x : Z) : x = 0 \/ x = 1 -> (if Z.odd x then 1 else 0) = x.
Proof. intros [-> | ->]; reflexivity. Qed.

(** What has been uploaded is what a download formats.  For an item that
    the parser accepts, formatting the parsed item in the same encoding
    gives back the command, the autocontinue flag when the message has it
    as 0 or 1, and the altitude or seventh parameter; the frame in float
    mode, and in int mode the INT variant of the frame with the same
    altitude reference; for a command without coordinates other than
    DO_JUMP, the first four parameters.
    The formatter reports an error for exactly two kinds of item that the
    parser accepts: the commands NAV_DELAY and NAV_RETURN_TO_LAUNCH in
    frame MISSION. *)
Theorem format_of_parsed_item (wp wp0 : mavlink_mission_item_t) (mi0 : mission_item_s)
    (st : MM) :
  let pr := parse_mavlink_mission_item wp mi0 st in
  let b := _int_mode (e st) in
  let fm := format_mavlink_mission_item b (snd (fst pr)) wp0 in
  fst (fst pr) = MAV_MISSION_ACCEPTED ->
  wp_command (snd fm) = wp_command wp /\
  (wp_autocontinue wp = 0 \/ wp_autocontinue wp = 1 ->
   wp_autocontinue (snd fm) = wp_autocontinue wp) /\
  wp_z (snd fm) = wp_z wp /\
  wp_frame (snd fm) =
    (if wp_frame wp =? MAV_FRAME_MISSION then MAV_FRAME_MISSION
     else if b then
       if (wp_frame wp =? MAV_FRAME_GLOBAL_RELATIVE_ALT) ||
          (wp_frame wp =? MAV_FRAME_GLOBAL_RELATIVE_ALT_INT)
       then MAV_FRAME_GLOBAL_RELATIVE_ALT_INT else MAV_FRAME_GLOBAL_INT
     else wp_frame wp) /\
  fst fm =
    (if (wp_frame wp =? MAV_FRAME_MISSION) &&
        one_of (wp_command wp) [MAV_CMD_NAV_DELAY; MAV_CMD_NAV_RETURN_TO_LAUNCH]
     then PX4_ERROR else PX4_OK) /\
  (wp_frame wp = MAV_FRAME_MISSION -> wp_command wp <> MAV_CMD_DO_JUMP ->
   wp_param1 (snd fm) = wp_param1 wp /\ wp_param2 (snd fm) = wp_param2 wp /\
   wp_param3 (snd fm) = wp_param3 wp /\ wp_param4 (snd fm) = wp_param4 wp).
Proof.
  cbv zeta. unfold parse_mavlink_mission_item. cbv zeta.
  destruct ((wp_frame wp =? MAV_FRAME_GLOBAL) ||
            (wp_frame wp =? MAV_FRAME_GLOBAL_RELATIVE_ALT) ||
            _int_mode (e st) && is_int_frame (wp_frame wp)) eqn:Hgate.
  - assert (Hfr : wp_frame wp = MAV_FRAME_GLOBAL \/ wp_frame wp = MAV_FRAME_GLOBAL_RELATIVE_ALT \/
                  (_int_mode (e st) = true /\
                   (wp_frame wp = MAV_FRAME_GLOBAL_INT \/
                    wp_frame wp = MAV_FRAME_GLOBAL_RELATIVE_ALT_INT))).
    { unfold is_int_frame in Hgate.
      destruct (Z.eqb_spec (wp_frame wp) MAV_FRAME_GLOBAL); [auto|].
      destruct (Z.eqb_spec (wp_frame wp) MAV_FRAME_GLOBAL_RELATIVE_ALT); [auto|].
      right; right. cbn in Hgate. apply andb_true_iff in Hgate. destruct Hgate as [Hi Hg].
      split; [exact Hi|]. apply orb_true_iff in Hg.
      destruct Hg as [Hg|Hg]; apply Z.eqb_eq in Hg; auto. }
    clear Hgate.
    assert (Hmode : forall fr, _int_mode (e (if is_int_frame fr then E (set_int_mode true) st
                                             else st)) =
                               is_int_frame fr || _int_mode (e st)).
    { intros fr. destruct (is_int_frame fr); reflexivity. }
    rewrite Hmode. clear Hmode.
    destruct Hfr as [Hfr | [Hfr | [Hi [Hfr | Hfr]]]]; rewrite Hfr; try rewrite Hi;
      cbn [is_int_frame orb andb Z.eqb Pos.eqb MAV_FRAME_GLOBAL MAV_FRAME_GLOBAL_RELATIVE_ALT
           MAV_FRAME_GLOBAL_INT MAV_FRAME_GLOBAL_RELATIVE_ALT_INT MAV_FRAME_MISSION].
    all: match goal with
         | |- context [parse_global_command ?x ?a] =>
             destruct (parse_global_command x a) as [m|] eqn:Hp; [|discriminate];
             destruct (parse_global_command_format x a m Hp) as (C1 & C2 & C3 & Hfmt)
         end.
    all: intros _; cbn [fst snd].
    all: unfold format_mavlink_mission_item; cbv zeta.
    all: cbn [frame set_origin set_autocontinue set_frame nav_cmd autocontinue altitude
              altitude_is_relative set_altitude set_altitude_is_relative set_time_inside]
           in C2, C3 |- *.
    all: rewrite C2, C3.
    all: cbn [Z.eqb Pos.eqb MAV_FRAME_GLOBAL MAV_FRAME_GLOBAL_RELATIVE_ALT
              MAV_FRAME_GLOBAL_INT MAV_FRAME_GLOBAL_RELATIVE_ALT_INT MAV_FRAME_MISSION].
    all: match goal with
         | |- context [format_global_command ?item ?w] =>
             destruct (Hfmt item w C1) as (F1 & F2 & F3 & F4 & F5); rewrite F1, F2, F3, F4, F5
         end.
    all: clear Hfmt Hp.
    all: destruct (_int_mode (e st)); try discriminate; cbn; rewrite ?C1;
      repeat split; try discriminate; intros; apply low_bit_of_flag; assumption.
  - destruct (Z.eqb_spec (wp_frame wp) MAV_FRAME_MISSION) as [Hfr|]; [|discriminate].
    match goal with
    | |- context [parse_mission_command wp ?a] =>
        destruct (parse_mission_command wp a) as [m|] eqn:Hp; [|discriminate];
        destruct (parse_mission_command_format wp a m Hp) as (C1 & C2 & Hfmt)
    end.
    intros _. cbn [fst snd andb].
    match goal with
    | |- context [format_mavlink_mission_item ?b ?item wp0] =>
        destruct (Hfmt b item wp0 C1 eq_refl) as (F1 & F2 & F3 & F4 & F5 & F6 & F7 & F8);
        assert (Hpar : params item =
                       [wp_param1 wp; wp_param2 wp; wp_param3 wp; wp_param4 wp;
                        f_of_bits (wp_x wp); f_of_bits (wp_y wp); wp_z wp])
          by (cbn; rewrite C2; reflexivity);
        assert (Hac : autocontinue item = Z.odd (wp_autocontinue wp)) by reflexivity;
        set (fm := format_mavlink_mission_item b item wp0) in *;
        clearbody fm; clear Hfmt;
        unfold param_at in F5, F6, F7, F8;
        rewrite Hpar in F5, F6, F7, F8; rewrite Hac in F4
    end.
    cbn [nth] in F5, F6, F7, F8. rewrite F1, F2, F3, F4, F5.
    split; [reflexivity|]. split; [apply low_bit_of_flag|].
    repeat split; try assumption. all: destruct F8 as (G1 & G2); auto.
Qed.

(** ** The periodic part *)

Lemma sends_only_send_statustext_critical (text : string) (st : MM) :
  sends_only st (send_statustext_critical text st).
Proof. repeat split. Qed.

Lemma sends_only_send_mission_request (a b c : Z) (st : MM) :
  sends_only st (send_mission_request a b c st).
Proof. unfold send_mission_request. cbv zeta. repeat split_bool; repeat split. Qed.

Lemma sends_only_send_mission_count (a b c d : Z) (st : MM) :
  sends_only st (send_mission_count a b c d st).
Proof. repeat split. Qed.

Lemma sends_only_send_mission_current (seq : Z) (st : MM) :
  sends_only st (send_mission_current seq st).
Proof. unfold send_mission_current. cbv zeta. repeat split_bool; repeat split. Qed.

Lemma sends_only_send_mission_item (a b c : Z) (st : MM) :
  sends_only st (send_mission_item a b c st).
Proof.
  unfold send_mission_item, read_mission_item, filesystem_error. cbv zeta.
  repeat split_bool; cbn [fst snd];
    repeat match goal with
           | |- context [fst (dm_read ?a ?b ?c)] => destruct (fst (dm_read a b c)) as [[]|]
           end; cbn [fst snd]; try discriminate; repeat split_bool; repeat split.
Qed.

Lemma keeps_transfer_send_progress (now : Z) (st : MM) :
  keeps transfer_view st (send_progress now st) /\
  keeps cursor_view st (send_progress now st).
Proof. split; apply keeps_send_progress; apply keeps_refl. Qed.

(** The periodic [send] gives a transfer up after the action timeout, and
    only then.  With the endpoint outside IDLE, and once the progress part
    of [send] has run: if no retry is due and nothing has been received for
    longer than the action timeout, the endpoint reports "Operation
    timeout", goes to IDLE with the fence lock released, and clears the flag
    that blocks other uploads; in every other case [send] leaves the
    protocol state and that flag as they are.  In IDLE, [send] resets the
    two timestamps. *)
Theorem send_gives_up_after_action_timeout (now : Z) (st : MM) :
  let s1 := send_progress now st in
  let st' := send now st in
  let retry_due :=
    (0 <? _time_last_sent (e s1)) &&
    (_retry_timeout (e s1) <? hrt_elapsed_time (_time_last_sent (e s1)) s1) in
  let action_due :=
    (0 <? _time_last_recv (e s1)) &&
    (_action_timeout (e s1) <? hrt_elapsed_time (_time_last_recv (e s1)) s1) in
  (_state (e st) <> MAVLINK_WPM_STATE_IDLE ->
   if negb retry_due && action_due then
     _state (e st') = MAVLINK_WPM_STATE_IDLE /\
     _transfer_in_progress (g st') = false /\
     _geofence_locked (e st') = false /\
     sent (statustext_critical "Operation timeout") st st'
   else
     _state (e st') = _state (e st) /\
     _transfer_in_progress (g st') = _transfer_in_progress (g st)) /\
  (_state (e st) = MAVLINK_WPM_STATE_IDLE ->
   _state (e st') = MAVLINK_WPM_STATE_IDLE /\
   _time_last_sent (e st') = 0 /\ _time_last_recv (e st') = 0 /\
   _transfer_in_progress (g st') = _transfer_in_progress (g st)).
Proof.
  cbv zeta. unfold send. cbv zeta.
  destruct (keeps_transfer_send_progress now st) as (Hk & Hc).
  destruct (keeps_transfer _ _ Hk) as (K1 & _ & _ & _ & _ & _ & K7).
  set (s1 := send_progress now st) in *. clearbody s1.
  split; intros Hs.
  - assert (Hidle : state_is MAVLINK_WPM_STATE_IDLE s1 = false)
      by (apply state_is_false; congruence).
    rewrite Hidle. cbn [negb andb]. rewrite <- !andb_assoc.
    assert (Hst : state_is MAVLINK_WPM_STATE_GETLIST s1 ||
                  state_is MAVLINK_WPM_STATE_SENDLIST s1 = true).
    { unfold state_is in *. destruct (_state (e s1)); [discriminate|reflexivity..]. }
    destruct ((0 <? _time_last_sent (e s1)) &&
              (_retry_timeout (e s1) <? hrt_elapsed_time (_time_last_sent (e s1)) s1))
      eqn:Hretry; cbn [negb andb].
    + rewrite !andb_true_r.
      destruct (state_is MAVLINK_WPM_STATE_GETLIST s1) eqn:Hg.
      * match goal with
        | |- _state (e ?leaf) = _ /\ _ =>
            assert (Hl : keeps transfer_view s1 leaf) by keep;
            destruct (keeps_transfer _ _ Hl) as (L1 & _ & _ & _ & _ & _ & L7)
        end.
        split; congruence.
      * cbn in Hst. rewrite Hst.
        match goal with
        | |- _state (e ?leaf) = _ /\ _ =>
            assert (Hl : keeps transfer_view s1 leaf) by (repeat split_bool; keep);
            destruct (keeps_transfer _ _ Hl) as (L1 & _ & _ & _ & _ & _ & L7)
        end.
        split; congruence.
    + rewrite !andb_false_r.
      destruct ((0 <? _time_last_recv (e s1)) &&
                (_action_timeout (e s1) <? hrt_elapsed_time (_time_last_recv (e s1)) s1))
        eqn:Haction.
      * split; [reflexivity|]. split; [reflexivity|].
        split.
        { unfold switch_to_idle_state. cbv zeta.
          destruct (_geofence_locked (e (send_statustext_critical "Operation timeout" s1)))
            eqn:Hl; [reflexivity | exact Hl]. }
        apply (sent_then_keeps _ st (send_statustext_critical "Operation timeout" s1)).
        { unfold send_statustext_critical. apply sent_here. exact Hc. }
        keep.
      * split; congruence.
  - assert (Hidle : state_is MAVLINK_WPM_STATE_IDLE s1 = true)
      by (apply state_is_true; congruence).
    destruct (state_is_idle s1 (proj1 (state_is_true _ _) Hidle)) as (-> & -> & ->).
    cbn. repeat split; congruence.
Qed.

Lemma sends_only_progress (st st' : MM) :
  sends_only st st' ->
  _current_seq (g st') = _current_seq (g st) /\
  _last_reached (g st') = _last_reached (g st) /\
  mission_result (w st') = mission_result (w st).
Proof. intros (H1 & H2 & _). rewrite H1. auto. Qed.

Lemma send_after_progress (now : Z) (st : MM) :
  let s1 := send_progress now st in
  let st' := send now st in
  _current_seq (g st') = _current_seq (g s1) /\
  _last_reached (g st') = _last_reached (g s1) /\
  mission_result (w st') = mission_result (w s1) /\
  keeps cursor_view s1 st'.
Proof.
  cbv zeta. unfold send. cbv zeta.
  generalize (send_progress now st). intros s1.
  assert (Hsp : forall s2, sends_only s1 s2 ->
            _current_seq (g s2) = _current_seq (g s1) /\
            _last_reached (g s2) = _last_reached (g s1) /\
            mission_result (w s2) = mission_result (w s1))
    by (intros s2; apply sends_only_progress).
  repeat split_bool.
  all: match goal with
       | |- ?A /\ ?B /\ ?C /\ ?D =>
           assert (HD : D) by keep; assert (HABC : A /\ B /\ C); [|tauto]
       end.
  all: first [ apply Hsp; first [ apply sends_only_send_mission_request
                                | apply sends_only_send_mission_count
                                | apply sends_only_send_mission_item ]
             | unfold switch_to_idle_state; cbv zeta; destruct (_geofence_locked _);
               repeat split
             | repeat split ].
Qed.

(** A mission result of the navigator is consumed by the next [send] and
    reported: afterwards no result is pending, [_current_seq] is the
    current item of the result and [_last_reached] the reached item (or -1
    when none was reached); MISSION_ITEM_REACHED goes out when an item was
    reached, and MISSION_CURRENT when the current item is below the
    mission count. *)
Theorem mission_result_is_reported (now : Z) (r : mission_result_s) (st : MM) :
  mission_result (w st) = Some r ->
  let st' := send now st in
  mission_result (w st') = None /\
  _current_seq (g st') = seq_current r /\
  _last_reached (g st') = (if reached r then seq_reached r else -1) /\
  (reached r = true ->
   sent (mavlink_msg_mission_item_reached_send (u16 (seq_reached r))) st st') /\
  (u16 (seq_current r) < count_at MAV_MISSION_TYPE_MISSION st ->
   sent (mavlink_msg_mission_current_send (u16 (seq_current r))) st st').
Proof.
  intros Hr. cbv zeta.
  destruct (send_after_progress now st) as (A1 & A2 & A3 & Hk). cbv zeta in *.
  rewrite A1, A2, A3. clear A1 A2 A3.
  assert (Hlater : forall c, sent c st (send_progress now st) -> sent c st (send now st)).
  { intros c Hc. apply (sent_then_keeps _ _ _ _ Hc Hk). }
  clear Hk.
  unfold send_progress in *. rewrite Hr in *. cbv zeta in *.
  set (s0 := G (set_current_seq (seq_current r)) (W (set_mission_result None) st)) in *.
  match goal with
  | |- context [send_mission_current ?c ?s] => set (s2 := s) in *
  end.
  assert (H2 : g s2 = g (G (set_last_reached (if reached r then seq_reached r else -1)) s0) /\
               mission_result (w s2) = None /\ keeps cursor_view st s2).
  { subst s2. unfold s0.
    destruct (reached r); (split; [reflexivity|]); (split; [reflexivity|]); keep. }
  destruct H2 as (G2 & M2 & K2).
  set (s3 := send_mission_current (_current_seq (g s2)) s2) in *.
  destruct (sends_only_send_mission_current (_current_seq (g s2)) s2) as (G3 & M3 & _).
  fold s3 in G3, M3.
  assert (Hfin : forall s4, sends_only s3 s4 ->
            mission_result (w s4) = None /\
            _current_seq (g s4) = seq_current r /\
            _last_reached (g s4) = (if reached r then seq_reached r else -1)).
  { intros s4 (G4 & M4 & _). rewrite G4, M4, G3, M3, G2. auto. }
  assert (Hlast : sends_only s3
            (if item_do_jump_changed r
             then send_mission_item (_transfer_partner_sysid (e s3))
                    (_transfer_partner_compid (e s3)) (item_changed_index r) s3
             else s3)).
  { destruct (item_do_jump_changed r); [apply sends_only_send_mission_item | repeat split]. }
  destruct (Hfin _ Hlast) as (F1 & F2 & F3).
  split; [exact F1|]. split; [exact F2|]. split; [exact F3|].
  assert (Hk3 : forall s, keeps cursor_view s
            (if item_do_jump_changed r
             then send_mission_item (_transfer_partner_sysid (e s)) (_transfer_partner_compid (e s))
                    (item_changed_index r) s
             else s)) by (intros s; keep).
  split.
  - intros Hre. apply Hlater.
    eapply sent_then_keeps; [|apply Hk3].
    subst s3 s2. rewrite Hre.
    eapply sent_then_keeps;
      [|apply keeps_send_mission_current; apply keeps_refl].
    unfold send_mission_item_reached. apply sent_here. unfold s0. keep.
  - intros Hlt. apply Hlater.
    eapply sent_then_keeps; [|apply Hk3].
    subst s3. unfold send_mission_current. cbv zeta.
    assert (Hcs : _current_seq (g s2) = seq_current r) by (rewrite G2; reflexivity).
    assert (Hcount : count_at MAV_MISSION_TYPE_MISSION s2 = count_at MAV_MISSION_TYPE_MISSION st).
    { unfold count_at. rewrite G2. reflexivity. }
    rewrite Hcs, Hcount.
    destruct (Z.ltb_spec (u16 (seq_current r)) (count_at MAV_MISSION_TYPE_MISSION st));
      [|lia].
    apply sent_here. exact K2.
Qed.

(** ** Clearing *)

Lemma update_geofence_count_cases (n : Z) (st : MM) :
  let c' := u16 (_geofence_update_counter (g st) + 1) in
  let stats := {| num_items := n; update_counter := c' |} in
  let st0 := G (set_geofence_update_counter c') st in
  update_geofence_count n st =
    if dm_fault st then
      (PX4_ERROR,
       filesystem_error "Mission storage: Unable to write to microSD"
         (emit (dm_write_call DM_KEY_FENCE_POINTS 0 (DmStats stats) false) (dm_called st0)))
    else
      (PX4_OK,
       G (set_count_at MAV_MISSION_TYPE_FENCE n)
         (emit (dm_write_call DM_KEY_FENCE_POINTS 0 (DmStats stats) true)
            (W (set_dm_store (<[(DM_KEY_FENCE_POINTS, 0) := DmStats stats]>
                                (dm_store (w st)))) (dm_called st0)))).
Proof.
  unfold update_geofence_count, dm_write. cbv zeta.
  change (dm_fault (G ?f st)) with (dm_fault st).
  destruct (dm_fault st); reflexivity.
Qed.

Lemma update_safepoint_count_cases (n : Z) (st : MM) :
  let stats := {| num_items := n; update_counter := 0 |} in
  update_safepoint_count n st =
    if dm_fault st then
      (PX4_ERROR,
       filesystem_error "Mission storage: Unable to write to microSD"
         (emit (dm_write_call DM_KEY_SAFE_POINTS 0 (DmStats stats) false) (dm_called st)))
    else
      (PX4_OK,
       G (set_count_at MAV_MISSION_TYPE_RALLY n)
         (emit (dm_write_call DM_KEY_SAFE_POINTS 0 (DmStats stats) true)
            (W (set_dm_store (<[(DM_KEY_SAFE_POINTS, 0) := DmStats stats]>
                                (dm_store (w st)))) (dm_called st)))).
Proof.
  unfold update_safepoint_count, dm_write. cbv zeta.
  destruct (dm_fault st); reflexivity.
Qed.

Lemma filesystem_error_statics (text : string) (st : MM) :
  g (filesystem_error text st) = g st /\
  dm_faults (w (filesystem_error text st)) = dm_faults (w st).
Proof.
  unfold filesystem_error. cbv zeta. destruct (_ <? _); split; reflexivity.
Qed.

Lemma update_active_mission_outcome (id n seq : Z) (st : MM) :
  let r := update_active_mission id n seq st in
  fst r = (if dm_fault st then PX4_ERROR else PX4_OK) /\
  dm_faults (w (snd r)) = tl (dm_faults (w st)) /\
  g (snd r) = (if dm_fault st then g st
               else set_current_seq seq
                      (set_count_at MAV_MISSION_TYPE_MISSION n (set_dataman_id id (g st)))).
Proof.
  cbv zeta. rewrite update_active_mission_cases. cbv zeta.
  destruct (dm_fault st); cbn [fst snd].
  - destruct (filesystem_error_statics "Mission storage: Unable to write to microSD"
      (emit (dm_write_call DM_KEY_MISSION_STATE 0
               (DmMissionState {| dataman_id := id; count := n; current_seq := seq |}) false)
         (dm_called st))) as (-> & ->).
    repeat split.
  - destruct (_offboard_mission_pub (e st)); repeat split.
Qed.

Lemma update_geofence_count_outcome (n : Z) (st : MM) :
  let r := update_geofence_count n st in
  let g0 := set_geofence_update_counter (u16 (_geofence_update_counter (g st) + 1)) (g st) in
  fst r = (if dm_fault st then PX4_ERROR else PX4_OK) /\
  dm_faults (w (snd r)) = tl (dm_faults (w st)) /\
  g (snd r) = (if dm_fault st then g0 else set_count_at MAV_MISSION_TYPE_FENCE n g0).
Proof.
  cbv zeta. rewrite update_geofence_count_cases. cbv zeta.
  destruct (dm_fault st); cbn [fst snd].
  - match goal with |- context [filesystem_error ?t ?s] =>
      destruct (filesystem_error_statics t s) as (-> & ->) end.
    repeat split.
  - repeat split.
Qed.

Lemma update_safepoint_count_outcome (n : Z) (st : MM) :
  let r := update_safepoint_count n st in
  fst r = (if dm_fault st then PX4_ERROR else PX4_OK) /\
  dm_faults (w (snd r)) = tl (dm_faults (w st)) /\
  g (snd r) = (if dm_fault st then g st else set_count_at MAV_MISSION_TYPE_RALLY n (g st)).
Proof.
  cbv zeta. rewrite update_safepoint_count_cases. cbv zeta.
  destruct (dm_fault st); cbn [fst snd].
  - match goal with |- context [filesystem_error ?t ?s] =>
      destruct (filesystem_error_statics t s) as (-> & ->) end.
    repeat split.
  - repeat split.
Qed.

(** MISSION_CLEAR_ALL for all types.  In IDLE, the endpoint tries to clear
    the mission, the fence and the rally points one after the other, each
    whatever became of the ones before: a list whose record could be
    written has count 0, a list whose write failed keeps its count.  The
    answer is MISSION_ACK(ACCEPTED) when the three writes succeeded and
    MISSION_ACK(ERROR) otherwise, with mission type ALL, sent to the
    partner of the previous transfer; the endpoint stays in IDLE.  Clearing
    the mission makes the other buffer the active one. *)
Theorem clear_all_clears_each_list (msg : mavlink_message_t)
    (wpca : mavlink_mission_clear_all_t) (st : MM)
    (mission_count fence_count rally_count : Z) (f1 f2 f3 : bool) (later : list bool) :
  CHECK_SYSID_COMPID_MISSION (wpca_target_system wpca) (wpca_target_component wpca) st = true ->
  _state (e st) = MAVLINK_WPM_STATE_IDLE ->
  wpca_mission_type wpca = MAV_MISSION_TYPE_ALL ->
  _count (g st) = [mission_count; fence_count; rally_count] ->
  dm_faults (w st) = f1 :: f2 :: f3 :: later ->
  let st' := handle_mission_clear_all msg wpca st in
  _count (g st') = [if f1 then mission_count else 0;
                    if f2 then fence_count else 0;
                    if f3 then rally_count else 0] /\
  _dataman_id (g st') = (if f1 then _dataman_id (g st) else inactive_dataman_id st) /\
  dm_faults (w st') = later /\
  _state (e st') = MAVLINK_WPM_STATE_IDLE /\
  exists en, hd_error (log (w st')) = Some en /\
    call en = mavlink_msg_mission_ack_send
                {| wpa_target_system := u8 (_transfer_partner_sysid (e st));
                   wpa_target_component := u8 (_transfer_partner_compid (e st));
                   wpa_type := if f1 || f2 || f3 then MAV_MISSION_ERROR
                               else MAV_MISSION_ACCEPTED;
                   wpa_mission_type := MAV_MISSION_TYPE_ALL |}.
Proof.
  intros Hc Hs Hty Hcount Hfaults. cbv zeta. unfold handle_mission_clear_all. rewrite Hc.
  destruct (state_is_idle st Hs) as (-> & _ & _). cbv zeta. rewrite Hty.
  cbn [Z.eqb MAV_MISSION_TYPE_ALL MAV_MISSION_TYPE_MISSION MAV_MISSION_TYPE_FENCE
       MAV_MISSION_TYPE_RALLY Pos.eqb].
  set (s0 := E (set_mission_type MAV_MISSION_TYPE_ALL) (E (set_time_last_recv _) st)).
  change (if _dataman_id (g s0) =? 0 then 1 else 0) with (inactive_dataman_id st).
  set (r1 := update_active_mission (inactive_dataman_id st) 0 0 s0).
  set (r2 := update_geofence_count 0 (snd r1)).
  set (r3 := update_safepoint_count 0 (snd r2)).
  assert (K1 : keeps transfer_view s0 (snd r1)) by (unfold r1; keep).
  assert (K2 : keeps transfer_view s0 (snd r2)) by (unfold r2; keep).
  assert (K3 : keeps transfer_view s0 (snd r3)) by (unfold r3; keep).
  destruct (keeps_transfer _ _ K3) as (Ks & Kt & _ & _ & Kp & Kq & _).
  destruct (update_active_mission_outcome (inactive_dataman_id st) 0 0 s0) as (A1 & A2 & A3).
  destruct (update_geofence_count_outcome 0 (snd r1)) as (B1 & B2 & B3).
  destruct (update_safepoint_count_outcome 0 (snd r2)) as (C1 & C2 & C3).
  fold r1 in A1, A2, A3. fold r2 in B1, B2, B3, C1, C2, C3. fold r3 in C1, C2, C3.
  assert (F1 : dm_fault s0 = f1) by (unfold dm_fault; cbn [s0 w E]; rewrite Hfaults; reflexivity).
  assert (D1 : dm_faults (w (snd r1)) = f2 :: f3 :: later)
    by (rewrite A2; cbn [s0 w E]; rewrite Hfaults; reflexivity).
  assert (F2 : dm_fault (snd r1) = f2) by (unfold dm_fault; rewrite D1; reflexivity).
  assert (D2 : dm_faults (w (snd r2)) = f3 :: later) by (rewrite B2, D1; reflexivity).
  assert (F3 : dm_fault (snd r2) = f3) by (unfold dm_fault; rewrite D2; reflexivity).
  rewrite F1 in A1, A3. rewrite F2 in B1, B3. rewrite F3 in C1, C3.
  assert (Hret : (c_or (fst r3) (c_or (fst r2) (fst r1)) =? PX4_OK) = negb (f1 || f2 || f3)).
  { rewrite A1, B1, C1. destruct f1, f2, f3; reflexivity. }
  cbn [fst snd]. rewrite Hret, Kp, Kq.
  assert (Hg : _count (g (snd r3)) = [if f1 then mission_count else 0;
                                      if f2 then fence_count else 0;
                                      if f3 then rally_count else 0] /\
               _dataman_id (g (snd r3)) =
                 (if f1 then _dataman_id (g st) else inactive_dataman_id st)).
  { rewrite C3, B3, A3. change (g s0) with (g st).
    destruct f1, f2, f3; cbn; rewrite Hcount; split; reflexivity. }
  destruct Hg as (Hg1 & Hg2).
  assert (Hs3 : _state (e (snd r3)) = MAVLINK_WPM_STATE_IDLE) by (rewrite Ks; exact Hs).
  assert (Hf3 : dm_faults (w (snd r3)) = later) by (rewrite C2, D2; reflexivity).
  change (_transfer_partner_sysid (e s0)) with (_transfer_partner_sysid (e st)).
  change (_transfer_partner_compid (e s0)) with (_transfer_partner_compid (e st)).
  change (_mission_type (e s0)) with MAV_MISSION_TYPE_ALL in Kt.
  destruct (f1 || f2 || f3); cbn [negb]; unfold send_mission_ack; rewrite Kt.
  all: split; [exact Hg1|]; split; [exact Hg2|]; split; [exact Hf3|]; split; [exact Hs3|].
  all: eexists; split; reflexivity.
Qed.

(** ** The bookkeeping of a session *)

#[local] Instance session_view_lenient : Lenient session_view.
Proof. split; intros; try reflexivity; exact I. Qed.

#[local] Instance session_view_permissive : Permissive session_view.
Proof. split; intros; try reflexivity; exact I. Qed.

#[local] Instance flag_view_lenient : Lenient flag_view.
Proof. split; intros; try reflexivity; exact I. Qed.

#[local] Instance flag_view_permissive : Permissive flag_view.
Proof. split; intros; try reflexivity; exact I. Qed.

Lemma keeps_flag (st st' : MM) :
  keeps flag_view st st' -> _transfer_in_progress (g st') = _transfer_in_progress (g st).
Proof. intros (_ & H & _). exact H. Qed.

Lemma keeps_lock (st st' : MM) :
  keeps lock_view st st' ->
  _state (e st') = _state (e st) /\
  _geofence_locked (e st') = _geofence_locked (e st) /\
  fence_lock (w st') = fence_lock (w st).
Proof.
  intros (H1 & _ & H3 & _). cbn in H1. injection H1 as H1 H1'.
  specialize (H3 eq_refl). repeat split; assumption.
Qed.

Lemma consistent_kept (st st' : MM) :
  consistent st -> keeps session_view st st' -> consistent st'.
Proof.
  intros (C1 & C2 & C3) (H1 & H2 & H3 & _). cbn in H1, H2. injection H1 as H1 H1' H1''.
  specialize (H3 eq_refl). unfold consistent.
  rewrite H1, H1', H1'', H2, H3. repeat split; tauto.
Qed.

Lemma not_receiving (st : MM) :
  consistent st -> _state (e st) <> MAVLINK_WPM_STATE_GETLIST ->
  _transfer_in_progress (g st) = false /\ _geofence_locked (e st) = false /\
  fence_lock (w st) = false.
Proof.
  intros (C1 & C2 & C3) Hs.
  assert (Hl : _geofence_locked (e st) = false).
  { destruct (_geofence_locked (e st)); [|reflexivity]. destruct C2; tauto. }
  split; [|split; congruence].
  destruct (_transfer_in_progress (g st)); [|reflexivity]. tauto.
Qed.

Lemma idle_clean_switch (st s1 : MM) :
  consistent st -> keeps lock_view st s1 -> idle_clean (switch_to_idle_state s1).
Proof.
  intros (_ & _ & C3) H. destruct (keeps_lock _ _ H) as (_ & K2 & K3).
  unfold switch_to_idle_state, idle_clean, dm_unlock.
  destruct (_geofence_locked (e s1)) eqn:Hl; cbn; repeat split; congruence.
Qed.

Lemma idle_clean_kept (s s' : MM) : idle_clean s -> keeps lock_view s s' -> idle_clean s'.
Proof.
  intros (I1 & I2 & I3) H. destruct (keeps_lock _ _ H) as (K1 & K2 & K3).
  unfold idle_clean. repeat split; congruence.
Qed.

Lemma idle_clean_emit (c : Event) (s : MM) : idle_clean s -> idle_clean (emit c s).
Proof. intros H. exact H. Qed.

Lemma idle_clean_G (f : Globals -> Globals) (s : MM) : idle_clean s -> idle_clean (G f s).
Proof. intros H. exact H. Qed.

Lemma idle_clean_send_mission_ack (a b c : Z) (s : MM) :
  idle_clean s -> idle_clean (send_mission_ack a b c s).
Proof. intros H. apply (idle_clean_kept _ _ H). keep. Qed.

Lemma idle_clean_send_statustext_critical (text : string) (s : MM) :
  idle_clean s -> idle_clean (send_statustext_critical text s).
Proof. intros H. apply (idle_clean_kept _ _ H). keep. Qed.

Lemma idle_clean_if (b : bool) (s1 s2 : MM) :
  idle_clean s1 -> idle_clean s2 -> idle_clean (if b then s1 else s2).
Proof. destruct b; auto. Qed.

Lemma consistent_of_idle (s : MM) :
  idle_clean s -> _transfer_in_progress (g s) = false -> consistent s.
Proof.
  intros (I1 & I2 & I3) Ht. unfold consistent. rewrite I1, I2, I3, Ht.
  repeat split; intros; discriminate.
Qed.

Lemma idle_of_consistent (st : MM) :
  consistent st -> _state (e st) = MAVLINK_WPM_STATE_IDLE -> idle_clean st.
Proof.
  intros C Hs. destruct (not_receiving st C) as (_ & H2 & H3); [rewrite Hs; discriminate|].
  repeat split; assumption.
Qed.

Create HintDb idle discriminated.
#[local] Hint Resolve idle_clean_emit idle_clean_G idle_clean_send_mission_ack
  idle_clean_send_statustext_critical idle_clean_if : idle.
#[local] Hint Extern 1 (idle_clean (switch_to_idle_state _)) =>
  match goal with
  | C : consistent ?st |- _ => apply (idle_clean_switch st); [exact C | keep]
  end : idle.
#[local] Hint Extern 5 (idle_clean _) =>
  match goal with
  | C : idle_clean ?st |- _ => apply (idle_clean_kept st); [exact C | keep]
  end : idle.

(** A leaf of a handler: the session is as it was, or the endpoint is in
    IDLE, holds nothing, and the upload flag is down. *)
Ltac tidy st :=
  first
    [ apply (consistent_kept st); [assumption | keep]
    | apply consistent_of_idle;
      [ solve [auto 12 with idle]
      | first [ reflexivity
              | rewrite (keeps_flag st); [assumption | keep] ] ] ].

Lemma state_is_getlist_not (s : MAVLINK_WPM_STATES) (st : MM) :
  s <> MAVLINK_WPM_STATE_GETLIST -> state_is s st = true ->
  _state (e st) <> MAVLINK_WPM_STATE_GETLIST.
Proof. intros Hs H. apply state_is_true in H. congruence. Qed.

Lemma handle_mission_ack_consistent (msg : mavlink_message_t)
    (wpa : mavlink_mission_ack_t) (st : MM) :
  consistent st -> consistent (handle_mission_ack msg wpa st).
Proof.
  intros C. unfold handle_mission_ack. cbv zeta.
  destruct (CHECK_SYSID_COMPID_MISSION _ _ st); [|exact C].
  destruct (from_partner msg st); [|tidy st].
  destruct (state_is MAVLINK_WPM_STATE_SENDLIST st) eqn:Hs; cbn [andb].
  - assert (Hn : _state (e st) <> MAVLINK_WPM_STATE_GETLIST)
      by (apply (state_is_getlist_not _ st) in Hs; [exact Hs | discriminate]).
    destruct (not_receiving st C Hn) as (Ht & _ & _).
    repeat split_bool; tidy st.
  - repeat split_bool; tidy st.
Qed.

Lemma handle_mission_set_current_consistent (msg : mavlink_message_t)
    (wpc : mavlink_mission_set_current_t) (st : MM) :
  consistent st -> consistent (handle_mission_set_current msg wpc st).
Proof.
  intros C. unfold handle_mission_set_current. cbv zeta.
  repeat split_bool; tidy st.
Qed.

Lemma handle_mission_request_list_consistent (msg : mavlink_message_t)
    (wprl : mavlink_mission_request_list_t) (st : MM) :
  consistent st -> consistent (handle_mission_request_list msg wprl st).
Proof.
  intros C. unfold handle_mission_request_list.
  destruct (CHECK_SYSID_COMPID_MISSION _ _ st); [|exact C].
  destruct (_ || _) eqn:Hb; [|tidy st].
  assert (Hn : _state (e st) <> MAVLINK_WPM_STATE_GETLIST).
  { apply orb_true_iff in Hb. destruct Hb as [Hb|Hb].
    - apply (state_is_getlist_not _ st) in Hb; [exact Hb | discriminate].
    - apply andb_true_iff in Hb. destruct Hb as (Hb & _).
      apply (state_is_getlist_not _ st) in Hb; [exact Hb | discriminate]. }
  destruct (not_receiving st C Hn) as (Ht & Hl & Hf).
  cbv zeta.
  set (b := E (set_mission_type (wprl_mission_type wprl))
              (E (set_state MAVLINK_WPM_STATE_SENDLIST)
                 (E (set_time_last_recv (hrt_absolute_time st)) st))).
  assert (Cb : consistent b).
  { unfold consistent. cbn [b e g w E]. cbn. rewrite Ht, Hl, Hf.
    repeat split; intros; discriminate. }
  repeat split_bool; tidy b.
Qed.

Lemma handle_mission_request_both_consistent (msg : mavlink_message_t)
    (wpr : mavlink_mission_request_t) (st s0 : MM) :
  consistent s0 -> keeps session_view s0 st -> keeps flag_view s0 st ->
  consistent (handle_mission_request_both msg wpr st).
Proof.
  intros C0 K Kf. pose proof (consistent_kept _ _ C0 K) as C.
  unfold handle_mission_request_both, reject_request. cbv zeta.
  destruct (CHECK_SYSID_COMPID_MISSION _ _ st); [|exact C].
  destruct (from_partner msg st); [|tidy st].
  destruct (state_is MAVLINK_WPM_STATE_SENDLIST st) eqn:Hs.
  - assert (Hn : _state (e st) <> MAVLINK_WPM_STATE_GETLIST)
      by (apply (state_is_getlist_not _ st) in Hs; [exact Hs | discriminate]).
    destruct (not_receiving st C Hn) as (Ht & _ & _).
    repeat split_bool; tidy st.
  - repeat split_bool; tidy st.
Qed.

Lemma handle_mission_count_consistent (msg : mavlink_message_t)
    (wpc : mavlink_mission_count_t) (st : MM) :
  consistent st -> consistent (handle_mission_count msg wpc st).
Proof.
  intros C. unfold handle_mission_count.
  destruct (CHECK_SYSID_COMPID_MISSION _ _ st); [|exact C].
  destruct (state_is MAVLINK_WPM_STATE_IDLE st) eqn:Hs.
  - apply state_is_true in Hs. pose proof (idle_of_consistent st C Hs) as Ic.
    destruct Ic as (_ & Hl & Hf).
    cbv zeta.
    change (_transfer_in_progress (g (E ?f st))) with (_transfer_in_progress (g st)).
    destruct (_transfer_in_progress (g st)) eqn:Ht; [tidy st|].
    pose proof (idle_of_consistent st C Hs) as Ic.
    destruct (_ <? wpc_count wpc); [tidy st|].
    destruct (wpc_count wpc =? 0).
    { repeat split_bool; tidy st. }
    match goal with
    | |- consistent (send_mission_request _ _ _ ?s) =>
        apply (consistent_kept s); [|keep]
    end.
    cbn [_mission_type e E set_mission_type set_transfer_current_seq set_transfer_dataman_id
         set_transfer_count set_transfer_partner_compid set_transfer_partner_sysid
         set_transfer_seq set_state].
    destruct (wpc_mission_type wpc =? MAV_MISSION_TYPE_FENCE) eqn:Hty.
    + apply Z.eqb_eq in Hty. unfold dm_lock.
      destruct (dm_fault _); cbn [fst snd]; unfold consistent; cbn; rewrite ?Hl, ?Hf.
      all: repeat split; intros; try discriminate; try assumption; try reflexivity.
    + unfold consistent; cbn; rewrite ?Hl, ?Hf.
      repeat split; intros; try discriminate; try reflexivity.
  - cbv zeta. repeat split_bool; tidy st.
Qed.

Lemma handle_mission_item_both_consistent (msg : mavlink_message_t)
    (wp : mavlink_mission_item_t) (st s0 : MM) :
  consistent s0 -> keeps session_view s0 st ->
  consistent (handle_mission_item_both msg wp st).
Proof.
  intros C0 K. pose proof (consistent_kept _ _ C0 K) as C.
  unfold handle_mission_item_both. cbv zeta. rewrite parse_keeps_members.
  repeat split_bool; tidy st.
Qed.

Lemma handle_mission_clear_all_consistent (msg : mavlink_message_t)
    (wpca : mavlink_mission_clear_all_t) (st : MM) :
  consistent st -> consistent (handle_mission_clear_all msg wpca st).
Proof.
  intros C. unfold handle_mission_clear_all.
  destruct (CHECK_SYSID_COMPID_MISSION _ _ st); [|exact C].
  destruct (state_is MAVLINK_WPM_STATE_IDLE st) eqn:Hs; [|tidy st].
  apply state_is_true in Hs. pose proof (idle_of_consistent st C Hs) as Ic.
  destruct (not_receiving st C) as (Ht & _ & _); [rewrite Hs; discriminate|].
  cbv zeta. repeat split_bool; cbn [fst snd]; tidy st.
Qed.

Lemma send_consistent (now : Z) (st : MM) : consistent st -> consistent (send now st).
Proof.
  intros C.
  pose proof (keeps_send_progress now st st (keeps_refl st) : keeps session_view _ _) as K.
  pose proof (keeps_send_progress now st st (keeps_refl st) : keeps lock_view _ _) as Kl.
  unfold send. cbv zeta.
  repeat split_bool; tidy st.
Qed.

Lemma step_consistent (i : Input) (st : MM) : consistent st -> consistent (step i st).
Proof.
  intros C. destruct i as [msg | now]; cbn [step]; [|apply send_consistent; exact C].
  unfold handle_message.
  destruct (payload msg) as [wpa|wpc|wprl|wpr|wpr|wpc|wp|wp|wpca|].
  - apply handle_mission_ack_consistent; exact C.
  - apply handle_mission_set_current_consistent; exact C.
  - apply handle_mission_request_list_consistent; exact C.
  - unfold handle_mission_request. cbv zeta.
    apply (handle_mission_request_both_consistent msg wpr _ st C);
      destruct (_int_mode (e st)); keep.
  - unfold handle_mission_request_int. cbv zeta.
    apply (handle_mission_request_both_consistent msg wpr _ st C);
      destruct (negb _); keep.
  - apply handle_mission_count_consistent; exact C.
  - unfold handle_mission_item. cbv zeta.
    apply (handle_mission_item_both_consistent msg wp _ st C).
    destruct (_int_mode (e st)); keep.
  - unfold handle_mission_item_int. cbv zeta.
    apply (handle_mission_item_both_consistent msg wp _ st C).
    destruct (negb _); keep.
  - apply handle_mission_clear_all_consistent; exact C.
  - exact C.
Qed.

(** The bookkeeping of a session survives every sequence of messages and
    ticks.  If the upload flag of the process is set exactly while the
    endpoint is in GETLIST, the lock flag is set only in GETLIST with a
    fence in transfer, and the flag agrees with the lock of the fence
    namespace, then the same holds after the endpoint has handled the
    inputs: no path leaves the flag or the lock behind. *)
Theorem session_bookkeeping_is_kept (inputs : list Input) (st : MM) :
  consistent st -> consistent (run inputs st).
Proof.
  revert st. unfold run.
  induction inputs as [|i inputs IH]; intros st C; cbn [fold_left]; [exact C|].
  apply IH, step_consistent, C.
Qed.

(** ** A polygon that is too short *)

Lemma filesystem_error_store (text : string) (st : MM) :
  dm_store (w (filesystem_error text st)) = dm_store (w st).
Proof. unfold filesystem_error. cbv zeta. destruct (_ <? _); reflexivity. Qed.

(** The path of [handle_mission_item_both] through the feasibility check
    of a polygon vertex. *)
Lemma handle_mission_item_both_short_polygon (msg : mavlink_message_t)
    (wp : mavlink_mission_item_t) (st : MM) :
  CHECK_SYSID_COMPID_MISSION (wp_target_system wp) (wp_target_component wp) st = true ->
  wp_mission_type wp = MAV_MISSION_TYPE_FENCE ->
  _mission_type (e st) = MAV_MISSION_TYPE_FENCE ->
  _state (e st) = MAVLINK_WPM_STATE_GETLIST ->
  wp_seq wp = _transfer_seq (e st) ->
  let st1 := E (set_time_last_recv (hrt_absolute_time st)) st in
  let pr := parse_mavlink_mission_item wp mission_item_zero st1 in
  fst (fst pr) = MAV_MISSION_ACCEPTED ->
  is_polygon_vertex (nav_cmd (snd (fst pr))) = true ->
  vertex_count (snd (fst pr)) < 3 ->
  let s2 := snd (update_geofence_count 0 st1) in
  handle_mission_item_both msg wp st =
    G (set_transfer_in_progress false)
      (switch_to_idle_state
         (send_mission_ack (_transfer_partner_sysid (e s2)) (_transfer_partner_compid (e s2))
            MAV_MISSION_ERROR s2)).
Proof.
  intros Hc Hwt Hty Hs Hseq st1 pr Hok Hpoly Hshort s2.
  unfold handle_mission_item_both. rewrite Hc, Hwt, Hty.
  cbn [Z.eqb MAV_MISSION_TYPE_FENCE Pos.eqb negb].
  assert (Hg : state_is MAVLINK_WPM_STATE_GETLIST st = true) by (apply state_is_true, Hs).
  rewrite Hg. cbv zeta. fold st1.
  change (_transfer_seq (e st1)) with (_transfer_seq (e st)).
  rewrite Hseq, Z.eqb_refl. cbn [negb].
  rewrite parse_keeps_members. fold pr. rewrite Hok.
  cbn [Z.eqb MAV_MISSION_ACCEPTED PX4_OK negb].
  unfold store_mission_item.
  change (_mission_type (e st1)) with (_mission_type (e st)). rewrite Hty.
  cbn [Z.eqb MAV_MISSION_TYPE_FENCE MAV_MISSION_TYPE_MISSION Pos.eqb].
  cbv zeta. rewrite Hpoly.
  destruct (Z.ltb_spec (vertex_count (snd (fst pr))) 3) as [_|Hge]; [|lia].
  cbn [andb fst snd negb orb]. reflexivity.
Qed.

(** A polygon vertex that announces fewer than three vertices.  In a fence
    upload, when the expected item is a polygon vertex whose vertex count
    is below 3, the endpoint does not store it: it calls
    update_geofence_count(0), so that the fence in use is emptied (its
    count is 0 unless the write of the record fails, and the update counter
    has moved), answers MISSION_ACK(ERROR), gives the lock back and drops
    to IDLE with the upload flag down. *)
Theorem short_polygon_empties_the_fence (msg : mavlink_message_t)
    (wp : mavlink_mission_item_t) (st : MM) :
  CHECK_SYSID_COMPID_MISSION (wp_target_system wp) (wp_target_component wp) st = true ->
  wp_mission_type wp = MAV_MISSION_TYPE_FENCE ->
  _mission_type (e st) = MAV_MISSION_TYPE_FENCE ->
  _state (e st) = MAVLINK_WPM_STATE_GETLIST ->
  wp_seq wp = _transfer_seq (e st) ->
  0 <= wp_seq wp ->
  (1 < length (_count (g st)))%nat ->
  let st1 := E (set_time_last_recv (hrt_absolute_time st)) st in
  let pr := parse_mavlink_mission_item wp mission_item_zero st1 in
  fst (fst pr) = MAV_MISSION_ACCEPTED ->
  is_polygon_vertex (nav_cmd (snd (fst pr))) = true ->
  vertex_count (snd (fst pr)) < 3 ->
  let st' := handle_mission_item_both msg wp st in
  count_at MAV_MISSION_TYPE_FENCE st' =
    (if dm_fault st then count_at MAV_MISSION_TYPE_FENCE st else 0) /\
  _geofence_update_counter (g st') = u16 (_geofence_update_counter (g st) + 1) /\
  dm_store (w st') !! (DM_KEY_FENCE_POINTS, wp_seq wp + 1) =
    dm_store (w st) !! (DM_KEY_FENCE_POINTS, wp_seq wp + 1) /\
  _state (e st') = MAVLINK_WPM_STATE_IDLE /\
  _transfer_in_progress (g st') = false /\
  _geofence_locked (e st') = false /\
  exists c, is_mission_ack MAV_MISSION_ERROR c /\ sent c st st'.
Proof.
  intros Hc Hwt Hty Hs Hseq Hpos Hlen st1 pr Hok Hpoly Hshort st'.
  unfold st'.
  rewrite (handle_mission_item_both_short_polygon msg wp st Hc Hwt Hty Hs Hseq Hok Hpoly Hshort).
  fold st1. set (s2 := snd (update_geofence_count 0 st1)).
  destruct (update_geofence_count_outcome 0 st1) as (_ & _ & Hg). fold s2 in Hg.
  change (dm_fault st1) with (dm_fault st) in Hg. change (g st1) with (g st) in Hg.
  assert (Hstore : dm_store (w s2) !! (DM_KEY_FENCE_POINTS, wp_seq wp + 1) =
                   dm_store (w st) !! (DM_KEY_FENCE_POINTS, wp_seq wp + 1)).
  { unfold s2. rewrite update_geofence_count_cases. cbv zeta.
    change (dm_fault st1) with (dm_fault st).
    destruct (dm_fault st); cbn [snd].
    - rewrite filesystem_error_store. reflexivity.
    - cbn. apply lookup_insert_ne. intros Heq. injection Heq as Heq. lia. }
  set (s3 := send_mission_ack _ _ MAV_MISSION_ERROR s2).
  assert (Hl : _geofence_locked (e (switch_to_idle_state s3)) = false /\
               _state (e (switch_to_idle_state s3)) = MAVLINK_WPM_STATE_IDLE /\
               dm_store (w (switch_to_idle_state s3)) = dm_store (w s2) /\
               g (switch_to_idle_state s3) = g s2).
  { unfold switch_to_idle_state, dm_unlock.
    destruct (_geofence_locked (e s3)) eqn:Hlk; cbn; repeat split; exact Hlk. }
  destruct Hl as (Hl1 & Hl2 & Hl3 & Hl4).
  split.
  { unfold count_at. cbn [g G]. rewrite Hl4, Hg.
    destruct (dm_fault st); cbn; [reflexivity|].
    apply list_lookup_total_insert_eq. exact Hlen. }
  split.
  { cbn [g G]. rewrite Hl4, Hg. destruct (dm_fault st); reflexivity. }
  split; [cbn [w G]; rewrite Hl3; exact Hstore|].
  split; [exact Hl2|]. split; [reflexivity|]. split; [exact Hl1|].
  unfold s3, send_mission_ack.
  match goal with
  | |- context [emit ?c s2] =>
      exists c; split; [eexists; split; reflexivity|];
      apply (sent_then_keeps _ st (emit c s2)); [apply sent_here; unfold s2, st1; keep | keep]
  end.
Qed.

End Properties.

(** * Concrete runs *)

Section Checks.
#[local] Existing Instance rational_platform.

(** Closed facts about a run are settled by evaluating the run. *)
Ltac run_each :=
  lazymatch goal with
  | |- _ /\ _ => split; [run_each | run_each]
  | |- _ => vm_compute; reflexivity
  end.

(** C1: the upload of one waypoint, from the initial state. *)
Lemma mission_upload_double_buffer_witness :
  payload (gcs_count MAV_MISSION_TYPE_MISSION 1) =
    MAVLINK_MSG_ID_MISSION_COUNT (gcs_wpc MAV_MISSION_TYPE_MISSION 1) /\
  wpc_mission_type (gcs_wpc MAV_MISSION_TYPE_MISSION 1) = MAV_MISSION_TYPE_MISSION /\
  _state (e mm_init) = MAVLINK_WPM_STATE_IDLE /\
  _state (e (step (Message (gcs_count MAV_MISSION_TYPE_MISSION 1)) mm_init)) =
    MAVLINK_WPM_STATE_GETLIST /\
  upload_run (inactive_dataman_id mm_init)
    (step (Message (gcs_count MAV_MISSION_TYPE_MISSION 1)) mm_init)
    [Message (gcs_waypoint 0)].
Proof.
  split; [reflexivity|].
  do 3 (split; [vm_compute; reflexivity|]).
  apply (mission_upload_double_buffer
           (gcs_count MAV_MISSION_TYPE_MISSION 1)
           (gcs_wpc MAV_MISSION_TYPE_MISSION 1) mm_init [Message (gcs_waypoint 0)]);
    [reflexivity | vm_compute; reflexivity ..].
Defined.

(** C1, as stated, fails on the upload of one waypoint.  The active id is 0
    before the upload.  The three newest calls of the upload are, newest
    first, the MISSION_ACK, the publication of the header that names
    buffer 1 and the write of that header; next to each is the active id at
    the moment of the call.  It is 0 when the header is written and 1
    already when the header is published: the swap does not wait for the
    publication. *)
Lemma swap_precedes_publication :
  let hdr := {| dataman_id := 1; count := 1; current_seq := -1 |} in
  _dataman_id (g mm_init) = 0 /\
  map (fun en => (call en, _dataman_id (at_g en))) (firstn 3 (log (w mm_one_waypoint))) =
    [(mavlink_msg_mission_ack_send
        {| wpa_target_system := 255; wpa_target_component := 0;
           wpa_type := MAV_MISSION_ACCEPTED; wpa_mission_type := 0 |}, 1);
     (orb_advertise_call hdr, 1);
     (dm_write_call DM_KEY_MISSION_STATE 0 (DmMissionState hdr) true, 0)].
Proof. cbv zeta. run_each. Qed.

(** C2: scenario 5 of the specification.  The fence upload holds the lock;
    a polygon vertex that announces two vertices takes the endpoint back to
    IDLE, and the lock is released. *)
Lemma fence_lock_released_on_idle_witness :
  _geofence_locked (e mm_fence_upload_started) = true /\
  _state (e mm_fence_upload_started) <> MAVLINK_WPM_STATE_IDLE /\
  _state (e (step (Message gcs_short_polygon) mm_fence_upload_started)) =
    MAVLINK_WPM_STATE_IDLE /\
  lock_released mm_fence_upload_started
    (step (Message gcs_short_polygon) mm_fence_upload_started).
Proof.
  split; [reflexivity|]. split; [discriminate|]. split; [reflexivity|].
  apply (fence_lock_released_on_idle (Message gcs_short_polygon) mm_fence_upload_started);
    [discriminate | reflexivity].
Defined.

(** C3: the first waypoint of the announced upload moves the cursor
    to 1. *)
Lemma mission_item_sequence_discipline_witness :
  _state (e mm_upload_started) = MAVLINK_WPM_STATE_GETLIST /\
  _transfer_seq (e (handle_mission_item_both (gcs_waypoint 0)
                      (gcs_wp MAV_MISSION_TYPE_MISSION 0 MAV_FRAME_GLOBAL
                         MAV_CMD_NAV_WAYPOINT 0%Q)
                      (E (set_int_mode false) mm_upload_started))) = 1.
Proof.
  split; [reflexivity|].
  exact (proj1 (mission_item_sequence_discipline (gcs_waypoint 0)
                  (gcs_wp MAV_MISSION_TYPE_MISSION 0 MAV_FRAME_GLOBAL MAV_CMD_NAV_WAYPOINT 0%Q)
                  false mm_upload_started eq_refl) eq_refl eq_refl eq_refl).
Defined.

(** C3, as stated, fails on an item with the expected sequence number 0 in
    a frame that the parser does not support (LOCAL_NED, 1): the cursor
    stays at 0, MISSION_ACK(UNSUPPORTED_FRAME) is sent and the endpoint is
    in IDLE. *)
Lemma unsupported_item_does_not_advance :
  let item := gcs_item MAV_MISSION_TYPE_MISSION 0 1 MAV_CMD_NAV_WAYPOINT 0%Q in
  let st' := step (Message item) mm_upload_started in
  _state (e mm_upload_started) = MAVLINK_WPM_STATE_GETLIST /\
  _transfer_seq (e mm_upload_started) = 0 /\
  _transfer_seq (e st') = 0 /\
  _state (e st') = MAVLINK_WPM_STATE_IDLE /\
  map call (firstn 2 (log (w st'))) =
    [mavlink_msg_mission_ack_send
       {| wpa_target_system := 255; wpa_target_component := 0;
          wpa_type := MAV_MISSION_UNSUPPORTED_FRAME; wpa_mission_type := 0 |};
     statustext_critical "IGN MISSION_ITEM: Busy"].
Proof. cbv zeta. run_each. Qed.

(** C4: the request of item 0 of the stored mission moves the cursor to 1
    and is answered by one MISSION_ITEM, addressed to the ground station,
    that carries the waypoint. *)
Lemma mission_request_sequence_discipline_witness :
  let st := mm_download_started in
  let wp := set_wp_current (if _current_seq (g st) =? 0 then 1 else 0)
              (set_wp_seq 0
                 (set_wp_target_component (u8 (_transfer_partner_compid (e st)))
                    (set_wp_target_system (u8 (_transfer_partner_sysid (e st)))
                       (snd (format_mavlink_mission_item false
                               (snd (fst (read_mission_item 0 st)))
                               (wp_uninit (w st))))))) in
  let st' := handle_mission_request_both (gcs_request MAV_MISSION_TYPE_MISSION 0)
               (gcs_wpr MAV_MISSION_TYPE_MISSION 0) (E (set_int_mode false) st) in
  CHECK_SYSID_COMPID_MISSION 1 1 st = true /\
  from_partner (gcs_request MAV_MISSION_TYPE_MISSION 0) st = true /\
  _state (e st) = MAVLINK_WPM_STATE_SENDLIST /\
  _transfer_seq (e st) = 0 /\
  _transfer_count (e st) = 1 /\
  (_transfer_seq (e st') = 1 /\
   _state (e st') = MAVLINK_WPM_STATE_SENDLIST /\
   exists en, log (w st') = en :: log (w st) /\
              call en = mavlink_msg_mission_item_send wp) /\
  wp_seq wp = 0 /\ wp_target_system wp = 255 /\ wp_target_component wp = 0 /\
  wp_command wp = MAV_CMD_NAV_WAYPOINT /\ wp_frame wp = MAV_FRAME_GLOBAL.
Proof.
  intros st wp st'.
  split; [reflexivity|]. split; [reflexivity|]. split; [reflexivity|].
  split; [reflexivity|]. split; [reflexivity|].
  split.
  - exact (proj1 (mission_request_sequence_discipline
                    (gcs_request MAV_MISSION_TYPE_MISSION 0)
                    (gcs_wpr MAV_MISSION_TYPE_MISSION 0) false mm_download_started
                    eq_refl eq_refl eq_refl eq_refl
                    ltac:(vm_compute; split; [discriminate | reflexivity])
                    ltac:(vm_compute; split; [discriminate | reflexivity])
                    ltac:(reflexivity))
             eq_refl eq_refl).
  - split; [reflexivity|]. split; [reflexivity|]. split; [reflexivity|].
    split; vm_compute; reflexivity.
Defined.

(** C4, as stated, fails when dataman cannot deliver the item: the request
    of item 0 has [seq = _transfer_seq < _transfer_count] and advances the
    cursor, but what is sent is MISSION_ACK(ERROR) and a status text, not
    the item, and the endpoint stays in SENDLIST. *)
Lemma request_served_without_item :
  let st := mm_download_read_fault in
  let st' := step (Message (gcs_request MAV_MISSION_TYPE_MISSION 0)) st in
  _state (e st) = MAVLINK_WPM_STATE_SENDLIST /\
  _transfer_seq (e st) = 0 /\ _transfer_count (e st) = 1 /\
  _transfer_seq (e st') = 1 /\
  _state (e st') = MAVLINK_WPM_STATE_SENDLIST /\
  length (log (w st')) = (2 + length (log (w st)))%nat /\
  map call (firstn 2 (log (w st'))) =
    [statustext_critical "Mission storage: Unable to read from microSD";
     mavlink_msg_mission_ack_send
       {| wpa_target_system := 255; wpa_target_component := 0;
          wpa_type := MAV_MISSION_ERROR; wpa_mission_type := 0 |}].
Proof. cbv zeta. run_each. Qed.

(** C5: one item more than the capacity of the mission namespace. *)
Lemma mission_count_over_capacity_witness :
  payload (gcs_count MAV_MISSION_TYPE_MISSION 2001) =
    MAVLINK_MSG_ID_MISSION_COUNT (gcs_wpc MAV_MISSION_TYPE_MISSION 2001) /\
  current_max_item_count mm_init = 2000 /\
  let st' := handle_message (gcs_count MAV_MISSION_TYPE_MISSION 2001) mm_init in
  (exists en, log (w st') = en :: log (w mm_init) /\
     call en = mavlink_msg_mission_ack_send
                 {| wpa_target_system := u8 (_transfer_partner_sysid (e mm_init));
                    wpa_target_component := u8 (_transfer_partner_compid (e mm_init));
                    wpa_type := MAV_MISSION_NO_SPACE;
                    wpa_mission_type := u8 MAV_MISSION_TYPE_MISSION |}) /\
  _state (e st') = MAVLINK_WPM_STATE_IDLE /\
  _transfer_in_progress (g st') = false.
Proof.
  split; [reflexivity|]. split; [reflexivity|].
  apply (mission_count_over_capacity (gcs_count MAV_MISSION_TYPE_MISSION 2001)
           (gcs_wpc MAV_MISSION_TYPE_MISSION 2001) mm_init);
    reflexivity.
Defined.

(** C6: during the announced upload the endpoint is in float mode; a
    MISSION_ACK(ERROR) of the partner puts it in int mode and changes
    nothing else.  During the download, the same ACK ends the download and
    leaves the encoding. *)
Lemma mission_ack_flips_int_mode_in_getlist_witness :
  (_state (e mm_upload_started) = MAVLINK_WPM_STATE_GETLIST /\
   _int_mode (e mm_upload_started) = false /\
   handle_message (gcs_ack MAV_MISSION_TYPE_MISSION MAV_MISSION_ERROR) mm_upload_started =
     E (set_int_mode true) mm_upload_started) /\
  (_state (e mm_download_started) = MAVLINK_WPM_STATE_SENDLIST /\
   _state (e (handle_message (gcs_ack MAV_MISSION_TYPE_MISSION MAV_MISSION_ERROR)
                mm_download_started)) = MAVLINK_WPM_STATE_IDLE /\
   _int_mode (e (handle_message (gcs_ack MAV_MISSION_TYPE_MISSION MAV_MISSION_ERROR)
                   mm_download_started)) = _int_mode (e mm_download_started)).
Proof.
  split.
  - split; [reflexivity|]. split; [reflexivity|].
    exact (proj1 (mission_ack_flips_int_mode_in_getlist
                    (gcs_ack MAV_MISSION_TYPE_MISSION MAV_MISSION_ERROR)
                    (gcs_wpa MAV_MISSION_TYPE_MISSION MAV_MISSION_ERROR)
                    mm_upload_started eq_refl)
             eq_refl eq_refl eq_refl).
  - split; [reflexivity|].
    destruct (proj2 (mission_ack_flips_int_mode_in_getlist
                       (gcs_ack MAV_MISSION_TYPE_MISSION MAV_MISSION_ERROR)
                       (gcs_wpa MAV_MISSION_TYPE_MISSION MAV_MISSION_ERROR)
                       mm_download_started eq_refl)
                eq_refl) as (H1 & H2 & _).
    destruct (H2 eq_refl eq_refl eq_refl) as (H3 & _).
    split; [exact H3|exact H1].
Defined.

(** C6, as stated, fails in SENDLIST: the endpoint is in int mode, the
    partner answers MISSION_ACK(ERROR), and the endpoint is still in int
    mode afterwards (and in IDLE); likewise from float mode. *)
Lemma ack_in_sendlist_keeps_int_mode :
  let nack := Message (gcs_ack MAV_MISSION_TYPE_MISSION MAV_MISSION_ERROR) in
  (_state (e mm_download_int) = MAVLINK_WPM_STATE_SENDLIST /\
   _int_mode (e mm_download_int) = true /\
   _int_mode (e (step nack mm_download_int)) = true /\
   _state (e (step nack mm_download_int)) = MAVLINK_WPM_STATE_IDLE) /\
  (_state (e mm_download_started) = MAVLINK_WPM_STATE_SENDLIST /\
   _int_mode (e mm_download_started) = false /\
   _int_mode (e (step nack mm_download_started)) = false).
Proof. cbv zeta. run_each. Qed.

(** C7: with one waypoint stored, MISSION_CURRENT(0) is sent. *)
Lemma send_mission_current_outcomes_witness :
  0 <= 0 < 2 ^ 16 /\
  count_at MAV_MISSION_TYPE_MISSION mm_one_waypoint = 1 /\
  log (w (send_mission_current 0 mm_one_waypoint)) =
    logged (mavlink_msg_mission_current_send 0) mm_one_waypoint :: log (w mm_one_waypoint).
Proof.
  split; [lia|]. split; [reflexivity|].
  destruct (send_mission_current_outcomes 0 mm_one_waypoint ltac:(lia)) as (_ & _ & H & _).
  apply H. reflexivity.
Defined.

(** C8: a float MISSION_ITEM in frame GLOBAL_INT during the announced
    upload. *)
Lemma parse_never_switches_to_int_mode_witness :
  _int_mode (e mm_upload_started) = false /\
  parse_mavlink_mission_item
    (gcs_wp MAV_MISSION_TYPE_MISSION 0 MAV_FRAME_GLOBAL_INT MAV_CMD_NAV_WAYPOINT 0%Q)
    mission_item_zero mm_upload_started =
  (MAV_MISSION_UNSUPPORTED_FRAME, mission_item_zero, mm_upload_started).
Proof.
  split; [reflexivity|].
  apply (parse_never_switches_to_int_mode
           (gcs_wp MAV_MISSION_TYPE_MISSION 0 MAV_FRAME_GLOBAL_INT MAV_CMD_NAV_WAYPOINT 0%Q)
           mission_item_zero mm_upload_started);
    [reflexivity | left; reflexivity].
Defined.

(** C10: with one waypoint stored, MISSION_SET_CURRENT(5) is answered by a
    status text only, and the static members and the store are
    unchanged. *)
Lemma mission_set_current_never_acks_witness :
  payload (gcs_set_current 5) = MAVLINK_MSG_ID_MISSION_SET_CURRENT (gcs_wsc 5) /\
  g (handle_message (gcs_set_current 5) mm_one_waypoint) = g mm_one_waypoint /\
  dm_store (w (handle_message (gcs_set_current 5) mm_one_waypoint)) =
    dm_store (w mm_one_waypoint).
Proof.
  split; [reflexivity|].
  destruct (mission_set_current_never_acks (gcs_set_current 5) (gcs_wsc 5) mm_one_waypoint
              eq_refl) as (_ & H & _).
  destruct H as (H1 & H2 & _); [right; vm_compute; discriminate|].
  split; assumption.
Defined.

(** A MISSION_ITEM_INT for vehicle 2 during the announced upload: vehicle
    1 is in int mode afterwards and nothing else has changed. *)
Lemma message_for_another_system_is_dropped_witness :
  addressed gcs_item_for_vehicle_2 mm_upload_started = false /\
  handle_message gcs_item_for_vehicle_2 mm_upload_started =
    E (set_int_mode true) mm_upload_started.
Proof.
  split; [reflexivity|].
  exact (message_for_another_system_is_dropped gcs_item_for_vehicle_2 mm_upload_started
           eq_refl).
Defined.

(** During the announced upload the transfer buffer is 1 and the active
    buffer 0: the first waypoint leaves slot 0 of the active buffer as it
    is. *)
Lemma active_mission_survives_upload_witness :
  _transfer_dataman_id (e mm_upload_started) = inactive_dataman_id mm_upload_started /\
  dm_store (w (step (Message (gcs_waypoint 0)) mm_upload_started)) !!
    (DM_KEY_WAYPOINTS_OFFBOARD (_dataman_id (g mm_upload_started)), 0) =
  dm_store (w mm_upload_started) !!
    (DM_KEY_WAYPOINTS_OFFBOARD (_dataman_id (g mm_upload_started)), 0).
Proof.
  split; [reflexivity|].
  apply (active_mission_survives_upload (Message (gcs_waypoint 0)) mm_upload_started 0).
  intros _ _. reflexivity.
Defined.

(** The announcement of two waypoints is admitted from the initial
    state. *)
Lemma upload_admission_witness :
  CHECK_SYSID_COMPID_MISSION 1 1 mm_init = true /\
  _state (e mm_init) = MAVLINK_WPM_STATE_IDLE /\
  let st' := handle_mission_count (gcs_count MAV_MISSION_TYPE_MISSION 2)
               (gcs_wpc MAV_MISSION_TYPE_MISSION 2) mm_init in
  _state (e st') = MAVLINK_WPM_STATE_GETLIST /\
  _transfer_in_progress (g st') = true /\
  _transfer_count (e st') = 2.
Proof.
  split; [reflexivity|]. split; [reflexivity|].
  pose proof (upload_admission (gcs_count MAV_MISSION_TYPE_MISSION 2)
                (gcs_wpc MAV_MISSION_TYPE_MISSION 2) mm_init eq_refl eq_refl) as H.
  cbv zeta in H.
  lazymatch type of H with
  | if _ then ?A else _ => change A in H
  end.
  destruct H as (H1 & H2 & _ & H4 & _).
  cbv zeta. split; [exact H1|]. split; [exact H2|exact H4].
Defined.

(** MISSION_COUNT(0) with one waypoint stored: the mission is empty
    afterwards and the other buffer is the active one. *)
Lemma empty_mission_count_clears_witness :
  _state (e mm_one_waypoint) = MAVLINK_WPM_STATE_IDLE /\
  _transfer_in_progress (g mm_one_waypoint) = false /\
  count_at MAV_MISSION_TYPE_MISSION mm_one_waypoint = 1 /\
  _dataman_id (g mm_one_waypoint) = 1 /\
  let st' := handle_mission_count (gcs_count MAV_MISSION_TYPE_MISSION 0)
               (gcs_wpc MAV_MISSION_TYPE_MISSION 0) mm_one_waypoint in
  count_at MAV_MISSION_TYPE_MISSION st' = 0 /\
  _dataman_id (g st') = 0.
Proof.
  do 4 (split; [reflexivity|]).
  destruct (empty_mission_count_clears (gcs_count MAV_MISSION_TYPE_MISSION 0)
              (gcs_wpc MAV_MISSION_TYPE_MISSION 0) mm_one_waypoint
              eq_refl eq_refl eq_refl eq_refl eq_refl
              ltac:(vm_compute; discriminate) ltac:(vm_compute; lia)) as (_ & H & _).
  destruct (H eq_refl) as (H1 & H2 & _).
  cbv zeta. split; [exact H1|exact H2].
Defined.

(** The announcement of a fence of three vertices takes the lock. *)
Lemma fence_upload_takes_the_lock_witness :
  _state (e mm_init) = MAVLINK_WPM_STATE_IDLE /\
  _transfer_in_progress (g mm_init) = false /\
  (0 < 3 <= current_max_item_count (E (set_mission_type MAV_MISSION_TYPE_FENCE) mm_init)) /\
  let st' := handle_mission_count (gcs_count MAV_MISSION_TYPE_FENCE 3)
               (gcs_wpc MAV_MISSION_TYPE_FENCE 3) mm_init in
  _geofence_locked (e st') = true /\ fence_lock (w st') = true.
Proof.
  split; [reflexivity|]. split; [reflexivity|].
  assert (Hn : 0 < 3 <= current_max_item_count
                          (E (set_mission_type MAV_MISSION_TYPE_FENCE) mm_init))
    by (vm_compute; split; [reflexivity | discriminate]).
  split; [exact Hn|].
  destruct (fence_upload_takes_the_lock (gcs_count MAV_MISSION_TYPE_FENCE 3)
              (gcs_wpc MAV_MISSION_TYPE_FENCE 3) mm_init eq_refl eq_refl eq_refl Hn)
    as (_ & H).
  lazymatch type of H with
  | if _ then ?A else _ => change A in H
  end.
  destruct H as (H1 & H2 & _).
  cbv zeta. split; [exact H1|exact H2].
Defined.

(** The ground station asks for the stored mission of one waypoint. *)
Lemma request_list_starts_download_witness :
  CHECK_SYSID_COMPID_MISSION 1 1 mm_one_waypoint = true /\
  _state (e mm_one_waypoint) = MAVLINK_WPM_STATE_IDLE /\
  let st' := handle_mission_request_list (gcs_request_list MAV_MISSION_TYPE_MISSION)
               (gcs_wprl MAV_MISSION_TYPE_MISSION) mm_one_waypoint in
  _state (e st') = MAVLINK_WPM_STATE_SENDLIST /\
  _transfer_seq (e st') = 0 /\
  _transfer_count (e st') = 1.
Proof.
  split; [reflexivity|]. split; [reflexivity|].
  destruct (request_list_starts_download (gcs_request_list MAV_MISSION_TYPE_MISSION)
              (gcs_wprl MAV_MISSION_TYPE_MISSION) mm_one_waypoint eq_refl
              (or_introl eq_refl)) as (H1 & _ & H3 & _ & _ & _ & H7 & _).
  cbv zeta. split; [exact H1|]. split; [exact H3|].
  rewrite (H7 eq_refl ltac:(vm_compute; lia)). reflexivity.
Defined.

(** MISSION_CLEAR_ALL during the announced upload is answered by a status
    text and nothing else. *)
Lemma busy_endpoint_refuses_witness :
  addressed (gcs_clear_all MAV_MISSION_TYPE_MISSION) mm_upload_started = true /\
  _state (e mm_upload_started) <> MAVLINK_WPM_STATE_IDLE /\
  exists text,
    handle_message (gcs_clear_all MAV_MISSION_TYPE_MISSION) mm_upload_started =
      send_statustext_critical text mm_upload_started.
Proof.
  split; [reflexivity|]. split; [discriminate|].
  apply (busy_endpoint_refuses (gcs_clear_all MAV_MISSION_TYPE_MISSION) mm_upload_started);
    [reflexivity | discriminate].
Defined.

(** While 255/0 downloads the mission, the request of 42/0 is refused. *)
Lemma stranger_cannot_drive_a_download_witness :
  addressed stranger_request mm_download_started = true /\
  from_partner stranger_request mm_download_started = false /\
  exists text,
    handle_message stranger_request mm_download_started =
      send_statustext_critical text
        (E (set_int_mode (variant_int_mode (payload stranger_request)
                            (_int_mode (e mm_download_started))))
           mm_download_started).
Proof.
  split; [reflexivity|]. split; [reflexivity|].
  apply (stranger_cannot_drive_a_download stranger_request mm_download_started);
    [reflexivity | reflexivity | exact I].
Defined.

(** After a restart on the dataman of the uploaded mission, the endpoint
    has buffer 1 active and a mission of one item. *)
Lemma persisted_header_is_restored_witness :
  dm_fault mm_init = false /\
  dm_fault mm_rebooted = false /\
  _dataman_init (g mm_rebooted) = false /\
  _dataman_id (g (init_offboard_mission mm_rebooted)) = 1 /\
  count_at MAV_MISSION_TYPE_MISSION (init_offboard_mission mm_rebooted) = 1 /\
  _my_dataman_id (e (init_offboard_mission mm_rebooted)) = 1.
Proof.
  do 3 (split; [reflexivity|]).
  destruct (persisted_header_is_restored 1 1 (-1) mm_init mm_rebooted eq_refl
              ltac:(vm_compute; reflexivity) eq_refl ltac:(vm_compute; lia)) as (H & _).
  destruct (H eq_refl) as (H1 & H2 & _ & H4 & _).
  split; [exact H1|]. split; [exact H2|exact H4].
Defined.

(** After a restart on a dataman with the stats of a fence of four
    vertices, the fence count is 4. *)
Lemma persisted_stats_are_restored_witness :
  dm_fault mm_init = false /\
  dm_fault mm_rebooted_fence = false /\
  count_at MAV_MISSION_TYPE_FENCE (load_geofence_stats mm_rebooted_fence) = 4.
Proof.
  do 2 (split; [reflexivity|]).
  destruct (persisted_stats_are_restored 4 mm_init mm_rebooted_fence eq_refl eq_refl
              ltac:(vm_compute; lia)) as (H & _).
  destruct (H eq_refl) as (H1 & _). exact H1.
Defined.

(** The waypoint of the upload of one item is the item that a read of
    sequence number 0 returns once the upload is complete. *)
Lemma stored_item_is_read_back_witness :
  let wp := gcs_wp MAV_MISSION_TYPE_MISSION 0 MAV_FRAME_GLOBAL MAV_CMD_NAV_WAYPOINT 0%Q in
  let mi := snd (fst (parse_mavlink_mission_item wp mission_item_zero mm_one_announced)) in
  fst (fst (store_mission_item wp mi mm_one_announced)) = false /\
  snd (fst (store_mission_item wp mi mm_one_announced)) = false /\
  _dataman_id (g mm_one_waypoint) = _transfer_dataman_id (e mm_one_announced) /\
  fst (read_mission_item 0 mm_one_waypoint) = (true, mi).
Proof.
  cbv zeta.
  split; [vm_compute; reflexivity|]. split; [vm_compute; reflexivity|].
  split; [reflexivity|].
  destruct (stored_item_is_read_back
              (gcs_wp MAV_MISSION_TYPE_MISSION 0 MAV_FRAME_GLOBAL MAV_CMD_NAV_WAYPOINT 0%Q)
              (snd (fst (parse_mavlink_mission_item
                           (gcs_wp MAV_MISSION_TYPE_MISSION 0 MAV_FRAME_GLOBAL
                              MAV_CMD_NAV_WAYPOINT 0%Q)
                           mission_item_zero mm_one_announced)))
              mm_one_announced mm_one_waypoint
              (or_introl eq_refl)
              ltac:(vm_compute; reflexivity) ltac:(vm_compute; reflexivity)
              eq_refl (fun _ => eq_refl)
              ltac:(vm_compute; reflexivity) eq_refl) as (H & _).
  exact H.
Defined.

(** A waypoint in frame GLOBAL, parsed in float mode and formatted again,
    keeps its command and its frame. *)
Lemma format_of_parsed_item_witness :
  let wp := gcs_wp MAV_MISSION_TYPE_MISSION 0 MAV_FRAME_GLOBAL MAV_CMD_NAV_WAYPOINT 0%Q in
  let pr := parse_mavlink_mission_item wp mission_item_zero mm_upload_started in
  let fm := format_mavlink_mission_item false (snd (fst pr)) wp_zero in
  fst (fst pr) = MAV_MISSION_ACCEPTED /\
  wp_command (snd fm) = MAV_CMD_NAV_WAYPOINT /\
  wp_frame (snd fm) = MAV_FRAME_GLOBAL /\
  fst fm = PX4_OK.
Proof.
  cbv zeta. split; [vm_compute; reflexivity|].
  destruct (format_of_parsed_item
              (gcs_wp MAV_MISSION_TYPE_MISSION 0 MAV_FRAME_GLOBAL MAV_CMD_NAV_WAYPOINT 0%Q)
              wp_zero mission_item_zero mm_upload_started
              ltac:(vm_compute; reflexivity)) as (H1 & _ & _ & H4 & H5 & _).
  split; [exact H1|]. split; [exact H4|exact H5].
Defined.

(** The result of the navigator is consumed and item 0 reported as
    reached. *)
Lemma mission_result_is_reported_witness :
  mission_result (w mm_item_reached) <> None /\
  mission_result (w (send 2000000 mm_item_reached)) = None /\
  _last_reached (g (send 2000000 mm_item_reached)) = 0 /\
  sent (mavlink_msg_mission_item_reached_send 0) mm_item_reached
    (send 2000000 mm_item_reached).
Proof.
  split; [discriminate|].
  destruct (mission_result_is_reported 2000000
              {| seq_current := 0; seq_reached := 0; reached := true;
                 item_do_jump_changed := false; item_changed_index := 0 |}
              mm_item_reached eq_refl) as (H1 & _ & H3 & H4 & _).
  split; [exact H1|]. split; [exact H3|]. exact (H4 eq_refl).
Defined.

(** MISSION_CLEAR_ALL for all types when the write of the mission header
    fails: the mission keeps its waypoint and its buffer, and the answer is
    MISSION_ACK(ERROR). *)
Lemma clear_all_clears_each_list_witness :
  _state (e mm_first_write_fails) = MAVLINK_WPM_STATE_IDLE /\
  _count (g mm_first_write_fails) = [1; 0; 0] /\
  let st' := handle_mission_clear_all (gcs_clear_all MAV_MISSION_TYPE_ALL)
               (gcs_wpca MAV_MISSION_TYPE_ALL) mm_first_write_fails in
  _count (g st') = [1; 0; 0] /\
  _dataman_id (g st') = _dataman_id (g mm_first_write_fails) /\
  dm_faults (w st') = [].
Proof.
  split; [reflexivity|]. split; [reflexivity|].
  destruct (clear_all_clears_each_list (gcs_clear_all MAV_MISSION_TYPE_ALL)
              (gcs_wpca MAV_MISSION_TYPE_ALL) mm_first_write_fails 1 0 0 true false false []
              eq_refl eq_refl eq_refl eq_refl eq_refl) as (H1 & H2 & H3 & _).
  cbv zeta. split; [exact H1|]. split; [exact H2|exact H3].
Defined.

(** From the initial state, through the announcement of a fence and a
    polygon vertex that is refused. *)
Lemma session_bookkeeping_is_kept_witness :
  consistent mm_init /\
  consistent (run [Message (gcs_count MAV_MISSION_TYPE_FENCE 3); Message gcs_short_polygon]
                mm_init).
Proof.
  assert (H : consistent mm_init).
  { split; [split; intros H; discriminate H|].
    split; [intros H; discriminate H|reflexivity]. }
  split; [exact H|].
  apply (session_bookkeeping_is_kept
           [Message (gcs_count MAV_MISSION_TYPE_FENCE 3); Message gcs_short_polygon]
           mm_init H).
Defined.

(** Scenario 5 of the specification with a fence of four vertices in use:
    the vertex that announces two vertices leaves no fence. *)
Lemma short_polygon_empties_the_fence_witness :
  let wp := gcs_wp MAV_MISSION_TYPE_FENCE 0 MAV_FRAME_GLOBAL
              MAV_CMD_NAV_FENCE_POLYGON_VERTEX_INCLUSION (inject_Z 2) in
  _state (e mm_fence_replaced) = MAVLINK_WPM_STATE_GETLIST /\
  _mission_type (e mm_fence_replaced) = MAV_MISSION_TYPE_FENCE /\
  count_at MAV_MISSION_TYPE_FENCE mm_fence_replaced = 4 /\
  _geofence_locked (e mm_fence_replaced) = true /\
  let st' := handle_mission_item_both gcs_short_polygon wp mm_fence_replaced in
  count_at MAV_MISSION_TYPE_FENCE st' = 0 /\
  _state (e st') = MAVLINK_WPM_STATE_IDLE /\
  _geofence_locked (e st') = false.
Proof.
  cbv zeta. do 4 (split; [reflexivity|]).
  destruct (short_polygon_empties_the_fence gcs_short_polygon
              (gcs_wp MAV_MISSION_TYPE_FENCE 0 MAV_FRAME_GLOBAL
                 MAV_CMD_NAV_FENCE_POLYGON_VERTEX_INCLUSION (inject_Z 2))
              mm_fence_replaced eq_refl eq_refl eq_refl eq_refl eq_refl
              ltac:(vm_compute; discriminate) ltac:(vm_compute; lia)
              ltac:(vm_compute; reflexivity) ltac:(vm_compute; reflexivity)
              ltac:(vm_compute; reflexivity))
    as (H1 & _ & _ & H4 & _ & H6 & _).
  split; [exact H1|]. split; [exact H4|exact H6].
Defined.

End Checks.
